(** * air-health-jp: cleaning and monthly aggregation (src/data/load_data.py)

    A shallow embedding of [clean_data] and [aggregate_monthly] together
    with the pandas operations they call.

    Conventions of the embedding.
    - A pandas column is a typed sequence ([series]): a number column
      (int64/float64; NaN is [None]), an object column holding text (NaN
      is [None]) or a datetime64 column (NaT is [None]).  Numbers are exact
      rationals; rounding, infinities and the bool dtype are outside the
      model.
    - A [DataFrame] is the ordered list of its named columns.  Frames are
      Python objects: they live in a [heap] and are handled through
      references, because [clean_data] assigns into the frame it is given.
    - [pd.to_datetime] is a library routine whose accepted formats are
      not part of this repository: the development is parametric in the
      text parser and in the epoch conversion of numbers ([DateParser]);
      [iso_dates] is the instance the examples run with.
    - A month bucket of [resample('M')] is identified by its month ordinal
      [12 * year + (month - 1)]; [bucket_label] gives the month-end
      timestamp pandas prints for it. *)

From Stdlib Require Import ZArith QArith Qround Lia Ascii.
From stdpp Require Import base option list strings sorting gmap pretty.

(** ** Values *)

Record timestamp := Timestamp { ts_year : Z; ts_month : Z; ts_day : Z }.

(** A single value, as the spec's data model has it. *)
Inductive cell :=
| NA
| Num (q : Q)
| Text (s : string)
| Stamp (t : timestamp).

Inductive series :=
| Float64 (v : list (option Q))
| Object (v : list (option string))
| Datetime (v : list (option timestamp)).

Definition cells (s : series) : list cell :=
  match s with
  | Float64 v => map (from_option Num NA) v
  | Object v => map (from_option Text NA) v
  | Datetime v => map (from_option Stamp NA) v
  end.

Definition series_len (s : series) : nat :=
  match s with
  | Float64 v => length v
  | Object v => length v
  | Datetime v => length v
  end.

Definition is_number (s : series) : bool :=
  match s with Float64 _ => true | _ => false end.

(** [Series.notna()] *)
Definition notna (s : series) : list bool :=
  match s with
  | Float64 v => map (fun c => bool_decide (is_Some c)) v
  | Object v => map (fun c => bool_decide (is_Some c)) v
  | Datetime v => map (fun c => bool_decide (is_Some c)) v
  end.

(** ** Frames *)

Abbreviation DataFrame := (list (string * series)).

Definition columns (df : DataFrame) : list string := map fst df.

Fixpoint get_column (col : string) (df : DataFrame) : option series :=
  match df with
  | [] => None
  | (n, s) :: df' => if String.eqb n col then Some s else get_column col df'
  end.

(** [df[col] = s] for a label that may or may not exist yet: an existing
    column is replaced where it stands, a new one is appended. *)
Fixpoint set_column (col : string) (s : series) (df : DataFrame) : DataFrame :=
  match df with
  | [] => [(col, s)]
  | (n, s0) :: df' =>
      if String.eqb n col then (n, s) :: df' else (n, s0) :: set_column col s df'
  end.

(** Number of rows (length of the index); every column has that length in
    a well-formed frame. *)
Definition nrows (df : DataFrame) : nat :=
  match df with
  | [] => 0
  | (_, s) :: _ => series_len s
  end.

Definition wf_frame (df : DataFrame) : Prop :=
  NoDup (columns df) /\ Forall (fun c => series_len c.2 = nrows df) df.

(** ** Exceptions and the interpreter state *)

Inductive exn :=
| KeyError (label : string)
| ParseError (row : nat) (value : cell)
| TypeError (what : string)
| ValueError (what : string).

Inductive result (A : Type) :=
| Ok (a : A)
| Raise (e : exn).
Arguments Ok {A} a.
Arguments Raise {A} e.

Definition rbind {A B} (r : result A) (k : A -> result B) : result B :=
  match r with
  | Ok a => k a
  | Raise e => Raise e
  end.

Definition rmap {A B} (f : A -> B) (r : result A) : result B :=
  rbind r (fun a => Ok (f a)).

Abbreviation ref := nat (only parsing).
Abbreviation heap := (list DataFrame).

(** A Python computation: it reads and writes the heap and either returns
    or raises; a raise keeps the writes made before it. *)
Definition py (A : Type) : Type := heap -> result A * heap.

Definition ret {A} (a : A) : py A := fun h => (Ok a, h).
Definition throw {A} (e : exn) : py A := fun h => (Raise e, h).
Definition bind {A B} (m : py A) (k : A -> py B) : py B :=
  fun h => match m h with
           | (Ok a, h') => k a h'
           | (Raise e, h') => (Raise e, h')
           end.
Definition lift {A} (r : result A) : py A := fun h => (r, h).

Declare Scope py_scope.
Delimit Scope py_scope with py.
Notation "x <- m ;; k" := (bind m (fun x => k))
  (at level 100, m at next level, right associativity) : py_scope.
Notation "m ;; k" := (bind m (fun _ => k))
  (at level 100, right associativity) : py_scope.

(** Dereference; a dangling reference cannot be built by the program, the
    model reports it as a [ValueError]. *)
Definition deref (df : ref) : py DataFrame :=
  fun h => match h !! df with
           | Some f => (Ok f, h)
           | None => (Raise (ValueError "dangling reference"), h)
           end.

Definition assign (df : ref) (f : DataFrame) : py unit :=
  fun h => (Ok tt, <[df := f]> h).

Definition alloc (f : DataFrame) : py ref :=
  fun h => (Ok (length h), h ++ [f]).

(** [for x in xs: body(x)] *)
Fixpoint for_each {A} (xs : list A) (body : A -> py unit) : py unit :=
  match xs with
  | [] => ret tt
  | x :: xs' => (body x ;; for_each xs' body)%py
  end.

(** ** pandas operations used by [clean_data] *)

(** [df[col]] *)
Definition getitem (df : ref) (col : string) : py series :=
  (f <- deref df ;;
   match get_column col f with
   | Some s => ret s
   | None => throw (KeyError col)
   end)%py.

(** [df[col] = s]: the frame object itself is updated. *)
Definition setitem (df : ref) (col : string) (s : series) : py unit :=
  (f <- deref df ;; assign df (set_column col s f))%py.

(** [df.select_dtypes(include="number").columns] *)
Definition select_dtypes_include_number (df : ref) : py (list string) :=
  (f <- deref df ;; ret (columns (filter (fun c => is_number c.2 = true) f)))%py.

(** [df.select_dtypes(exclude="number").columns] *)
Definition select_dtypes_exclude_number (df : ref) : py (list string) :=
  (f <- deref df ;; ret (columns (filter (fun c => is_number c.2 = false) f)))%py.

(** [Index.drop(label, errors='ignore')] *)
Definition drop_label (label : string) (labels : list string) : list string :=
  filter (fun n => n <> label) labels.

Definition Qsum (xs : list Q) : Q := foldr Qplus 0%Q xs.

(** Mean of the non-missing values; NaN ([None]) when there is none.  The
    quotient is kept in lowest terms. *)
Definition mean_skipna (v : list (option Q)) : option Q :=
  match omap id v with
  | [] => None
  | xs => Some (Qred (Qsum xs / inject_Z (Z.of_nat (length xs))))
  end.

(** [Series.mean()].  [clean_data] calls it on number columns only; on
    text pandas raises, and the mean of a datetime column is not a number. *)
Definition mean (s : series) : result (option Q) :=
  match s with
  | Float64 v => Ok (mean_skipna v)
  | Object _ => Raise (TypeError "mean of an object column")
  | Datetime _ => Raise (TypeError "mean of a datetime column")
  end.

(** [Series.fillna(value)] with a float [value]; filling with NaN changes
    nothing.  Only number columns are ever filled. *)
Definition fillna (s : series) (value : option Q) : series :=
  match s with
  | Float64 v => Float64 (map (fun c => match c with Some x => Some x | None => value end) v)
  | _ => s
  end.

(** Rows of [l] whose mask bit is set. *)
Fixpoint select {A} (mask : list bool) (l : list A) : list A :=
  match mask, l with
  | b :: mask', x :: l' => if b then x :: select mask' l' else select mask' l'
  | _, _ => []
  end.

Definition take_rows (mask : list bool) (s : series) : series :=
  match s with
  | Float64 v => Float64 (select mask v)
  | Object v => Object (select mask v)
  | Datetime v => Datetime (select mask v)
  end.

Fixpoint lookup_columns (labels : list string) (f : DataFrame) : result (list series) :=
  match labels with
  | [] => Ok []
  | n :: labels' =>
      match get_column n f with
      | None => Raise (KeyError n)
      | Some s => rmap (cons s) (lookup_columns labels' f)
      end
  end.

(** Rows that have a value in every column of [cols]. *)
Definition complete_rows (n : nat) (cols : list series) : list bool :=
  foldr (fun s m => zip_with andb (notna s) m) (replicate n true) cols.

(** [df.dropna(subset=labels)]: a new frame with the rows that have no
    missing value in the listed columns. *)
Definition dropna (df : ref) (subset : list string) : py ref :=
  (f <- deref df ;;
   cols <- lift (lookup_columns subset f) ;;
   let keep := complete_rows (nrows f) cols in
   alloc (map (fun c => (c.1, take_rows keep c.2)) f))%py.

(** [pd.to_datetime] on one text value and on one number (epoch
    nanoseconds); [None] when pandas raises on it. *)
Class DateParser := {
  parse_datetime : string -> option timestamp;
  epoch_to_datetime : Q -> option timestamp
}.

Section Cleaning.

Context `{DateParser}.

(** A missing value becomes NaT; it is not an error. *)
Definition to_timestamp (c : cell) : option (option timestamp) :=
  match c with
  | NA => Some None
  | Stamp t => Some (Some t)
  | Text s => Some <$> parse_datetime s
  | Num q => Some <$> epoch_to_datetime q
  end.

Fixpoint convert_rows (row : nat) (cs : list cell) : result (list (option timestamp)) :=
  match cs with
  | [] => Ok []
  | c :: cs' =>
      match to_timestamp c with
      | None => Raise (ParseError row c)
      | Some t => rmap (cons t) (convert_rows (S row) cs')
      end
  end.

(** [pd.to_datetime(series)] with the default [errors='raise']. *)
Definition to_datetime (s : series) : result series :=
  rmap Datetime (convert_rows 0 (cells s)).

(** [clean_data(df, date_col)], load_data.py lines 42-62. *)
Definition clean_data (df : ref) (date_col : string) : py ref :=
  (s <- getitem df date_col ;;
   d <- lift (to_datetime s) ;;
   setitem df date_col d ;;
   num_cols <- select_dtypes_include_number df ;;
   others <- select_dtypes_exclude_number df ;;
   let obj_cols := drop_label date_col others in
   for_each num_cols (fun col =>
     c <- getitem df col ;;
     m <- lift (mean c) ;;
     setitem df col (fillna c m)) ;;
   dropna df obj_cols)%py.

End Cleaning.

(** ** A concrete [pd.to_datetime] for examples

    ISO dates [YYYY-MM-DD] for text, nanoseconds since 1970-01-01 for
    numbers (the int64 range pandas accepts). *)

Definition is_leap (y : Z) : bool :=
  ((y mod 4 =? 0) && negb (y mod 100 =? 0) || (y mod 400 =? 0))%Z.

Definition days_in_month (y m : Z) : Z :=
  if (m =? 2)%Z then (if is_leap y then 29 else 28)%Z
  else if ((m =? 4) || (m =? 6) || (m =? 9) || (m =? 11))%Z then 30%Z
  else 31%Z.

Definition digit (a : Ascii.ascii) : option Z :=
  let n := Ascii.nat_of_ascii a in
  if (48 <=? n)%nat && (n <=? 57)%nat then Some (Z.of_nat (n - 48)) else None.

Fixpoint digits (acc : Z) (cs : list Ascii.ascii) : option Z :=
  match cs with
  | [] => Some acc
  | c :: cs' => d ← digit c; digits (10 * acc + d)%Z cs'
  end.

Definition parse_iso_date (s : string) : option timestamp :=
  match String.list_ascii_of_string s with
  | [y1; y2; y3; y4; d1; m1; m2; d2; a1; a2] =>
      if (Ascii.eqb d1 "-"%char && Ascii.eqb d2 "-"%char)%bool then
        y ← digits 0 [y1; y2; y3; y4];
        m ← digits 0 [m1; m2];
        d ← digits 0 [a1; a2];
        if ((1 <=? m) && (m <=? 12) && (1 <=? d) && (d <=? days_in_month y m))%Z
        then Some (Timestamp y m d) else None
      else None
  | _ => None
  end.

(** Days since 1970-01-01 to a civil date (proleptic Gregorian). *)
Definition civil_from_days (z : Z) : timestamp :=
  let z := (z + 719468)%Z in
  let era := (z / 146097)%Z in
  let doe := (z - era * 146097)%Z in
  let yoe := ((doe - doe / 1460 + doe / 36524 - doe / 146096) / 365)%Z in
  let doy := (doe - (365 * yoe + yoe / 4 - yoe / 100))%Z in
  let mp := ((5 * doy + 2) / 153)%Z in
  let d := (doy - (153 * mp + 2) / 5 + 1)%Z in
  let m := (if (mp <? 10)%Z then mp + 3 else mp - 9)%Z in
  let y := (yoe + era * 400 + (if (m <=? 2)%Z then 1 else 0))%Z in
  Timestamp y m d.

Definition epoch_ns_to_datetime (q : Q) : option timestamp :=
  let ns := Qfloor q in
  if ((- 2 ^ 63 <? ns) && (ns <? 2 ^ 63))%Z
  then Some (civil_from_days (ns / 86400000000000))
  else None.

Definition iso_dates : DateParser :=
  {| parse_datetime := parse_iso_date; epoch_to_datetime := epoch_ns_to_datetime |}.

Abbreviation clean := (@clean_data iso_dates).

(** ** Monthly aggregation *)

Definition month_ord (t : timestamp) : Z := (12 * ts_year t + (ts_month t - 1))%Z.

(** The label pandas gives the bucket: the last day of the month. *)
Definition bucket_label (k : Z) : timestamp :=
  let y := (k / 12)%Z in
  let m := (k mod 12 + 1)%Z in
  Timestamp y m (days_in_month y m).

(** A frame after [set_index]: the key column is the index, the other
    columns stay. *)
Record indexed := Indexed { ix : series; body : DataFrame }.

(** A table indexed by month: the index column and, for each value
    column, one cell per index entry (NaN is [None]). *)
Record table := Table { t_index : list Z; t_columns : list (string * list (option Q)) }.

(** [DataFrame.resample('M')]: each row's bucket ([None] for a NaT key)
    and the columns to aggregate. *)
Record resampler := Resampler { keys : list (option Z); grouped : DataFrame }.

Declare Scope result_scope.
Delimit Scope result_scope with result.
Notation "x <- m ;; k" := (rbind m (fun x => k))
  (at level 100, m at next level, right associativity) : result_scope.

(** [df.set_index(key)]: a new frame, the argument is left as it is. *)
Definition set_index (df : DataFrame) (key : string) : result indexed :=
  match get_column key df with
  | None => Raise (KeyError key)
  | Some s => Ok (Indexed s (filter (fun c => c.1 <> key) df))
  end.

(** [resample('M')] needs a datetime index.  Rows with a NaT key belong
    to no bucket; when every key of a non-empty index is NaT pandas cannot
    build the bucket range and raises. *)
Definition resample_M (x : indexed) : result resampler :=
  match ix x with
  | Datetime v =>
      match v, omap id v with
      | _ :: _, [] => Raise (ValueError "bucket range from NaT")
      | _, _ => Ok (Resampler (map (fmap month_ord) v) (body x))
      end
  | _ => Raise (TypeError "Only valid with DatetimeIndex")
  end.

(** The buckets: every month from the earliest to the latest key,
    ascending, whether or not it holds a row. *)
Definition month_range (ks : list (option Z)) : list Z :=
  match omap id ks with
  | [] => []
  | k :: ks' =>
      let lo := foldr Z.min k ks' in
      let hi := foldr Z.max k ks' in
      seqZ lo (hi - lo + 1)
  end.

Definition in_bucket (ks : list (option Z)) (k : Z) : list bool :=
  map (fun o => bool_decide (o = Some k)) ks.

Definition bucket_size (ks : list (option Z)) (k : Z) : nat :=
  length (filter (fun o => o = Some k) ks).

(** Mean of a number column within bucket [k]; NaN for a bucket without
    values. *)
Definition bucket_mean (ks : list (option Z)) (v : list (option Q)) (k : Z) : option Q :=
  mean_skipna (select (in_bucket ks k) v).

Section Aggregation.

(** Effective [numeric_only] of [Resampler.mean()]: before pandas 2.0
    columns that cannot be averaged are left out ([true]); from 2.0 on
    they make the call raise ([false]).  A datetime column among the
    values, which neither the loaders nor [clean_data] produce next to
    the date column, is treated like a text column. *)
Variable numeric_only : bool.

Fixpoint mean_columns (ks : list (option Z)) (buckets : list Z) (f : DataFrame)
    : result (list (string * list (option Q))) :=
  match f with
  | [] => Ok []
  | (n, Float64 v) :: f' =>
      rmap (cons (n, map (bucket_mean ks v) buckets)) (mean_columns ks buckets f')
  | (n, _) :: f' =>
      if numeric_only then mean_columns ks buckets f'
      else Raise (TypeError "agg function failed [how->mean]")
  end.

(** [Resampler.mean()].  With no row at all pandas hands back the frame
    itself (every column, no bucket). *)
Definition resample_mean (r : resampler) : result table :=
  match keys r with
  | [] => Ok (Table [] (map (fun c => (c.1, [])) (grouped r)))
  | _ =>
      let buckets := month_range (keys r) in
      rmap (Table buckets) (mean_columns (keys r) buckets (grouped r))
  end.

(** [Resampler.size().to_frame(name)]: the row count of every bucket. *)
Definition resample_size_to_frame (name : string) (r : resampler) : table :=
  let buckets := month_range (keys r) in
  Table buckets
    [(name, map (fun k => Some (inject_Z (Z.of_nat (bucket_size (keys r) k)))) buckets)].

(** [DataFrame.add_prefix] *)
Definition add_prefix (p : string) (t : table) : table :=
  Table (t_index t) (map (fun c => (String.append p c.1, c.2)) (t_columns t)).

(** The cell of a column at month [k]; NaN when the month is not in
    the index. *)
Fixpoint at_month (idx : list Z) (vals : list (option Q)) (k : Z) : option Q :=
  match idx, vals with
  | i :: idx', v :: vals' => if (i =? k)%Z then v else at_month idx' vals' k
  | _, _ => None
  end.

Definition reindex (idx : list Z) (t : table) : list (string * list (option Q)) :=
  map (fun c => (c.1, map (at_month (t_index t) c.2) idx)) (t_columns t).

(** The index of an outer join: the union of both, ascending. *)
Definition union_index (l r : list Z) : list Z :=
  merge_sort Z.le (list_union l r).

(** [left.join(right, how='outer')]: the sorted union of the two
    indexes, the columns of both; a shared column label is an error. *)
Definition join_outer (l r : table) : result table :=
  if existsb (fun n => bool_decide (n ∈ map fst (t_columns r))) (map fst (t_columns l))
  then Raise (ValueError "columns overlap but no suffix specified")
  else
    let idx := union_index (t_index l) (t_index r) in
    Ok (Table idx (reindex idx l ++ reindex idx r)).

(** [DataFrame.fillna(0)] *)
Definition fillna_zero (t : table) : table :=
  Table (t_index t)
    (map (fun c => (c.1, map (fun x => Some (default 0%Q x)) c.2)) (t_columns t)).

(** [aggregate_monthly(air_df, hosp_df, jp_df)], load_data.py lines
    65-83.  Nothing is assigned into the arguments: every step builds a
    new object. *)
Definition aggregate_monthly (air_df hosp_df jp_df : DataFrame) : result table :=
  (air_df <- set_index air_df "timestamp" ;;
   hosp_df <- set_index hosp_df "admission_date" ;;
   jp_df <- set_index jp_df "admission_date" ;;
   air_r <- resample_M air_df ;;
   air_mean <- resample_mean air_r ;;
   let air_m := add_prefix "air_" air_mean in
   hosp_r <- resample_M hosp_df ;;
   let hosp_m := resample_size_to_frame "hospitalizations_total" hosp_r in
   jp_r <- resample_M jp_df ;;
   let jp_m := resample_size_to_frame "hospitalizations_jp" jp_r in
   m <- join_outer air_m hosp_m ;;
   merged <- join_outer m jp_m ;;
   Ok (fillna_zero merged))%result.

End Aggregation.

(** ** What a successful [clean_data] leaves behind, as plain functions *)

(** A number column with its gaps filled by its own mean; other columns
    as they are. *)
Definition impute_column (s : series) : series :=
  match s with
  | Float64 v => fillna s (mean_skipna v)
  | _ => s
  end.

Definition imputed (f : DataFrame) : DataFrame :=
  map (fun c => (c.1, impute_column c.2)) f.

Definition impute_named (ns : list string) (f : DataFrame) : DataFrame :=
  map (fun c => if bool_decide (c.1 ∈ ns) then (c.1, impute_column c.2) else c) f.

(** The columns [dropna] looks at: not numbers, not the date column. *)
Definition text_columns (date_col : string) (f : DataFrame) : DataFrame :=
  filter (fun c => c.1 <> date_col) (filter (fun c => is_number c.2 = false) f).

Definition kept_rows (date_col : string) (f : DataFrame) : list bool :=
  complete_rows (nrows f) (map snd (text_columns date_col f)).

Definition take_frame (keep : list bool) (f : DataFrame) : DataFrame :=
  map (fun c => (c.1, take_rows keep c.2)) f.

(** The frame the caller holds after a successful call: the date column
    replaced by the parsed one [d], number columns filled. *)
Definition cleaned_in_place (d : series) (date_col : string) (f : DataFrame) : DataFrame :=
  imputed (set_column date_col d f).

(** Does the column hold a missing value? *)
Definition has_missing (s : series) : bool := negb (forallb id (notna s)).

(** ** Vocabulary for the aggregation claims *)

(** The month of every row of [f], read off its date column [key]. *)
Definition month_keys (key : string) (f : DataFrame) : list (option Z) :=
  match get_column key f with
  | Some (Datetime v) => map (fmap month_ord) v
  | _ => []
  end.

(** The months [resample('M')] makes of a source. *)
Definition resampled_months (key : string) (f : DataFrame) : list Z :=
  month_range (month_keys key f).

Definition rows_in_month (key : string) (f : DataFrame) (k : Z) : nat :=
  bucket_size (month_keys key f) k.

(** A cleaned input the resampling accepts: its date column is a
    datetime column, without rows or with a date in some row. *)
Definition dated (key : string) (f : DataFrame) : bool :=
  match get_column key f with
  | Some (Datetime v) =>
      match v, omap id v with
      | _ :: _, [] => false
      | _, _ => true
      end
  | _ => false
  end.

(** The air columns can be averaged: text columns are left out, or there
    is no row, or every column is a number column. *)
Definition averageable (numeric_only : bool) (air : DataFrame) : bool :=
  numeric_only
  || match month_keys "timestamp" air with [] => true | _ => false end
  || forallb (fun c => is_number c.2) (filter (fun c => c.1 <> "timestamp") air).

(** The number columns of a frame, with their values. *)
Definition number_columns (f : DataFrame) : list (string * list (option Q)) :=
  omap (fun c => match c.2 with Float64 v => Some (c.1, v) | _ => None end) f.

(** Row counts of the buckets of a source. *)
Definition size_cells (ks : list (option Z)) : list (option Q) :=
  map (fun k => Some (inject_Z (Z.of_nat (bucket_size ks k)))) (month_range ks).

(** A column with index [idx0] brought to the index [idx], gaps set to
    zero. *)
Definition filled (idx0 : list Z) (vals : list (option Q)) (idx : list Z) : list (option Q) :=
  map (fun k => Some (default 0%Q (at_month idx0 vals k))) idx.

(** The readings of a number column [v] in month [k]: the values present
    in the rows whose date, in [dates], falls in that month. *)
Definition month_readings (dates : list (option timestamp)) (v : list (option Q)) (k : Z)
    : list Q :=
  omap (fun row : option timestamp * option Q =>
          match row.1 with
          | Some t => if bool_decide (month_ord t = k) then row.2 else None
          | None => None
          end)
       (zip dates v).

(** A cleaned input: the frame [clean_data] returns for [f] when it is
    the only object. *)
Definition cleaned (date_col : string) (f : DataFrame) : option DataFrame :=
  match clean 0 date_col [f] with
  | (Ok r', h') => h' !! r'
  | (Raise _, _) => None
  end.

Definition cleans_to (date_col : string) (f out : DataFrame) : Prop :=
  cleaned date_col f = Some out.

(** ** The fetch loop of etl.py (lines 24-33)

    Every reading a station returns is tagged with the station's number
    before it goes into the records the air-quality frame is built from. *)

Abbreviation reading := (list (string * cell)).

(** [entry.update({key: value})] *)
Fixpoint dict_update (key : string) (value : cell) (entry : reading) : reading :=
  match entry with
  | [] => [(key, value)]
  | (k, v) :: entry' =>
      if String.eqb k key then (k, value) :: entry'
      else (k, v) :: dict_update key value entry'
  end.

Fixpoint dict_get (key : string) (entry : reading) : option cell :=
  match entry with
  | [] => None
  | (k, v) :: entry' => if String.eqb k key then Some v else dict_get key entry'
  end.

Definition stations : list Z := [101; 102; 103; 104]%Z.

(** The records [fetch_and_store_air_quality] writes to the CSV: the loop
    over the stations, where [readings station_id] is the list the API
    answered for that station. *)
Definition fetch_and_store_air_quality (readings : Z -> list reading) : list reading :=
  flat_map (fun station_id =>
              map (dict_update "station" (Num (inject_Z station_id))) (readings station_id))
           stations.

(** * The scripts around the core: files, HTTP, the console

    The remaining functions of etl.py and load_data.py fetch records over
    HTTP, store them as CSV files and read them back.  They are embedded
    over an explicit [world]: the Python objects, the file system and the
    console.
    - The file system maps a path, as it is written, to a file or a
      directory; two spellings of one path are two keys.  The current
      directory and the root always exist.  Permissions, links and other
      processes are outside the model.
    - What the remote APIs answer, what the CSV writer and reader of
      pandas make of a frame, where the scripts are installed and what day
      it is are given from outside ([Environment]). *)

Inductive node :=
| File (content : string)
| Dir.

Record world := World {
  objects : heap;
  disk : gmap string node;
  stdout : list string
}.

Inductive error :=
| PandasError (e : exn)
| FileNotFoundError (path : string)
| FileExistsError (path : string)
| NotADirectoryError (path : string)
| IsADirectoryError (path : string)
| OSError (what : string)
| ConnectionError (url : string)
| HTTPError (status_code : nat)
| JSONDecodeError
| ParserError (path : string).

Inductive outcome (A : Type) :=
| Returned (a : A)
| Raised (e : error).
Arguments Returned {A} a.
Arguments Raised {A} e.

Definition io (A : Type) : Type := world -> outcome A * world.

Definition io_ret {A} (a : A) : io A := fun w => (Returned a, w).
Definition io_raise {A} (e : error) : io A := fun w => (Raised e, w).
Definition io_bind {A B} (m : io A) (k : A -> io B) : io B :=
  fun w => match m w with
           | (Returned a, w') => k a w'
           | (Raised e, w') => (Raised e, w')
           end.

Declare Scope io_scope.
Delimit Scope io_scope with io.
Notation "x <- m ;; k" := (io_bind m (fun x => k))
  (at level 100, m at next level, right associativity) : io_scope.
Notation "m ;; k" := (io_bind m (fun _ => k))
  (at level 100, right associativity) : io_scope.

(** A computation on the objects alone, run in the world. *)
Definition on_objects {A} (m : py A) : io A :=
  fun w => let '(r, h) := m (objects w) in
           (match r with Ok a => Returned a | Raise e => Raised (PandasError e) end,
            World h (disk w) (stdout w)).

Definition of_result {A} (r : result A) : io A :=
  match r with
  | Ok a => io_ret a
  | Raise e => io_raise (PandasError e)
  end.

(** [print(line)] *)
Definition print (line : string) : io unit :=
  fun w => (Returned tt, World (objects w) (disk w) (stdout w ++ [line])).

(** ** posixpath *)

Definition is_sep (c : ascii) : bool := Ascii.eqb c "/"%char.

Fixpoint drop_while {A} (p : A -> bool) (l : list A) : list A :=
  match l with
  | [] => []
  | x :: l' => if p x then drop_while p l' else l
  end.

Definition starts_with_sep (s : string) : bool :=
  match s with
  | String c _ => is_sep c
  | EmptyString => false
  end.

Definition ends_with_sep (s : string) : bool :=
  match rev (String.list_ascii_of_string s) with
  | c :: _ => is_sep c
  | [] => false
  end.

(** [os.path.join(path, b)]; with more components it is applied from
    the left. *)
Definition path_join (path b : string) : string :=
  if starts_with_sep b then b
  else if String.eqb path "" || ends_with_sep path then String.append path b
  else String.append path (String.append "/" b).

(** [os.path.dirname(p)]: [p] up to its last separator, without trailing
    separators unless it consists of separators only. *)
Definition dirname (p : string) : string :=
  let head := drop_while (fun c => negb (is_sep c)) (rev (String.list_ascii_of_string p)) in
  if forallb is_sep head then String.string_of_list_ascii (rev head)
  else String.string_of_list_ascii (rev (drop_while is_sep head)).

(** ** The file system *)

(** What is at a path: the root is a directory, the empty path is
    nothing. *)
Definition stat (d : gmap string node) (p : string) : option node :=
  if String.eqb p "" then None
  else if forallb is_sep (String.list_ascii_of_string p) then Some Dir
  else d !! p.

(** [os.path.isdir] and [os.path.exists] *)
Definition is_dir (n : option node) : bool :=
  match n with Some Dir => true | _ => false end.

Definition path_exists (n : option node) : bool :=
  match n with Some _ => true | None => false end.

(** [os.mkdir(name)] *)
Definition mkdir (name : string) (d : gmap string node) : outcome unit * gmap string node :=
  if String.eqb name "" then (Raised (FileNotFoundError name), d)
  else match stat d name with
       | Some _ => (Raised (FileExistsError name), d)
       | None =>
           let parent := dirname name in
           match (if String.eqb parent "" then Some Dir else stat d parent) with
           | Some Dir => (Returned tt, <[name := Dir]> d)
           | Some (File _) => (Raised (NotADirectoryError name), d)
           | None => (Raised (FileNotFoundError name), d)
           end
       end.

(** [os.makedirs(name, exist_ok=True)] for a [name] that does not end in
    a separator: the missing parents first, then the directory itself;
    an existing directory is fine, an existing file is not.  The
    recursion goes up one shorter path at a time, so the length of [name]
    is fuel enough. *)
Fixpoint makedirs_from (fuel : nat) (name : string) (d : gmap string node)
    : outcome unit * gmap string node :=
  let head := dirname name in
  let '(r, d1) :=
    match fuel with
    | S fuel' =>
        if negb (String.eqb head "") && negb (path_exists (stat d head)) then
          match makedirs_from fuel' head d with
          | (Raised (FileExistsError _), d') => (Returned tt, d')
          | r => r
          end
        else (Returned tt, d)
    | 0 => (Returned tt, d)
    end in
  match r with
  | Raised e => (Raised e, d1)
  | Returned _ =>
      match mkdir name d1 with
      | (Raised e, _) =>
          if is_dir (stat d1 name) then (Returned tt, d1) else (Raised e, d1)
      | done => done
      end
  end.

Definition makedirs (name : string) : io unit :=
  fun w => let '(r, d) := makedirs_from (String.length name) name (disk w) in
           (r, World (objects w) d (stdout w)).

(** Writing [content] to the file at [path], as [DataFrame.to_csv(path)]
    does once the frame is rendered: pandas refuses a path whose parent
    directory does not exist, then the file is created or overwritten. *)
Definition write_file (content path : string) : io unit :=
  fun w =>
    let parent := dirname path in
    if negb (String.eqb parent "") && negb (is_dir (stat (disk w) parent))
    then (Raised (OSError "Cannot save file into a non-existent directory"), w)
    else
      match stat (disk w) path with
      | Some Dir => (Raised (IsADirectoryError path), w)
      | _ =>
          if String.eqb path "" then (Raised (FileNotFoundError path), w)
          else (Returned tt, World (objects w) (<[path := File content]> (disk w)) (stdout w))
      end.

(** The content of the file at [path], as [pd.read_csv(path)] opens it. *)
Definition read_file (path : string) : io string :=
  fun w =>
    match stat (disk w) path with
    | Some (File content) => (Returned content, w)
    | Some Dir => (Raised (IsADirectoryError path), w)
    | None => (Raised (FileNotFoundError path), w)
    end.

(** ** What comes from outside *)

(** An HTTP response: the status code and the JSON object of the body,
    reduced to its list-valued fields ([None] when the body is not
    JSON). *)
Record response := Response {
  status_code : nat;
  json : option (list (string * list reading))
}.

Class Environment := {
  (** [os.path.dirname(__file__)]: the directory both scripts are in *)
  here : string;
  (** [requests.get(url, params=params)]; [None] when no response comes *)
  request : string -> list (string * cell) -> option response;
  (** [pd.DataFrame(records).to_csv(index=False)] *)
  records_to_csv : list reading -> string;
  (** [merged_df.to_csv()] *)
  table_to_csv : table -> string;
  (** what [pd.read_csv] makes of a file's content; [None] when it raises *)
  parse_csv : string -> option DataFrame;
  (** [datetime.today()] *)
  today : timestamp
}.

(** [requests.get(url, params=params)] *)
Definition requests_get `{Environment} (url : string) (params : list (string * cell))
    : io response :=
  match request url params with
  | Some resp => io_ret resp
  | None => io_raise (ConnectionError url)
  end.

(** [resp.raise_for_status()] *)
Definition raise_for_status (resp : response) : io unit :=
  if (400 <=? status_code resp) && (status_code resp <? 600)
  then io_raise (HTTPError (status_code resp))
  else io_ret tt.

(** [resp.json()] *)
Definition resp_json (resp : response) : io (list (string * list reading)) :=
  match json resp with
  | Some data => io_ret data
  | None => io_raise JSONDecodeError
  end.

(** [data.get(key, [])] *)
Fixpoint data_get (key : string) (data : list (string * list reading)) : list reading :=
  match data with
  | [] => []
  | (k, v) :: data' => if String.eqb k key then v else data_get key data'
  end.

(** [pd.read_csv(path)]: a new frame. *)
Definition pd_read_csv `{Environment} (path : string) : io ref :=
  (content <- read_file path ;;
   match parse_csv content with
   | Some f => on_objects (alloc f)
   | None => io_raise (ParserError path)
   end)%io.

(** [strftime('%Y-%m')], for the years 1000 to 9999: four digits, a
    dash, two digits. *)
Definition digit_char (d : Z) : ascii := ascii_of_nat (48 + Z.to_nat (d mod 10)).

Definition two_digits (n : Z) : string :=
  String (digit_char (n / 10)) (String (digit_char n) EmptyString).

Definition four_digits (n : Z) : string :=
  String (digit_char (n / 1000)) (String (digit_char (n / 100)) (two_digits n)).

Definition strftime_Y_m (t : timestamp) : string :=
  String.append (four_digits (ts_year t)) (String.append "-" (two_digits (ts_month t))).

(** A name without a separator in it. *)
Definition no_sep (s : string) : bool :=
  forallb (fun c => negb (is_sep c)) (String.list_ascii_of_string s).

(** ** etl.py *)

Module Etl.
Section Etl.

Context `{Environment}.

Definition API_QUALIDADE_AR_URL : string := "https://api.municipal.gov.br/qualidade_ar".
Definition DATASUS_URL : string := "https://datasus.saude.gov.br/api/internacoes".
Definition RAW_DIR : string :=
  path_join (path_join (path_join here "..") "data") "raw".

(** The loop of [fetch_and_store_air_quality] over the stations still to
    ask, with the records gathered so far. *)
Fixpoint fetch_stations (year_month : string) (ids : list Z) (records : list reading)
    : io (list reading) :=
  match ids with
  | [] => io_ret records
  | station_id :: ids' =>
      (let params := [("station", Num (inject_Z station_id)); ("month", Text year_month)] in
       resp <- requests_get API_QUALIDADE_AR_URL params ;;
       raise_for_status resp ;;
       data <- resp_json resp ;;
       fetch_stations year_month ids'
         (records ++ map (dict_update "station" (Num (inject_Z station_id)))
                         (data_get "readings" data)))%io
  end.

Definition fetch_and_store_air_quality (year_month : string) : io unit :=
  (makedirs RAW_DIR ;;
   records <- fetch_stations year_month stations [] ;;
   let filepath :=
     path_join RAW_DIR (String.append "air_quality_" (String.append year_month ".csv")) in
   write_file (records_to_csv records) filepath ;;
   print (String.append "Air quality data saved to: " filepath))%io.

Definition fetch_and_store_hospitalizations (year_month : string) : io unit :=
  (makedirs RAW_DIR ;;
   let params := [("month", Text year_month)] in
   resp <- requests_get DATASUS_URL params ;;
   raise_for_status resp ;;
   data <- resp_json resp ;;
   let filepath :=
     path_join RAW_DIR (String.append "hospitalizations_" (String.append year_month ".csv")) in
   write_file (records_to_csv (data_get "result" data)) filepath ;;
   print (String.append "Hospitalization data saved to: " filepath))%io.

Definition download_hospitalizations_jp_icd_j00_j99 (year_month : option string) : io unit :=
  (makedirs RAW_DIR ;;
   let year_month :=
     match year_month with
     | None => strftime_Y_m today
     | Some m => m
     end in
   let params := [("month", Text year_month); ("city", Text "João Pessoa");
                  ("cid_start", Text "J00"); ("cid_end", Text "J99")] in
   resp <- requests_get DATASUS_URL params ;;
   raise_for_status resp ;;
   data <- resp_json resp ;;
   let filepath := path_join RAW_DIR "internacoes_jp.csv" in
   write_file (records_to_csv (data_get "result" data)) filepath ;;
   print (String.append "Filtered hospitalizations for João Pessoa saved to: " filepath))%io.

(** The script run as a program. *)
Definition main : io unit :=
  (let current_month := strftime_Y_m today in
   fetch_and_store_air_quality current_month ;;
   fetch_and_store_hospitalizations current_month ;;
   download_hospitalizations_jp_icd_j00_j99 (Some current_month))%io.

End Etl.
End Etl.

(** ** load_data.py *)

Module LoadData.
Section LoadData.

Context `{Environment} `{DateParser}.

(** Effective [numeric_only] of [Resampler.mean()], see [mean_columns]. *)
Variable numeric_only : bool.

Definition RAW_DIR : string :=
  path_join (path_join (path_join here "..") "data") "raw".

Definition load_air_quality (year_month : string) : io ref :=
  pd_read_csv
    (path_join RAW_DIR (String.append "air_quality_" (String.append year_month ".csv"))).

Definition load_hospitalizations (year_month : string) : io ref :=
  pd_read_csv
    (path_join RAW_DIR (String.append "hospitalizations_" (String.append year_month ".csv"))).

Definition load_hospitalizations_jp : io ref :=
  pd_read_csv (path_join RAW_DIR "internacoes_jp.csv").

Definition save_monthly (merged_df : table) (output_path : string) : io unit :=
  (makedirs (dirname output_path) ;;
   write_file (table_to_csv merged_df) output_path ;;
   print (String.append "Monthly merged data saved to: " output_path))%io.

(** The script run as a program. *)
Definition main : io unit :=
  (let month := strftime_Y_m today in
   air <- load_air_quality month ;;
   hosp <- load_hospitalizations month ;;
   jp <- load_hospitalizations_jp ;;
   air_clean <- on_objects (clean_data air "timestamp") ;;
   hosp_clean <- on_objects (clean_data hosp "admission_date") ;;
   jp_clean <- on_objects (clean_data jp "admission_date") ;;
   air_df <- on_objects (deref air_clean) ;;
   hosp_df <- on_objects (deref hosp_clean) ;;
   jp_df <- on_objects (deref jp_clean) ;;
   merged <- of_result (aggregate_monthly numeric_only air_df hosp_df jp_df) ;;
   let out_path :=
     path_join (path_join (path_join (path_join here "..") "data") "processed")
               "merged_monthly.csv" in
   save_monthly merged out_path)%io.

End LoadData.
End LoadData.

(** ** Inputs used in the examples *)

(** Scenario 1 of the spec: one known pm25 value, one missing. *)
Definition scenario1 : DataFrame :=
  [("timestamp", Object [Some "2024-01-05"; Some "2024-01-20"]);
   ("pm25", Float64 [Some 10%Q; None])].

(** Scenario 2 of the spec: one admission without a date. *)
Definition scenario2 : DataFrame :=
  [("admission_date", Object [Some "2024-02-03"; None]);
   ("diagnosis", Object [Some "J18"; Some "J45"])].

(** A pollutant that was never measured. *)
Definition never_measured : DataFrame :=
  [("timestamp", Object [Some "2024-01-05"; Some "2024-01-20"]);
   ("no2", Float64 [None; None])].


Definition mixed : DataFrame :=
  [("timestamp", Object [Some "2024-01-05"; Some "2024-01-20"; Some "2024-02-01"]);
   ("pm25", Float64 [Some 10%Q; None; Some 14%Q]);
   ("site", Object [Some "centro"; None; Some "bessa"])].

(** Three readings of two stations over January and March, with the site
    name as a text column. *)
Definition air_readings : DataFrame :=
  [("timestamp", Datetime [Some (Timestamp 2024 1 5); Some (Timestamp 2024 1 20);
                           Some (Timestamp 2024 3 1)]);
   ("pm25", Float64 [Some 10%Q; Some 5%Q; Some 7%Q]);
   ("station", Float64 [Some 101%Q; Some 102%Q; Some 101%Q])].

(** Admissions in February and May, one of them without a date. *)
Definition admissions : DataFrame :=
  [("admission_date", Datetime [Some (Timestamp 2024 2 5); Some (Timestamp 2024 2 20);
                                Some (Timestamp 2024 5 1); None]);
   ("diagnosis", Object [Some "J18"; Some "J45"; Some "J20"; Some "J45"])].

Definition admissions_jp : DataFrame :=
  [("admission_date", Datetime [Some (Timestamp 2024 2 20)]);
   ("diagnosis", Object [Some "J45"])].

(** Scenario 4 of the spec: cleaned inputs without rows. *)
Definition no_air : DataFrame :=
  [("timestamp", Datetime []); ("pm25", Object []); ("station", Object [])].

Definition no_admissions : DataFrame :=
  [("admission_date", Datetime []); ("diagnosis", Object [])].

(** The same inputs as the loaders deliver them, dates as text. *)
Definition air_readings_raw : DataFrame :=
  [("timestamp", Object [Some "2024-01-05"; Some "2024-01-20"; Some "2024-03-01"]);
   ("pm25", Float64 [Some 10%Q; Some 5%Q; Some 7%Q]);
   ("station", Float64 [Some 101%Q; Some 102%Q; Some 101%Q])].

Definition admissions_raw : DataFrame :=
  [("admission_date", Object [Some "2024-02-05"; Some "2024-02-20"; Some "2024-05-01"; None]);
   ("diagnosis", Object [Some "J18"; Some "J45"; Some "J20"; Some "J45"])].

Definition admissions_jp_raw : DataFrame :=
  [("admission_date", Object [Some "2024-02-20"]); ("diagnosis", Object [Some "J45"])].

(** An admission and a reading that came without their date. *)
Definition undated : DataFrame :=
  [("admission_date", Object [None]); ("diagnosis", Object [Some "J45"])].

Definition undated_air : DataFrame :=
  [("timestamp", Object [None]); ("pm25", Float64 [Some 10%Q])].

(** Admissions in January and March, none in February. *)
Definition winter_admissions : DataFrame :=
  [("admission_date", Object [Some "2024-01-10"; Some "2024-03-05"]);
   ("diagnosis", Object [Some "J18"; Some "J45"])].

(** ** Vocabulary for the properties of the scripts *)

(** The three files the scripts exchange, as both of them spell the
    paths. *)
Definition air_quality_csv `{Environment} (year_month : string) : string :=
  path_join Etl.RAW_DIR (String.append "air_quality_" (String.append year_month ".csv")).

Definition hospitalizations_csv `{Environment} (year_month : string) : string :=
  path_join Etl.RAW_DIR (String.append "hospitalizations_" (String.append year_month ".csv")).

Definition internacoes_jp_csv `{Environment} : string :=
  path_join Etl.RAW_DIR "internacoes_jp.csv".

Definition merged_monthly_csv `{Environment} : string :=
  path_join (path_join (path_join (path_join here "..") "data") "processed")
            "merged_monthly.csv".

(** The directory of the merged table. *)
Definition processed_dir `{Environment} : string :=
  path_join (path_join (path_join here "..") "data") "processed".

(** The lines the scripts print. *)
Definition air_saved `{Environment} (ym : string) : string :=
  String.append "Air quality data saved to: " (air_quality_csv ym).

Definition hospitalizations_saved `{Environment} (ym : string) : string :=
  String.append "Hospitalization data saved to: " (hospitalizations_csv ym).

Definition jp_saved `{Environment} : string :=
  String.append "Filtered hospitalizations for João Pessoa saved to: " internacoes_jp_csv.

Definition merged_saved `{Environment} : string :=
  String.append "Monthly merged data saved to: " merged_monthly_csv.

(** A path that ends in a name: not empty, no trailing separator. *)
Definition plain (p : string) : Prop :=
  exists l c, String.list_ascii_of_string p = l ++ [c] /\ is_sep c = false.

(** The files of two disks are the same (directories may differ). *)
Definition same_files (d d' : gmap string node) : Prop :=
  forall p content, d' !! p = Some (File content) <-> d !! p = Some (File content).

(** A station, or the admissions API, answers a request properly. *)
Definition answers `{Environment} (url : string) (params : list (string * cell))
    (data : list (string * list reading)) : Prop :=
  exists resp, request url params = Some resp /\
    ((400 <=? status_code resp) && (status_code resp <? 600) = false) /\
    json resp = Some data.

(** The parameters of the three kinds of request. *)
Definition station_params (station_id : Z) (year_month : string) : list (string * cell) :=
  [("station", Num (inject_Z station_id)); ("month", Text year_month)].

Definition month_params (year_month : string) : list (string * cell) :=
  [("month", Text year_month)].

Definition jp_params (year_month : string) : list (string * cell) :=
  [("month", Text year_month); ("city", Text "João Pessoa");
   ("cid_start", Text "J00"); ("cid_end", Text "J99")].

(** [clean_data] on one frame, as a function: the frame the caller is
    left with and the frame returned. *)
Definition clean_frame `{DateParser} (date_col : string) (f : DataFrame)
    : result (DataFrame * DataFrame) :=
  match get_column date_col f with
  | None => Raise (KeyError date_col)
  | Some s =>
      rbind (to_datetime s) (fun d =>
        let g := cleaned_in_place d date_col f in
        Ok (g, take_frame (kept_rows date_col g) g))
  end.

(** ** An environment for the examples

    A small CSV dialect (no quoting; a column of whole numbers and gaps
    is a number column, any other is text), two stations that answer and
    an API that knows two admissions. *)

Definition newline : string := String (ascii_of_nat 10) EmptyString.

Definition show_number (q : Q) : string :=
  if Pos.eqb (Qden q) 1 then pretty (Qnum q)
  else String.append (pretty (Qnum q)) (String.append "/" (pretty (Zpos (Qden q)))).

Definition show_date (t : timestamp) : string :=
  String.append (pretty (ts_year t))
    (String.append "-" (String.append (two_digits (ts_month t))
       (String.append "-" (two_digits (ts_day t))))).

Definition show_cell (c : cell) : string :=
  match c with
  | NA => ""
  | Num q => show_number q
  | Text s => s
  | Stamp t => show_date t
  end.

Definition csv_line (fields : list string) : string :=
  String.append (String.concat "," fields) newline.

Definition demo_records_to_csv (records : list reading) : string :=
  match records with
  | [] => newline
  | first :: _ =>
      let header := map fst first in
      String.concat ""
        (csv_line header
         :: map (fun r => csv_line (map (fun k => show_cell (default NA (dict_get k r))) header))
                records)
  end.

Definition demo_table_to_csv (t : table) : string :=
  String.concat ""
    (csv_line ("" :: map fst (t_columns t))
     :: map (fun k => csv_line (show_date (bucket_label k)
                                :: map (fun c => from_option show_number "" (at_month (t_index t) c.2 k))
                                       (t_columns t)))
            (t_index t)).

Fixpoint split_on (sep : ascii) (cs : list ascii) : list (list ascii) :=
  match cs with
  | [] => [[]]
  | c :: cs' =>
      match split_on sep cs' with
      | field :: fields => if Ascii.eqb c sep then [] :: field :: fields
                           else (c :: field) :: fields
      | [] => [[c]]
      end
  end.

Definition whole_number (cs : list ascii) : option Q :=
  match cs with
  | [] => None
  | c :: cs' =>
      if Ascii.eqb c "-"%char
      then match cs' with [] => None | _ => (fun n => inject_Z (- n)) <$> digits 0 cs' end
      else inject_Z <$> digits 0 cs
  end.

Definition infer_column (fields : list (list ascii)) : series :=
  if forallb (fun f => match f with [] => true | _ => bool_decide (is_Some (whole_number f)) end)
             fields
  then Float64 (map whole_number fields)
  else Object (map (fun f => match f with
                             | [] => None
                             | _ => Some (String.string_of_list_ascii f)
                             end) fields).

Definition demo_parse_csv (content : string) : option DataFrame :=
  let lines := filter (fun l => l <> []) (split_on (ascii_of_nat 10)
                                            (String.list_ascii_of_string content)) in
  match lines with
  | [] => None
  | header :: rows =>
      let names := split_on ","%char header in
      let table := map (split_on ","%char) rows in
      Some (imap (fun j name => (String.string_of_list_ascii name,
                                 infer_column (map (fun row => default [] (row !! j)) table)))
                 names)
  end.

(** Stations 101 and 102 have a reading each, the others none; the API
    of admissions knows two of them, one in João Pessoa. *)
Definition demo_request (url : string) (params : list (string * cell)) : option response :=
  if String.eqb url "https://api.municipal.gov.br/qualidade_ar" then
    match dict_get "station" params with
    | Some (Num q) =>
        if Qeq_bool q 101 then
          Some (Response 200 (Some [("readings",
            [[("timestamp", Text "2024-01-05"); ("pm25", Num 10)]])]))
        else if Qeq_bool q 102 then
          Some (Response 200 (Some [("readings",
            [[("timestamp", Text "2024-01-20"); ("pm25", NA)]])]))
        else Some (Response 200 (Some []))
    | _ => Some (Response 400 None)
    end
  else
    match dict_get "city" params with
    | Some _ =>
        Some (Response 200 (Some [("result",
          [[("admission_date", Text "2024-01-12"); ("diagnosis", Text "J45")]])]))
    | None =>
        Some (Response 200 (Some [("result",
          [[("admission_date", Text "2024-01-12"); ("diagnosis", Text "J45")];
           [("admission_date", Text "2024-02-02"); ("diagnosis", Text "J18")]])]))
    end.

Definition demo : Environment :=
  {| here := "src/data";
     request := demo_request;
     records_to_csv := demo_records_to_csv;
     table_to_csv := demo_table_to_csv;
     parse_csv := demo_parse_csv;
     today := Timestamp 2024 1 31 |}.

(** The same, but station 103 is down. *)
Definition demo_down : Environment :=
  {| here := "src/data";
     request := fun url params =>
       match dict_get "station" params with
       | Some (Num q) => if Qeq_bool q 103 then Some (Response 503 None)
                         else demo_request url params
       | _ => demo_request url params
       end;
     records_to_csv := demo_records_to_csv;
     table_to_csv := demo_table_to_csv;
     parse_csv := demo_parse_csv;
     today := Timestamp 2024 1 31 |}.

Definition empty_world : world := World [] ∅ [].

(** What the stations of [demo] answer for a month. *)
Definition demo_data (year_month : string) (station_id : Z) : list (string * list reading) :=
  match demo_request "https://api.municipal.gov.br/qualidade_ar"
          (station_params station_id year_month) with
  | Some resp => default [] (json resp)
  | None => []
  end.

(** The world after etl.py has run in [demo] on an empty disk. *)
Definition after_etl : world := (@Etl.main demo empty_world).2.

(** * Properties *)

(** ** Frames and the heap *)

Lemma get_column_Some col f s :
  get_column col f = Some s -> (col, s) ∈ f.
Proof.
  induction f as [|[n s0] f IH]; simpl; [done|].
  destruct (String.eqb_spec n col) as [->|Hne].
  - intros [= ->]. left.
  - intros H. right. auto.
Qed.

Lemma get_column_None col f :
  get_column col f = None <-> col ∉ columns f.
Proof.
  induction f as [|[n s0] f IH]; simpl.
  - split; [intros _; apply not_elem_of_nil | done].
  - destruct (String.eqb_spec n col) as [->|Hne].
    + split; [done|]. intros H. exfalso. apply H. left.
    + rewrite IH, not_elem_of_cons. split; [by auto | by intros [_ ?]].
Qed.

Lemma get_column_NoDup col f s :
  NoDup (columns f) -> (col, s) ∈ f -> get_column col f = Some s.
Proof.
  induction f as [|[n s0] f IH]; simpl; intros Hnd Hin.
  - by apply elem_of_nil in Hin.
  - apply NoDup_cons in Hnd as [Hn Hnd].
    apply elem_of_cons in Hin as [[= -> ->]|Hin].
    + by rewrite String.eqb_refl.
    + destruct (String.eqb_spec n col) as [->|Hne]; [|by auto].
      exfalso. apply Hn. apply list_elem_of_fmap. by exists (col, s).
Qed.

Lemma columns_set_column col s f :
  col ∈ columns f -> columns (set_column col s f) = columns f.
Proof.
  induction f as [|[n s0] f IH]; simpl; intros Hin.
  - by apply elem_of_nil in Hin.
  - destruct (String.eqb_spec n col) as [->|Hne]; [done|].
    simpl. f_equal. apply IH.
    apply elem_of_cons in Hin as [?|?]; [congruence | done].
Qed.

Lemma get_set_column_eq col s f :
  get_column col (set_column col s f) = Some s.
Proof.
  induction f as [|[n s0] f IH]; simpl.
  - by rewrite String.eqb_refl.
  - destruct (String.eqb_spec n col) as [->|Hne]; simpl.
    + by rewrite String.eqb_refl.
    + destruct (String.eqb_spec n col); [done | apply IH].
Qed.

Lemma get_set_column_ne col col' s f :
  col <> col' -> get_column col' (set_column col s f) = get_column col' f.
Proof.
  intros Hne. induction f as [|[n s0] f IH]; simpl.
  - destruct (String.eqb_spec col col'); [done | done].
  - destruct (String.eqb_spec n col) as [->|Hn]; simpl.
    + destruct (String.eqb_spec col col'); [done | done].
    + by rewrite IH.
Qed.

Lemma impute_named_skip n ns f :
  n ∉ columns f -> impute_named (n :: ns) f = impute_named ns f.
Proof.
  intros Hn. unfold impute_named. apply map_ext_in. intros c Hc.
  apply list_elem_of_In in Hc.
  assert (c.1 <> n) as Hne.
  { intros <-. apply Hn. apply list_elem_of_fmap. by exists c. }
  destruct (bool_decide_reflect (c.1 ∈ n :: ns)) as [H1|H1],
           (bool_decide_reflect (c.1 ∈ ns)) as [H2|H2]; try done.
  - apply elem_of_cons in H1 as [?|?]; done.
  - exfalso. apply H1. by right.
Qed.

Lemma impute_named_step n ns f s :
  NoDup (columns f) -> n ∉ ns -> get_column n f = Some s ->
  impute_named ns (set_column n (impute_column s) f) = impute_named (n :: ns) f.
Proof.
  induction f as [|[n0 s0] f IH]; simpl; intros Hnd Hn Hget; [done|].
  apply NoDup_cons in Hnd as [Hn0 Hnd].
  destruct (String.eqb_spec n0 n) as [->|Hne].
  - injection Hget as ->. simpl.
    rewrite (bool_decide_eq_false_2 _ Hn).
    rewrite bool_decide_eq_true_2 by left.
    f_equal. symmetry. by apply impute_named_skip.
  - simpl. rewrite IH by done. f_equal.
    destruct (bool_decide_reflect (n0 ∈ ns)) as [H1|H1].
    + rewrite bool_decide_eq_true_2; [done | by right].
    + rewrite bool_decide_eq_false_2; [done|].
      intros [?|?]%elem_of_cons; done.
Qed.

Lemma impute_named_numbers f :
  impute_named (columns (filter (fun c => is_number c.2 = true) f)) f = imputed f.
Proof.
  unfold impute_named, imputed. apply map_ext_in. intros [n s] Hc. simpl.
  apply list_elem_of_In in Hc.
  destruct (bool_decide_reflect
              (n ∈ columns (filter (fun c => is_number c.2 = true) f))) as [H|H]; [done|].
  destruct s as [v| |]; try done.
  exfalso. apply H. apply list_elem_of_fmap. exists (n, Float64 v). split; [done|].
  by apply list_elem_of_filter.
Qed.

Lemma columns_imputed f : columns (imputed f) = columns f.
Proof. unfold columns, imputed. rewrite map_map. done. Qed.

Lemma columns_take_frame keep f : columns (take_frame keep f) = columns f.
Proof. unfold columns, take_frame. rewrite map_map. done. Qed.

(** ** Running the primitives *)

Lemma bind_ok {A B} (m : py A) (k : A -> py B) h a h' :
  m h = (Ok a, h') -> bind m k h = k a h'.
Proof. unfold bind. by intros ->. Qed.

Lemma bind_raise {A B} (m : py A) (k : A -> py B) h e h' :
  m h = (Raise e, h') -> bind m k h = (Raise e, h').
Proof. unfold bind. by intros ->. Qed.

Lemma deref_run (h : heap) r g : h !! r = Some g -> deref r h = (Ok g, h).
Proof. unfold deref. by intros ->. Qed.

Lemma getitem_run (h : heap) r g col s :
  h !! r = Some g -> get_column col g = Some s -> getitem r col h = (Ok s, h).
Proof.
  intros Hr Hs. unfold getitem. rewrite (bind_ok _ _ _ _ _ (deref_run _ _ _ Hr)).
  by rewrite Hs.
Qed.

Lemma getitem_missing (h : heap) r g col :
  h !! r = Some g -> get_column col g = None -> getitem r col h = (Raise (KeyError col), h).
Proof.
  intros Hr Hs. unfold getitem. rewrite (bind_ok _ _ _ _ _ (deref_run _ _ _ Hr)).
  by rewrite Hs.
Qed.

Lemma setitem_run (h : heap) r g col s :
  h !! r = Some g -> setitem r col s h = (Ok tt, <[r := set_column col s g]> h).
Proof.
  intros Hr. unfold setitem. by rewrite (bind_ok _ _ _ _ _ (deref_run _ _ _ Hr)).
Qed.

(** The imputation loop of [clean_data], run on the frame at [r]. *)
Lemma impute_loop r ns : forall (h : heap) (g : DataFrame),
  h !! r = Some g -> NoDup (columns g) -> NoDup ns ->
  (forall n, n ∈ ns -> exists v, get_column n g = Some (Float64 v)) ->
  for_each ns (fun col =>
    c <- getitem r col ;; m <- lift (mean c) ;; setitem r col (fillna c m))%py h
  = (Ok tt, <[r := impute_named ns g]> h).
Proof.
  induction ns as [|n ns IH]; intros h g Hr Hnd Hns Hnum; simpl.
  - unfold ret. f_equal. unfold impute_named.
    rewrite (map_ext_in _ id), map_id.
    + symmetry. by apply list_insert_id.
    + intros c _. rewrite bool_decide_eq_false_2; [done | apply not_elem_of_nil].
  - apply NoDup_cons in Hns as [Hn Hns].
    destruct (Hnum n) as [v Hv]; [left|].
    assert (r < length h) as Hlt by (by eapply lookup_lt_Some).
    erewrite bind_ok; cycle 1.
    { erewrite bind_ok by (by eapply getitem_run).
      erewrite bind_ok by (unfold lift; simpl; reflexivity).
      by eapply setitem_run. }
    change (fillna (Float64 v) (mean_skipna v)) with (impute_column (Float64 v)).
    rewrite (IH _ (set_column n (impute_column (Float64 v)) g)).
    + rewrite list_insert_insert_eq. by rewrite impute_named_step.
    + by apply list_lookup_insert_eq.
    + rewrite columns_set_column; [done|].
      apply list_elem_of_fmap. exists (n, Float64 v). split; [done|].
      by apply get_column_Some.
    + done.
    + intros n' Hn'. destruct (Hnum n') as [v' Hv']; [by right|].
      exists v'. rewrite get_set_column_ne; [done|]. intros ->. done.
Qed.

Lemma lookup_columns_sub (g l : DataFrame) :
  NoDup (columns g) -> l ⊆ g -> lookup_columns (map fst l) g = Ok (map snd l).
Proof.
  intros Hnd. induction l as [|[n s] l IH]; intros Hsub; simpl; [done|].
  rewrite (get_column_NoDup n g s) by (done || apply Hsub; left).
  rewrite IH; [done|]. intros c Hc. apply Hsub. by right.
Qed.

Lemma drop_label_columns d (l : DataFrame) :
  drop_label d (columns l) = columns (filter (fun c => c.1 <> d) l).
Proof.
  unfold drop_label, columns. induction l as [|[n s] l IH]; [done|].
  simpl. rewrite !filter_cons. simpl.
  destruct (decide (n <> d)); simpl; by rewrite IH.
Qed.

Lemma is_number_impute s : is_number (impute_column s) = is_number s.
Proof. by destruct s. Qed.

Lemma text_columns_imputed d f :
  text_columns d (imputed f) = imputed (text_columns d f).
Proof.
  unfold text_columns, imputed. induction f as [|[n s] f IH]; [done|].
  simpl. rewrite !filter_cons. simpl. rewrite is_number_impute.
  destruct (decide (is_number s = false)); [|done].
  rewrite !filter_cons. simpl.
  destruct (decide (n <> d)); simpl; by rewrite IH.
Qed.

Lemma text_columns_sub d f : text_columns d f ⊆ f.
Proof.
  unfold text_columns. intros c Hc.
  apply list_elem_of_filter in Hc as [_ Hc].
  by apply list_elem_of_filter in Hc as [_ Hc].
Qed.

Lemma dropna_run (h : heap) r g d :
  h !! r = Some g -> NoDup (columns g) ->
  dropna r (columns (text_columns d g)) h
  = (Ok (length h), h ++ [take_frame (kept_rows d g) g]).
Proof.
  intros Hr Hnd. unfold dropna.
  rewrite (bind_ok _ _ _ _ _ (deref_run _ _ _ Hr)).
  unfold columns at 1.
  erewrite bind_ok; [|unfold lift; rewrite lookup_columns_sub;
                       [reflexivity | done | apply text_columns_sub]].
  done.
Qed.

Section CleaningFacts.

Context `{DateParser}.

Lemma clean_data_run (h : heap) r f date_col s d :
  h !! r = Some f -> NoDup (columns f) ->
  get_column date_col f = Some s -> to_datetime s = Ok d ->
  clean_data r date_col h
  = (Ok (length h),
     <[r := cleaned_in_place d date_col f]> h
     ++ [take_frame (kept_rows date_col (cleaned_in_place d date_col f))
           (cleaned_in_place d date_col f)]).
Proof.
  intros Hr Hnd Hs Hd. unfold clean_data, cleaned_in_place.
  set (f1 := set_column date_col d f).
  assert (r < length h) as Hlt by (by eapply lookup_lt_Some).
  assert (columns f1 = columns f) as Hcols.
  { apply columns_set_column. apply list_elem_of_fmap. exists (date_col, s).
    split; [done | by apply get_column_Some]. }
  assert (NoDup (columns f1)) as Hnd1 by (by rewrite Hcols).
  assert ((<[r := f1]> h) !! r = Some f1) as Hr1 by (by apply list_lookup_insert_eq).
  erewrite bind_ok by (by eapply getitem_run).
  erewrite bind_ok by (unfold lift; rewrite Hd; reflexivity).
  erewrite bind_ok by (by eapply setitem_run).
  fold f1.
  erewrite bind_ok; cycle 1.
  { unfold select_dtypes_include_number.
    erewrite bind_ok by (by eapply deref_run). reflexivity. }
  erewrite bind_ok; cycle 1.
  { unfold select_dtypes_exclude_number.
    erewrite bind_ok by (by eapply deref_run). reflexivity. }
  cbv zeta.
  erewrite bind_ok; cycle 1.
  { apply (impute_loop r _ _ f1); [done | done | |].
    - unfold columns. apply NoDup_fmap_fst.
      + intros n s1 s2 H1%list_elem_of_filter H2%list_elem_of_filter.
        destruct H1 as [_ H1], H2 as [_ H2].
        apply (get_column_NoDup _ _ _ Hnd1) in H1, H2. congruence.
      + apply NoDup_filter. by apply (NoDup_fmap_1 fst).
    - intros n [[n' s'] [-> Hin]]%list_elem_of_fmap.
      apply list_elem_of_filter in Hin as [Hnum Hin]. simpl in *.
      destruct s' as [v| |]; try done. exists v.
      by apply get_column_NoDup. }
  rewrite list_insert_insert_eq, impute_named_numbers.
  rewrite drop_label_columns.
  change (filter (fun c : string * series => c.1 <> date_col)
            (filter (fun c : string * series => is_number c.2 = false) f1))
    with (text_columns date_col f1).
  replace (columns (text_columns date_col f1))
    with (columns (text_columns date_col (imputed f1)))
    by (by rewrite text_columns_imputed, columns_imputed).
  rewrite (dropna_run _ r (imputed f1)).
  - by rewrite length_insert.
  - by apply list_lookup_insert_eq.
  - by rewrite columns_imputed.
Qed.

End CleaningFacts.

(** ** Row masks *)

Lemma select_length_le {A} (m : list bool) (l : list A) : length (select m l) <= length l.
Proof.
  revert l. induction m as [|b m IH]; intros [|x l]; simpl; try lia.
  specialize (IH l). destruct b; simpl; lia.
Qed.

Lemma select_length_eq {A B} (m : list bool) (l : list A) (l' : list B) :
  length l = length l' -> length (select m l) = length (select m l').
Proof.
  revert l l'. induction m as [|b m IH]; intros [|x l] [|y l'] Hlen; simpl in *; try done.
  destruct b; simpl; auto.
Qed.

Lemma select_all {A} n (l : list A) : length l <= n -> select (replicate n true) l = l.
Proof.
  revert l. induction n as [|n IH]; intros [|x l] Hlen; simpl in *; try done; try lia.
  f_equal. apply IH. lia.
Qed.

Lemma select_map {A B} (g : A -> B) m (l : list A) : select m (map g l) = map g (select m l).
Proof.
  revert l. induction m as [|b m IH]; intros [|x l]; simpl; try done.
  destruct b; simpl; by rewrite IH.
Qed.

Lemma select_elem {A} (m : list bool) (l : list A) x : x ∈ select m l -> x ∈ l.
Proof.
  revert l. induction m as [|b m IH]; intros [|y l]; simpl;
    try (by intros ?%elem_of_nil).
  destruct b.
  - intros [->|H]%elem_of_cons; [left | right; auto].
  - intros H. right. auto.
Qed.

Lemma select_and_l (a b : list bool) : Forall (eq true) (select (zip_with andb a b) a).
Proof.
  revert b. induction a as [|x a IH]; intros [|y b]; simpl; try done.
  destruct x, y; simpl; auto.
Qed.

Lemma select_and_r {A} (P : A -> Prop) (a m : list bool) (l : list A) :
  Forall P (select m l) -> Forall P (select (zip_with andb a m) l).
Proof.
  revert m l. induction a as [|x a IH]; intros [|y m] [|z l]; simpl; try done.
  destruct x, y; simpl; intros H; auto.
  - apply Forall_cons in H as [? ?]. auto.
  - apply Forall_cons in H as [? ?]. auto.
Qed.

Lemma Forall_true_replicate (l : list bool) :
  Forall (eq true) l -> l = replicate (length l) true.
Proof. induction 1 as [|x l <- _ IH]; simpl; [done | by f_equal]. Qed.

Lemma zip_with_andb_true n :
  zip_with andb (replicate n true) (replicate n true) = replicate n true.
Proof. induction n; simpl; [done | by f_equal]. Qed.

Lemma notna_length s : length (notna s) = series_len s.
Proof. destruct s; simpl; by rewrite length_map. Qed.

Lemma notna_take_rows m s : notna (take_rows m s) = select m (notna s).
Proof. destruct s; simpl; by rewrite select_map. Qed.

Lemma series_len_take_rows m s s' :
  series_len s = series_len s' ->
  series_len (take_rows m s) = series_len (take_rows m s').
Proof. destruct s, s'; simpl; apply select_length_eq. Qed.

Lemma series_len_take_rows_le m s : series_len (take_rows m s) <= series_len s.
Proof. destruct s; simpl; apply select_length_le. Qed.

Lemma take_rows_all n s : series_len s <= n -> take_rows (replicate n true) s = s.
Proof. destruct s; simpl; intros H; by rewrite select_all. Qed.

Lemma complete_rows_length n cols :
  Forall (fun s => series_len s = n) cols -> length (complete_rows n cols) = n.
Proof.
  unfold complete_rows. induction 1 as [|s cols Hs _ IH]; simpl.
  - by rewrite length_replicate.
  - rewrite length_zip_with, notna_length, IH, Hs. lia.
Qed.

Lemma complete_rows_all n cols :
  Forall (fun s => notna s = replicate n true) cols ->
  complete_rows n cols = replicate n true.
Proof.
  unfold complete_rows. induction 1 as [|s cols Hs _ IH]; simpl; [done|].
  by rewrite Hs, IH, zip_with_andb_true.
Qed.

(** A column [dropna] looked at has no gap among the kept rows. *)
Lemma complete_rows_complete n cols s :
  s ∈ cols -> Forall (eq true) (select (complete_rows n cols) (notna s)).
Proof.
  unfold complete_rows. induction cols as [|s0 cols IH]; simpl.
  - by intros ?%elem_of_nil.
  - intros [->|Hin]%elem_of_cons.
    + apply select_and_l.
    + apply select_and_r. auto.
Qed.

Lemma has_missing_false s : has_missing s = false <-> Forall (eq true) (notna s).
Proof.
  unfold has_missing. rewrite negb_false_iff, forallb_forall, Forall_forall.
  split; intros H x Hx.
  - symmetry. apply H. by apply list_elem_of_In.
  - symmetry. apply H. by apply list_elem_of_In.
Qed.

(** ** Well-formed frames *)

Lemma series_len_impute s : series_len (impute_column s) = series_len s.
Proof. destruct s; simpl; by rewrite ?length_map. Qed.

Lemma nrows_imputed f : nrows (imputed f) = nrows f.
Proof. destruct f as [|[n s] f]; simpl; [done | apply series_len_impute]. Qed.

Lemma wf_imputed f : wf_frame f -> wf_frame (imputed f).
Proof.
  intros [Hnd Hlen]. split; [by rewrite columns_imputed|].
  rewrite nrows_imputed. unfold imputed. apply Forall_fmap.
  eapply Forall_impl; [exact Hlen|]. intros [n s]; simpl. by rewrite series_len_impute.
Qed.

Lemma nrows_set_column col d f s :
  get_column col f = Some s -> series_len d = series_len s ->
  nrows (set_column col d f) = nrows f.
Proof.
  destruct f as [|[n s0] f]; simpl; [done|].
  destruct (String.eqb_spec n col); simpl; [|done]. by intros [= ->].
Qed.

Lemma Forall_set_column (P : string * series -> Prop) col d f :
  Forall P f -> P (col, d) -> Forall P (set_column col d f).
Proof.
  intros Hf Hd. induction Hf as [|[n s0] f H0 Hf IH]; simpl; [by constructor|].
  destruct (String.eqb_spec n col) as [->|Hne]; constructor; auto.
Qed.

Lemma wf_set_column col d f s :
  wf_frame f -> get_column col f = Some s -> series_len d = series_len s ->
  wf_frame (set_column col d f).
Proof.
  intros [Hnd Hlen] Hs Hd. split.
  - rewrite columns_set_column; [done|]. apply list_elem_of_fmap.
    exists (col, s). split; [done | by apply get_column_Some].
  - rewrite (nrows_set_column _ _ _ s) by done.
    apply Forall_set_column; [done|]. simpl. rewrite Hd.
    apply get_column_Some in Hs.
    by apply (proj1 (Forall_forall _ _) Hlen (col, s)).
Qed.

Lemma nrows_take_frame_le m f : nrows (take_frame m f) <= nrows f.
Proof. destruct f as [|[n s] f]; simpl; [done | apply series_len_take_rows_le]. Qed.

Lemma wf_take_frame m f : wf_frame f -> wf_frame (take_frame m f).
Proof.
  intros [Hnd Hlen]. split; [by rewrite columns_take_frame|].
  destruct f as [|[n0 s0] f]; [constructor|].
  unfold take_frame. apply Forall_fmap.
  eapply Forall_impl; [exact Hlen|]. intros [n s]; simpl. intros Hs.
  by apply series_len_take_rows.
Qed.

Lemma take_frame_all n f :
  Forall (fun c => series_len c.2 <= n) f -> take_frame (replicate n true) f = f.
Proof.
  induction 1 as [|[c s] f Hs _ IH]; simpl; [done|].
  simpl in Hs. rewrite take_rows_all by done. f_equal. apply IH.
Qed.

(** ** Date conversion *)

Section DateFacts.

Context `{DateParser}.

Lemma convert_rows_stamps i (v : list (option timestamp)) :
  convert_rows i (map (from_option Stamp NA) v) = Ok v.
Proof.
  revert i. induction v as [|[t|] v IH]; intros i; simpl; [done| |];
    by rewrite IH.
Qed.

Lemma to_datetime_datetime v : to_datetime (Datetime v) = Ok (Datetime v).
Proof. unfold to_datetime. simpl. by rewrite convert_rows_stamps. Qed.

Lemma convert_rows_ok i cs v :
  convert_rows i cs = Ok v ->
  length v = length cs /\
  forall j c, cs !! j = Some c -> exists t, to_timestamp c = Some t /\ v !! j = Some t.
Proof.
  revert i v. induction cs as [|c cs IH]; intros i v; simpl.
  - intros [= <-]. split; [done|]. intros j c Hj. by rewrite lookup_nil in Hj.
  - destruct (to_timestamp c) as [t|] eqn:Ht; [|done].
    destruct (convert_rows (S i) cs) as [v'|e] eqn:Hv'; simpl; [|done].
    intros [= <-]. destruct (IH _ _ Hv') as [Hlen Hj]. split; [simpl; lia|].
    intros [|j] c'; simpl; [intros [= <-]; eauto | apply Hj].
Qed.



Lemma to_datetime_ok s d :
  to_datetime s = Ok d ->
  exists v, d = Datetime v /\ length v = series_len s /\
    forall j c, cells s !! j = Some c -> exists t, to_timestamp c = Some t /\ v !! j = Some t.
Proof.
  unfold to_datetime. destruct (convert_rows 0 (cells s)) as [v|e] eqn:Hv; [|done].
  simpl. intros [= <-]. exists v. apply convert_rows_ok in Hv as [Hlen Hj].
  repeat split; [|done]. rewrite Hlen. destruct s; simpl; by rewrite length_map.
Qed.

Lemma clean_data_key_error (h : heap) r f date_col :
  h !! r = Some f -> get_column date_col f = None ->
  clean_data r date_col h = (Raise (KeyError date_col), h).
Proof.
  intros Hr Hs. unfold clean_data.
  erewrite bind_raise; [done | by eapply getitem_missing].
Qed.

Lemma clean_data_date_error (h : heap) r f date_col s e :
  h !! r = Some f -> get_column date_col f = Some s -> to_datetime s = Raise e ->
  clean_data r date_col h = (Raise e, h).
Proof.
  intros Hr Hs He. unfold clean_data.
  erewrite bind_ok by (by eapply getitem_run).
  erewrite bind_raise; [done | unfold lift; by rewrite He].
Qed.

Lemma clean_data_ok_inv (h : heap) r f date_col r' h' :
  h !! r = Some f -> NoDup (columns f) ->
  clean_data r date_col h = (Ok r', h') ->
  exists s d, get_column date_col f = Some s /\ to_datetime s = Ok d /\
    r' = length h /\
    h' = <[r := cleaned_in_place d date_col f]> h
         ++ [take_frame (kept_rows date_col (cleaned_in_place d date_col f))
               (cleaned_in_place d date_col f)].
Proof.
  intros Hr Hnd Hrun.
  destruct (get_column date_col f) as [s|] eqn:Hs;
    [|by rewrite (clean_data_key_error _ _ _ _ Hr Hs) in Hrun].
  destruct (to_datetime s) as [d|e] eqn:Hd;
    [|by rewrite (clean_data_date_error _ _ _ _ _ _ Hr Hs Hd) in Hrun].
  rewrite (clean_data_run _ _ _ _ _ _ Hr Hnd Hs Hd) in Hrun.
  injection Hrun as <- <-. by exists s, d.
Qed.

End DateFacts.

(** ** Columns of the cleaned frames *)

Lemma get_column_imputed n f :
  get_column n (imputed f) = impute_column <$> get_column n f.
Proof.
  induction f as [|[n0 s0] f IH]; simpl; [done|].
  destruct (String.eqb_spec n0 n); [done | apply IH].
Qed.

Lemma get_column_take_frame m n f :
  get_column n (take_frame m f) = take_rows m <$> get_column n f.
Proof.
  induction f as [|[n0 s0] f IH]; simpl; [done|].
  destruct (String.eqb_spec n0 n); [done | apply IH].
Qed.

Lemma set_column_id n s f : get_column n f = Some s -> set_column n s f = f.
Proof.
  induction f as [|[n0 s0] f IH]; simpl; [done|].
  destruct (String.eqb_spec n0 n) as [->|Hne]; [by intros [= ->]|].
  intros H. by rewrite IH.
Qed.

Lemma text_columns_set_column d x f :
  text_columns d (set_column d x f) = text_columns d f.
Proof.
  unfold text_columns. induction f as [|[n0 s0] f IH]; simpl.
  - rewrite filter_cons. simpl. destruct (decide (is_number x = false)); [|done].
    rewrite filter_cons. simpl. by destruct (decide (d <> d)).
  - destruct (String.eqb_spec n0 d) as [->|Hne].
    + rewrite !filter_cons. simpl.
      destruct (decide (is_number x = false)), (decide (is_number s0 = false));
        rewrite ?filter_cons; simpl; by destruct (decide (d <> d)).
    + rewrite !filter_cons. simpl.
      destruct (decide (is_number s0 = false)); [|done].
      rewrite !filter_cons. simpl. destruct (decide (n0 <> d)); by rewrite IH.
Qed.

Lemma text_columns_take_frame d m f :
  text_columns d (take_frame m f) = take_frame m (text_columns d f).
Proof.
  unfold text_columns, take_frame. induction f as [|[n s] f IH]; [done|].
  simpl. rewrite !filter_cons. simpl.
  replace (is_number (take_rows m s)) with (is_number s) by (by destruct s).
  destruct (decide (is_number s = false)); [|done].
  rewrite !filter_cons. simpl.
  destruct (decide (n <> d)); simpl; by rewrite IH.
Qed.

Lemma text_columns_spec d f n s :
  (n, s) ∈ text_columns d f <-> (n, s) ∈ f /\ is_number s = false /\ n <> d.
Proof.
  unfold text_columns. rewrite !list_elem_of_filter. simpl. tauto.
Qed.

Lemma impute_text s : is_number s = false -> impute_column s = s.
Proof. by destruct s. Qed.

Lemma imputed_text d f : imputed (text_columns d f) = text_columns d f.
Proof.
  unfold imputed. rewrite <- (map_id (text_columns d f)) at 2.
  apply map_ext_in. intros [n s] Hin%list_elem_of_In.
  apply text_columns_spec in Hin as (_ & Hs & _). simpl. by rewrite impute_text.
Qed.

(** The text columns [dropna] inspects are those of the input. *)
Lemma text_columns_cleaned d x f :
  text_columns d (cleaned_in_place x d f) = text_columns d f.
Proof.
  unfold cleaned_in_place.
  by rewrite text_columns_imputed, text_columns_set_column, imputed_text.
Qed.

Lemma mean_skipna_None v : mean_skipna v = None <-> Forall (eq None) v.
Proof.
  unfold mean_skipna. split.
  - destruct (omap id v) as [|x xs] eqn:Hx; [|done]. intros _.
    induction v as [|[y|] v IH]; simpl in *; [done | done |].
    constructor; auto.
  - intros H. replace (omap id v) with (@nil Q); [done|].
    induction H as [|y v <- _ IH]; simpl; done.
Qed.

Lemma fill_no_gap (v : list (option Q)) value :
  Forall is_Some v ->
  map (fun c => match c with Some x => Some x | None => value end) v = v.
Proof.
  induction 1 as [|c v [x ->] _ IH]; simpl; [done | by rewrite IH].
Qed.

Lemma fill_gaps (v : list (option Q)) m :
  Forall is_Some (map (fun c => match c with Some x => Some x | None => Some m end) v).
Proof. induction v as [|[x|] v IH]; simpl; constructor; eauto. Qed.

Lemma fill_none (v : list (option Q)) :
  map (fun c => match c with Some x => Some x | None => None end) v = v.
Proof. induction v as [|[x|] v IH]; simpl; by rewrite ?IH. Qed.

Lemma Forall_select {A} (P : A -> Prop) m (l : list A) : Forall P l -> Forall P (select m l).
Proof.
  intros H. apply Forall_forall. intros x Hx%select_elem.
  by apply (proj1 (Forall_forall _ _) H).
Qed.

(** Imputing an imputed column again, even after rows were taken out,
    changes nothing. *)
Lemma impute_take_impute m s :
  impute_column (take_rows m (impute_column s)) = take_rows m (impute_column s).
Proof.
  destruct s as [v| |]; try done. simpl.
  destruct (mean_skipna v) as [x|] eqn:Hm.
  - f_equal. apply fill_no_gap. apply Forall_select, fill_gaps.
  - rewrite fill_none. apply mean_skipna_None in Hm.
    replace (mean_skipna (select m v)) with (@None Q); [by rewrite fill_none|].
    symmetry. apply mean_skipna_None. by apply Forall_select.
Qed.

(** ** Shape of the cleaned frames *)

Lemma get_column_cleaned n d date_col f :
  n <> date_col ->
  get_column n (cleaned_in_place d date_col f) = impute_column <$> get_column n f.
Proof.
  intros Hne. unfold cleaned_in_place.
  rewrite get_column_imputed, get_set_column_ne; [done | congruence].
Qed.

Lemma columns_cleaned d date_col f s :
  get_column date_col f = Some s -> columns (cleaned_in_place d date_col f) = columns f.
Proof.
  intros Hs. unfold cleaned_in_place. rewrite columns_imputed.
  apply columns_set_column. apply list_elem_of_fmap. exists (date_col, s).
  split; [done | by apply get_column_Some].
Qed.

Lemma nrows_cleaned d date_col f s :
  get_column date_col f = Some s -> series_len d = series_len s ->
  nrows (cleaned_in_place d date_col f) = nrows f.
Proof.
  intros Hs Hd. unfold cleaned_in_place.
  by rewrite nrows_imputed, (nrows_set_column _ _ _ s).
Qed.

Lemma wf_cleaned d date_col f s :
  wf_frame f -> get_column date_col f = Some s -> series_len d = series_len s ->
  wf_frame (cleaned_in_place d date_col f).
Proof. intros. apply wf_imputed. by eapply wf_set_column. Qed.

Lemma wf_series_len f n s : wf_frame f -> (n, s) ∈ f -> series_len s = nrows f.
Proof. intros [_ Hlen] Hin. by apply (proj1 (Forall_forall _ _) Hlen (n, s)). Qed.

Lemma take_frame_elem m f n s :
  (n, s) ∈ take_frame m f -> exists s0, (n, s0) ∈ f /\ s = take_rows m s0.
Proof.
  unfold take_frame. intros [[n0 s0] [[= -> ->] Hin]]%list_elem_of_fmap. eauto.
Qed.

(** Once [dropna] has run, running it again keeps every row. *)
Lemma kept_rows_take_frame d g :
  wf_frame g ->
  kept_rows d (take_frame (kept_rows d g) g)
  = replicate (nrows (take_frame (kept_rows d g) g)) true.
Proof.
  intros Hwf. set (keep := kept_rows d g). unfold kept_rows at 1.
  apply complete_rows_all. apply Forall_forall.
  intros s' [[n s1] [-> Hin]]%list_elem_of_fmap. simpl.
  pose proof (wf_take_frame keep g Hwf) as Hwf'.
  assert ((n, s1) ∈ take_frame keep g) as Hin' by (by apply text_columns_sub in Hin).
  rewrite <- (wf_series_len _ _ _ Hwf' Hin'), <- notna_length.
  apply Forall_true_replicate.
  rewrite text_columns_take_frame in Hin.
  apply take_frame_elem in Hin as (s0 & Hin & ->).
  rewrite notna_take_rows. apply complete_rows_complete.
  apply list_elem_of_fmap. by exists (n, s0).
Qed.

Lemma imputed_take_imputed m f :
  imputed (take_frame m (imputed f)) = take_frame m (imputed f).
Proof.
  unfold imputed, take_frame. rewrite !map_map. apply map_ext. intros [n s]. simpl.
  by rewrite impute_take_impute.
Qed.

Lemma mean_skipna_spec v m :
  mean_skipna v = Some m ->
  (m * inject_Z (Z.of_nat (length (omap id v))) == Qsum (omap id v))%Q.
Proof.
  unfold mean_skipna. destruct (omap id v) as [|x xs] eqn:Hx; [done|].
  intros [= <-]. rewrite Qred_correct, Qmult_comm. apply Qmult_div_r.
  intros H. unfold Qeq in H. simpl in H. lia.
Qed.

(** A column with a value has a mean: the sum of its values over their
    number. *)
Lemma mean_skipna_readings v :
  omap id v <> [] ->
  exists m, mean_skipna v = Some m /\
    (m * inject_Z (Z.of_nat (length (omap id v))) == foldr Qplus 0 (omap id v))%Q.
Proof.
  intros Hx. destruct (mean_skipna v) as [m|] eqn:Hm.
  - exists m. split; [done|]. by apply mean_skipna_spec.
  - unfold mean_skipna in Hm. by destruct (omap id v).
Qed.

(** ** The cleaner *)

Ltac nodup_concrete := apply (bool_decide_unpack _); vm_compute; exact I.
Ltac wf_concrete := split; [nodup_concrete | repeat constructor].

Section CleanerClaims.

Context `{DateParser}.



(** C3 (amended).  A number column without any value does not make
    [clean_data] fail: its mean is NaN, nothing is filled in, and when
    the dates convert the call returns with that column still entirely
    missing, in the caller's frame and in the returned one. *)
Theorem clean_data_all_missing_column (h : heap) r f date_col s d n v :
  h !! r = Some f -> NoDup (columns f) ->
  get_column date_col f = Some s -> to_datetime s = Ok d ->
  (n, Float64 v) ∈ f -> n <> date_col -> Forall (eq None) v ->
  exists r' h' g out v',
    clean_data r date_col h = (Ok r', h') /\
    h' !! r = Some g /\ get_column n g = Some (Float64 v) /\
    h' !! r' = Some out /\ get_column n out = Some (Float64 v') /\
    Forall (eq None) v'.
Proof.
  intros Hr Hnd Hs Hd Hin Hne Hv.
  assert (r < length h) as Hlt by (by eapply lookup_lt_Some).
  set (g := cleaned_in_place d date_col f).
  assert (get_column n g = Some (Float64 v)) as Hg.
  { unfold g. rewrite get_column_cleaned, (get_column_NoDup _ _ _ Hnd Hin) by done.
    simpl. apply mean_skipna_None in Hv as ->. by rewrite fill_none. }
  exists (length h), (<[r := g]> h ++ [take_frame (kept_rows date_col g) g]),
    g, (take_frame (kept_rows date_col g) g), (select (kept_rows date_col g) v).
  split; [by eapply clean_data_run|].
  split; [|split; [done|split; [|split]]].
  - rewrite lookup_app_l by (by rewrite length_insert).
    by apply list_lookup_insert_eq.
  - rewrite lookup_app_r by (by rewrite length_insert).
    by rewrite length_insert, Nat.sub_diag.
  - by rewrite get_column_take_frame, Hg.
  - by apply Forall_select.
Qed.

(** C4 (amended).  The frame a successful [clean_data] returns has the
    columns of the input, at most as many rows, and as many when no text
    column of the input has a gap; its text columns (not numbers, not
    the date column) have no gap, and neither has a number column in
    which the input had at least one value.  The date column and a
    number column without any value may still hold missing values. *)
Theorem clean_data_output_guarantee (h : heap) r f date_col r' h' :
  h !! r = Some f -> wf_frame f -> clean_data r date_col h = (Ok r', h') ->
  exists out, h' !! r' = Some out /\
    columns out = columns f /\
    nrows out <= nrows f /\
    ((forall n s, (n, s) ∈ f -> is_number s = false -> n <> date_col ->
        has_missing s = false) -> nrows out = nrows f) /\
    (forall n s, (n, s) ∈ out -> is_number s = false -> n <> date_col ->
        has_missing s = false) /\
    (forall n v, (n, Float64 v) ∈ f -> n <> date_col -> (exists x, Some x ∈ v) ->
        exists v', get_column n out = Some (Float64 v') /\
          has_missing (Float64 v') = false).
Proof.
  intros Hr Hwf Hrun.
  destruct (clean_data_ok_inv _ _ _ _ _ _ Hr (proj1 Hwf) Hrun)
    as (s & d & Hs & Hd & -> & ->).
  destruct (to_datetime_ok _ _ Hd) as (w & -> & Hlen & _).
  set (g := cleaned_in_place (Datetime w) date_col f).
  assert (wf_frame g) as Hwfg by (by eapply wf_cleaned).
  assert (nrows g = nrows f) as Hrows by (by eapply nrows_cleaned).
  exists (take_frame (kept_rows date_col g) g).
  split.
  { rewrite lookup_app_r by (by rewrite length_insert).
    by rewrite length_insert, Nat.sub_diag. }
  split; [by rewrite columns_take_frame; eapply columns_cleaned|].
  split; [rewrite <- Hrows; apply nrows_take_frame_le|].
  split; [|split].
  - intros Hfull. rewrite <- Hrows. f_equal.
    replace (kept_rows date_col g) with (replicate (nrows g) true).
    { apply take_frame_all. apply Forall_forall. intros [n s0] Hin. simpl.
      by rewrite (wf_series_len _ _ _ Hwfg Hin). }
    symmetry. unfold kept_rows. apply complete_rows_all. apply Forall_forall.
    intros s0 [[n s1] [-> Hin]]%list_elem_of_fmap. simpl.
    unfold g in Hin. rewrite text_columns_cleaned in Hin.
    apply text_columns_spec in Hin as (Hin & Hnum & Hne).
    rewrite Hrows, <- (wf_series_len _ _ _ Hwf Hin), <- notna_length.
    apply Forall_true_replicate. apply has_missing_false. eauto.
  - intros n s0 Hin Hnum Hne.
    assert ((n, s0) ∈ text_columns date_col (take_frame (kept_rows date_col g) g))
      as Hin' by (by apply text_columns_spec).
    rewrite text_columns_take_frame in Hin'.
    apply take_frame_elem in Hin' as (s1 & Hin' & ->).
    apply has_missing_false. rewrite notna_take_rows.
    apply complete_rows_complete. apply list_elem_of_fmap. by exists (n, s1).
  - intros n v Hin Hne [x Hx].
    eexists. split.
    + rewrite get_column_take_frame. unfold g.
      rewrite get_column_cleaned, (get_column_NoDup _ _ _ (proj1 Hwf) Hin) by done.
      reflexivity.
    + apply has_missing_false. simpl.
      destruct (mean_skipna v) as [m|] eqn:Hm.
      * apply Forall_fmap. apply Forall_select.
        eapply Forall_impl; [apply (fill_gaps v m)|].
        intros c Hc. simpl. by rewrite bool_decide_eq_true_2.
      * apply mean_skipna_None in Hm.
        by apply (proj1 (Forall_forall _ _) Hm) in Hx.
Qed.

(** C5.  For a number column other than the date column, a successful
    [clean_data] puts the mean of the column's own input values in
    every gap: when the column has a value, every gap receives the number
    [m] that is the sum of the present values divided by their count;
    it is taken from the column as it was passed in, so no other column
    has a say in it.  Present values stay, and a column without any value
    stays as it is.  The caller's frame holds the filled column, the
    returned frame its kept rows.  Scenario 1: pm25 values 10 and missing
    become 10 and 10. *)
Theorem clean_data_imputes_mean :
  (forall (h : heap) r f date_col r' h' n v,
     h !! r = Some f -> NoDup (columns f) ->
     clean_data r date_col h = (Ok r', h') ->
     (n, Float64 v) ∈ f -> n <> date_col ->
     exists g out w,
       h' !! r = Some g /\ get_column n g = Some (Float64 w) /\
       length w = length v /\
       (forall i x, v !! i = Some (Some x) -> w !! i = Some (Some x)) /\
       (omap id v <> [] ->
        exists m,
          (m * inject_Z (Z.of_nat (length (omap id v))) == foldr Qplus 0 (omap id v))%Q /\
          forall i, v !! i = Some None -> w !! i = Some (Some m)) /\
       (omap id v = [] -> w = v) /\
       h' !! r' = Some out /\
       get_column n out = Some (Float64 (select (kept_rows date_col g) w))) /\
  (let '(res, h') := clean 0 "timestamp" [scenario1] in
   exists out, res = Ok 1 /\ h' !! 1 = Some out /\
     get_column "pm25" out = Some (Float64 [Some 10%Q; Some 10%Q])).
Proof.
  split.
  - intros h r f date_col r' h' n v Hr Hnd Hrun Hin Hne.
    destruct (clean_data_ok_inv _ _ _ _ _ _ Hr Hnd Hrun)
      as (s & d & Hs & Hd & -> & ->).
    assert (r < length h) as Hlt by (by eapply lookup_lt_Some).
    set (g := cleaned_in_place d date_col f).
    set (fill := fun c : option Q =>
                   match c with Some x => Some x | None => mean_skipna v end).
    assert (get_column n g = Some (Float64 (map fill v))) as Hg.
    { unfold g. by rewrite get_column_cleaned, (get_column_NoDup _ _ _ Hnd Hin). }
    exists g, (take_frame (kept_rows date_col g) g), (map fill v).
    split.
    { rewrite lookup_app_l by (by rewrite length_insert).
      by apply list_lookup_insert_eq. }
    split; [done|]. split; [by rewrite length_map|].
    split; [intros i x Hi; by rewrite list_lookup_fmap, Hi|].
    split.
    { intros Hsome. destruct (mean_skipna_readings v Hsome) as (m & Hm & Hmean).
      exists m. split; [exact Hmean|].
      intros i Hi. rewrite list_lookup_fmap, Hi. unfold fill. simpl. by rewrite Hm. }
    split.
    { intros Hnone. unfold fill, mean_skipna. rewrite Hnone. apply fill_none. }
    split.
    { rewrite lookup_app_r by (by rewrite length_insert).
      by rewrite length_insert, Nat.sub_diag. }
    by rewrite get_column_take_frame, Hg.
  - vm_compute. eexists. repeat split.
Qed.

(** C6 (amended).  [clean_data] works on the caller's frame: after a
    successful call that frame has its date column replaced by the
    converted one and its number columns filled, with all its rows; only
    the row removal goes to a new object, the one returned.  Every
    other object is untouched, and a failing call changes nothing. *)
Theorem clean_data_effect (h : heap) r f date_col :
  h !! r = Some f -> NoDup (columns f) ->
  match clean_data r date_col h with
  | (Ok r', h') =>
      r' = length h /\ length h' = S (length h) /\
      (forall q, q <> r -> q < length h -> h' !! q = h !! q) /\
      exists s d, get_column date_col f = Some s /\ to_datetime s = Ok d /\
        h' !! r = Some (cleaned_in_place d date_col f) /\
        nrows (cleaned_in_place d date_col f) = nrows f
  | (Raise e, h') => h' = h
  end.
Proof.
  intros Hr Hnd.
  assert (r < length h) as Hlt by (by eapply lookup_lt_Some).
  destruct (get_column date_col f) as [s|] eqn:Hs;
    [|by rewrite (clean_data_key_error _ _ _ _ Hr Hs)].
  destruct (to_datetime s) as [d|e] eqn:Hd;
    [|by rewrite (clean_data_date_error _ _ _ _ _ _ Hr Hs Hd)].
  rewrite (clean_data_run _ _ _ _ _ _ Hr Hnd Hs Hd).
  split; [done|]. split; [rewrite length_app, length_insert; simpl; lia|].
  split.
  - intros q Hq Hql. rewrite lookup_app_l by (by rewrite length_insert).
    by apply list_lookup_insert_ne.
  - exists s, d. repeat split; try done.
    + rewrite lookup_app_l by (by rewrite length_insert).
      by apply list_lookup_insert_eq.
    + destruct (to_datetime_ok _ _ Hd) as (w & -> & Hlen & _).
      by eapply nrows_cleaned.
Qed.

(** C7.  [clean_data] is idempotent on its own output: on the frame a
    successful call returned, a second call succeeds as well, returns a
    frame equal to it (no row removed, no value changed) and leaves it
    as it is in place. *)
Theorem clean_data_idempotent (h : heap) r f date_col r1 h1 :
  h !! r = Some f -> wf_frame f -> clean_data r date_col h = (Ok r1, h1) ->
  exists out r2 h2,
    h1 !! r1 = Some out /\
    clean_data r1 date_col h1 = (Ok r2, h2) /\
    h2 !! r2 = Some out /\ h2 !! r1 = Some out.
Proof.
  intros Hr Hwf Hrun.
  destruct (clean_data_ok_inv _ _ _ _ _ _ Hr (proj1 Hwf) Hrun)
    as (s & d & Hs & Hd & -> & ->).
  destruct (to_datetime_ok _ _ Hd) as (w & -> & Hlen & _).
  set (g := cleaned_in_place (Datetime w) date_col f).
  set (keep := kept_rows date_col g).
  set (out := take_frame keep g).
  set (h1 := <[r := g]> h ++ [out]).
  assert (wf_frame g) as Hwfg by (by eapply wf_cleaned).
  assert (wf_frame out) as Hwfo by (by apply wf_take_frame).
  assert (length h1 = S (length h)) as Hlen1
    by (unfold h1; rewrite length_app, length_insert; simpl; lia).
  assert (h1 !! length h = Some out) as Hout.
  { unfold h1. rewrite lookup_app_r by (by rewrite length_insert).
    by rewrite length_insert, Nat.sub_diag. }
  assert (get_column date_col out = Some (Datetime (select keep w))) as Hdate.
  { unfold out, g, cleaned_in_place.
    by rewrite get_column_take_frame, get_column_imputed, get_set_column_eq. }
  assert (cleaned_in_place (Datetime (select keep w)) date_col out = out) as Hfix.
  { unfold cleaned_in_place. rewrite (set_column_id _ _ _ Hdate).
    unfold out, g, cleaned_in_place. apply imputed_take_imputed. }
  exists out, (length h1), (<[length h := out]> h1 ++ [out]).
  split; [done|]. split; [|split].
  - rewrite (clean_data_run _ _ _ _ (Datetime (select keep w))
               (Datetime (select keep w)) Hout (proj1 Hwfo) Hdate
               (to_datetime_datetime _)).
    rewrite Hfix. do 3 f_equal.
    assert (kept_rows date_col out = replicate (nrows out) true) as ->
      by apply (kept_rows_take_frame _ _ Hwfg).
    apply take_frame_all. apply Forall_forall. intros [n s0] Hin. simpl.
    by rewrite (wf_series_len _ _ _ Hwfo Hin).
  - rewrite lookup_app_r by (by rewrite length_insert).
    by rewrite length_insert, Nat.sub_diag.
  - rewrite lookup_app_l by (rewrite length_insert; lia).
    apply list_lookup_insert_eq. lia.
Qed.

End CleanerClaims.

(** ** The cleaner on concrete inputs *)



Lemma clean_data_all_missing_column_witness :
  NoDup (columns never_measured) /\
  exists r' h' g out v',
    clean 0 "timestamp" [never_measured] = (Ok r', h') /\
    h' !! 0 = Some g /\ get_column "no2" g = Some (Float64 [None; None]) /\
    h' !! r' = Some out /\ get_column "no2" out = Some (Float64 v') /\
    Forall (eq None) v'.
Proof.
  assert (NoDup (columns never_measured)) as Hnd by nodup_concrete.
  split; [exact Hnd|].
  apply (@clean_data_all_missing_column iso_dates [never_measured] 0 never_measured
           "timestamp" _ _ "no2" [None; None] eq_refl Hnd eq_refl eq_refl).
  - right. left.
  - discriminate.
  - repeat constructor.
Defined.

(** A pollutant without any reading does not stop [clean_data]. *)
Lemma clean_data_all_missing_counterexample :
  ~ (forall (f : DataFrame) date_col n v,
       (n, Float64 v) ∈ f -> Forall (eq None) v ->
       exists e h', clean 0 date_col [f] = (Raise e, h')).
Proof.
  intros Hclaim.
  destruct (Hclaim never_measured "timestamp" "no2" [None; None]) as (e & h' & Hrun).
  - right. left.
  - repeat constructor.
  - vm_compute in Hrun. discriminate Hrun.
Qed.

Lemma clean_data_output_guarantee_witness :
  wf_frame mixed /\
  exists out, (clean 0 "timestamp" [mixed]).2 !! 1 = Some out /\
    columns out = columns mixed /\
    nrows out <= nrows mixed /\
    ((forall n s, (n, s) ∈ mixed -> is_number s = false -> n <> "timestamp" ->
        has_missing s = false) -> nrows out = nrows mixed) /\
    (forall n s, (n, s) ∈ out -> is_number s = false -> n <> "timestamp" ->
        has_missing s = false) /\
    (forall n v, (n, Float64 v) ∈ mixed -> n <> "timestamp" -> (exists x, Some x ∈ v) ->
        exists v', get_column n out = Some (Float64 v') /\
          has_missing (Float64 v') = false).
Proof.
  assert (wf_frame mixed) as Hwf by wf_concrete.
  split; [exact Hwf|].
  exact (@clean_data_output_guarantee iso_dates [mixed] 0 mixed "timestamp" 1
           (clean 0 "timestamp" [mixed]).2 eq_refl Hwf eq_refl).
Defined.

(** The returned frame of scenario 2 still has a missing date. *)
Lemma clean_data_output_counterexample :
  ~ (forall (f : DataFrame) date_col r' h' out,
       clean 0 date_col [f] = (Ok r', h') -> h' !! r' = Some out ->
       forall n s, (n, s) ∈ out -> has_missing s = false).
Proof.
  intros Hclaim.
  specialize (Hclaim scenario2 "admission_date" 1 _ _ eq_refl eq_refl
                "admission_date" (Datetime [Some (Timestamp 2024 2 3); None])).
  assert (has_missing (Datetime [Some (Timestamp 2024 2 3); None]) = false) as Hno
    by (apply Hclaim; left).
  vm_compute in Hno. discriminate Hno.
Qed.

Lemma clean_data_imputes_mean_witness :
  NoDup (columns mixed) /\
  exists g out w,
    (clean 0 "timestamp" [mixed]).2 !! 0 = Some g /\
    get_column "pm25" g = Some (Float64 w) /\
    length w = 3 /\
    (forall i x, [Some 10%Q; None; Some 14%Q] !! i = Some (Some x) ->
       w !! i = Some (Some x)) /\
    ([10%Q; 14%Q] <> [] ->
     exists m, (m * inject_Z (Z.of_nat 2) == foldr Qplus 0 [10; 14])%Q /\
       forall i, [Some 10%Q; None; Some 14%Q] !! i = Some None -> w !! i = Some (Some m)) /\
    ([10%Q; 14%Q] = [] -> w = [Some 10%Q; None; Some 14%Q]) /\
    (clean 0 "timestamp" [mixed]).2 !! 1 = Some out /\
    get_column "pm25" out = Some (Float64 (select (kept_rows "timestamp" g) w)).
Proof.
  assert (NoDup (columns mixed)) as Hnd by nodup_concrete.
  split; [exact Hnd|].
  apply (proj1 (@clean_data_imputes_mean iso_dates) [mixed] 0 mixed "timestamp" 1
           (clean 0 "timestamp" [mixed]).2 "pm25" [Some 10%Q; None; Some 14%Q]
           eq_refl Hnd eq_refl).
  - right. left.
  - discriminate.
Defined.

Lemma clean_data_effect_witness :
  NoDup (columns mixed) /\
  exists s d, get_column "timestamp" mixed = Some s /\ @to_datetime iso_dates s = Ok d /\
    (clean 0 "timestamp" [mixed]).2 !! 0 = Some (cleaned_in_place d "timestamp" mixed) /\
    nrows (cleaned_in_place d "timestamp" mixed) = 3.
Proof.
  assert (NoDup (columns mixed)) as Hnd by nodup_concrete.
  split; [exact Hnd|].
  exact (proj2 (proj2 (proj2
    (@clean_data_effect iso_dates [mixed] 0 mixed "timestamp" eq_refl Hnd)))).
Defined.

(** After the call of scenario 1 the caller's own frame has changed. *)
Lemma clean_data_mutates_counterexample :
  ~ (forall (f : DataFrame) date_col r' h',
       clean 0 date_col [f] = (Ok r', h') -> h' !! 0 = Some f).
Proof.
  intros Hclaim.
  specialize (Hclaim scenario1 "timestamp" 1 _ eq_refl).
  vm_compute in Hclaim. discriminate Hclaim.
Qed.

Lemma clean_data_idempotent_witness :
  wf_frame mixed /\
  exists out r2 h2,
    (clean 0 "timestamp" [mixed]).2 !! 1 = Some out /\
    clean 1 "timestamp" (clean 0 "timestamp" [mixed]).2 = (Ok r2, h2) /\
    h2 !! r2 = Some out /\ h2 !! 1 = Some out.
Proof.
  assert (wf_frame mixed) as Hwf by wf_concrete.
  split; [exact Hwf|].
  exact (@clean_data_idempotent iso_dates [mixed] 0 mixed "timestamp" 1
           (clean 0 "timestamp" [mixed]).2 eq_refl Hwf eq_refl).
Defined.

(** ** Month tables *)

Lemma at_month_notin idx vals k : k ∉ idx -> at_month idx vals k = None.
Proof.
  revert vals. induction idx as [|i idx IH]; intros [|v vals] Hk; simpl; try done.
  apply not_elem_of_cons in Hk as [Hne Hk].
  destruct (Z.eqb_spec i k); [congruence | by apply IH].
Qed.

Lemma at_month_map (g : Z -> option Q) idx k :
  k ∈ idx -> at_month idx (map g idx) k = g k.
Proof.
  induction idx as [|i idx IH]; simpl.
  - by intros ?%elem_of_nil.
  - intros Hk. destruct (Z.eqb_spec i k) as [->|Hne]; [done|].
    apply IH. apply elem_of_cons in Hk as [?|?]; [congruence | done].
Qed.

Lemma at_month_map_notin (g : Z -> option Q) idx k :
  k ∉ idx -> at_month idx (map g idx) k = None.
Proof. apply at_month_notin. Qed.

(** Re-indexing twice is re-indexing once, as long as the first index
    covers the column's own. *)
Lemma reindex_twice idx0 vals idx1 idx2 :
  idx0 ⊆ idx1 ->
  map (at_month idx1 (map (at_month idx0 vals) idx1)) idx2 = map (at_month idx0 vals) idx2.
Proof.
  intros Hsub. apply map_ext. intros k.
  destruct (decide (k ∈ idx1)) as [Hin|Hin].
  - by apply at_month_map.
  - rewrite at_month_map_notin by done. symmetry. apply at_month_notin. auto.
Qed.

Lemma union_index_elem (l r : list Z) k :
  k ∈ union_index l r <-> k ∈ l \/ k ∈ r.
Proof. unfold union_index. rewrite merge_sort_Permutation. apply list_elem_of_union. Qed.

Lemma union_index_NoDup (l r : list Z) :
  NoDup l -> NoDup r -> NoDup (union_index l r).
Proof.
  intros Hl Hr. unfold union_index. rewrite merge_sort_Permutation.
  by apply NoDup_list_union.
Qed.

Lemma foldr_min_le k ks : (foldr Z.min k ks <= k)%Z /\ Forall (fun x => foldr Z.min k ks <= x)%Z ks.
Proof.
  induction ks as [|x ks [IH1 IH2]]; simpl; [split; [lia | constructor]|].
  split; [lia|]. constructor; [lia|].
  eapply Forall_impl; [exact IH2|]. simpl. lia.
Qed.

Lemma foldr_max_ge k ks : (k <= foldr Z.max k ks)%Z /\ Forall (fun x => x <= foldr Z.max k ks)%Z ks.
Proof.
  induction ks as [|x ks [IH1 IH2]]; simpl; [split; [lia | constructor]|].
  split; [lia|]. constructor; [lia|].
  eapply Forall_impl; [exact IH2|]. simpl. lia.
Qed.

Lemma foldr_min_in k ks : foldr Z.min k ks ∈ k :: ks.
Proof.
  induction ks as [|x ks IH]; simpl; [left|].
  destruct (Z.min_spec x (foldr Z.min k ks)) as [[_ ->]|[_ ->]].
  - right. left.
  - apply elem_of_cons in IH as [->|IH]; [left | right; by right].
Qed.

Lemma foldr_max_in k ks : foldr Z.max k ks ∈ k :: ks.
Proof.
  induction ks as [|x ks IH]; simpl; [left|].
  destruct (Z.max_spec x (foldr Z.max k ks)) as [[_ ->]|[_ ->]].
  - apply elem_of_cons in IH as [->|IH]; [left | right; by right].
  - right. left.
Qed.

Lemma omap_id_elem {A} (l : list (option A)) x : x ∈ omap id l <-> Some x ∈ l.
Proof. rewrite list_elem_of_omap. split; [intros ([y|] & ? & ?); naive_solver | eauto]. Qed.

(** The buckets of a source are exactly the months between its earliest
    and its latest dated row. *)
Lemma month_range_spec ks k :
  k ∈ month_range ks <->
  exists lo hi, Some lo ∈ ks /\ Some hi ∈ ks /\ (lo <= k <= hi)%Z.
Proof.
  unfold month_range. destruct (omap id ks) as [|k0 ks'] eqn:Hks.
  - split; [by intros ?%elem_of_nil|].
    intros (lo & _ & Hlo & _). apply omap_id_elem in Hlo. rewrite Hks in Hlo.
    by apply elem_of_nil in Hlo.
  - rewrite elem_of_seqZ.
    destruct (foldr_min_le k0 ks') as [Hmin1 Hmin2].
    destruct (foldr_max_ge k0 ks') as [Hmax1 Hmax2].
    split.
    + intros Hk. exists (foldr Z.min k0 ks'), (foldr Z.max k0 ks').
      rewrite <- !omap_id_elem, Hks.
      split; [apply foldr_min_in|]. split; [apply foldr_max_in | lia].
    + intros (lo & hi & Hlo & Hhi & Hk).
      apply omap_id_elem in Hlo, Hhi. rewrite Hks in Hlo, Hhi.
      assert (foldr Z.min k0 ks' <= lo)%Z.
      { apply elem_of_cons in Hlo as [->|Hlo]; [done|].
        by apply (proj1 (Forall_forall _ _) Hmin2). }
      assert (hi <= foldr Z.max k0 ks')%Z.
      { apply elem_of_cons in Hhi as [->|Hhi]; [done|].
        by apply (proj1 (Forall_forall _ _) Hmax2). }
      lia.
Qed.

Lemma month_range_NoDup ks : NoDup (month_range ks).
Proof.
  unfold month_range. destruct (omap id ks); [constructor | apply NoDup_seqZ].
Qed.

Lemma month_range_key ks k : Some k ∈ ks -> k ∈ month_range ks.
Proof. intros Hk. apply month_range_spec. exists k, k. repeat split; (done || lia). Qed.

Lemma bucket_size_zero ks k : bucket_size ks k = 0 <-> Some k ∉ ks.
Proof.
  unfold bucket_size. rewrite length_zero_iff_nil. split.
  - intros Hnil Hin.
    assert (Some k ∈ filter (fun o => o = Some k) ks) as H
      by (by apply list_elem_of_filter).
    rewrite Hnil in H. by apply elem_of_nil in H.
  - intros Hin. induction ks as [|o ks IH]; [done|].
    apply not_elem_of_cons in Hin as [Hne Hin]. rewrite filter_cons.
    destruct (decide (o = Some k)); [congruence | auto].
Qed.

Lemma select_none {A} ks k (v : list A) :
  Some k ∉ ks -> select (in_bucket ks k) v = [].
Proof.
  revert v. induction ks as [|o ks IH]; intros [|x v] Hin; simpl; try done.
  apply not_elem_of_cons in Hin as [Hne Hin].
  rewrite bool_decide_eq_false_2 by congruence. by apply IH.
Qed.

(** The mean of a month without rows is NaN. *)
Lemma bucket_mean_empty ks v k : bucket_size ks k = 0 -> bucket_mean ks v k = None.
Proof.
  intros Hk%bucket_size_zero. unfold bucket_mean. by rewrite select_none.
Qed.

(** ** Running the aggregation *)

Lemma dated_run key f :
  dated key f = true ->
  exists x, set_index f key = Ok x /\
    resample_M x = Ok (Resampler (month_keys key f) (filter (fun c => c.1 <> key) f)).
Proof.
  unfold dated, month_keys, set_index.
  destruct (get_column key f) as [[| |v]|]; try done.
  intros Hv. eexists. split; [done|]. unfold resample_M. cbn [ix body].
  destruct v as [|o v]; [done|]. by destruct (omap id (o :: v)).
Qed.

Lemma mean_columns_run numeric_only ks buckets f :
  numeric_only = true \/ forallb (fun c => is_number c.2) f = true ->
  mean_columns numeric_only ks buckets f
  = Ok (map (fun c => (c.1, map (bucket_mean ks c.2) buckets)) (number_columns f)).
Proof.
  intros Hok. induction f as [|[n [v| |]] f IH]; simpl; [done| | |].
  - rewrite IH; [done|]. destruct Hok as [?|[_ ?]%andb_prop]; auto.
  - destruct Hok as [->|?]; [|done]. apply IH. by left.
  - destruct Hok as [->|?]; [|done]. apply IH. by left.
Qed.

(** What [Resampler.mean()] returns for an averageable source: a cell of
    a month without rows is NaN, and every number column is there with
    its monthly means. *)
Lemma resample_mean_run numeric_only ks body :
  numeric_only = true \/ ks = [] \/ forallb (fun c => is_number c.2) body = true ->
  exists cols,
    resample_mean numeric_only (Resampler ks body) = Ok (Table (month_range ks) cols) /\
    (ks = [] -> map fst cols = columns body) /\
    (forall n vals k, (n, vals) ∈ cols -> bucket_size ks k = 0 ->
       at_month (month_range ks) vals k = None) /\
    (forall n v, (n, Float64 v) ∈ body ->
       exists vals, (n, vals) ∈ cols /\
         forall k, k ∈ month_range ks ->
           at_month (month_range ks) vals k = bucket_mean ks v k).
Proof.
  intros Hok. unfold resample_mean. simpl.
  destruct ks as [|o ks].
  - exists (map (fun c => (c.1, [])) body). split; [done|].
    split; [by rewrite map_map|]. split.
    + intros n vals k _ _. apply at_month_notin, not_elem_of_nil.
    + intros n v Hin. exists []. split; [|by intros k ?%elem_of_nil].
      apply list_elem_of_fmap. by exists (n, Float64 v).
  - rewrite mean_columns_run by (destruct Hok as [?|[?|?]]; by auto).
    eexists. split; [done|]. split; [done|]. split.
    + intros n vals k [[n0 v0] [[= -> ->] _]]%list_elem_of_fmap Hk. simpl.
      destruct (decide (k ∈ month_range (o :: ks))) as [Hin|Hin].
      * rewrite at_month_map by done. by apply bucket_mean_empty.
      * by apply at_month_notin.
    + intros n v Hin. exists (map (bucket_mean (o :: ks) v) (month_range (o :: ks))).
      split; [|intros k Hk; by apply at_month_map].
      apply list_elem_of_fmap. exists (n, v). split; [done|].
      apply list_elem_of_omap. by exists (n, Float64 v).
Qed.

Lemma no_overlap_names (names others : list string) :
  Forall (fun n => String.get 0 n = Some "a"%char) names ->
  Forall (fun n => String.get 0 n <> Some "a"%char) others ->
  existsb (fun n => bool_decide (n ∈ others)) names = false.
Proof.
  intros Hnames Hothers. induction Hnames as [|n names Hn _ IH]; simpl; [done|].
  rewrite IH, orb_false_r. apply bool_decide_eq_false_2. intros Hin.
  by apply (proj1 (Forall_forall _ _) Hothers) in Hin.
Qed.

Lemma air_names (cols : list (string * list (option Q))) :
  Forall (fun n => String.get 0 n = Some "a"%char)
    (map (fun c => String.append "air_" c.1) cols).
Proof. apply Forall_fmap, Forall_true. done. Qed.

Lemma at_month_size ks k :
  default 0%Q (at_month (month_range ks) (size_cells ks) k)
  = inject_Z (Z.of_nat (bucket_size ks k)).
Proof.
  unfold size_cells. destruct (decide (k ∈ month_range ks)) as [Hin|Hin].
  - by rewrite at_month_map.
  - rewrite at_month_map_notin by done. simpl.
    replace (bucket_size ks k) with 0; [done|].
    symmetry. apply bucket_size_zero. intros Hk. by apply Hin, month_range_key.
Qed.

Lemma join_outer_run l r :
  existsb (fun n => bool_decide (n ∈ map fst (t_columns r))) (map fst (t_columns l)) = false ->
  join_outer l r
  = Ok (Table (union_index (t_index l) (t_index r))
          (reindex (union_index (t_index l) (t_index r)) l
           ++ reindex (union_index (t_index l) (t_index r)) r)).
Proof. unfold join_outer. by intros ->. Qed.

Lemma averageable_spec numeric_only air :
  averageable numeric_only air = true ->
  numeric_only = true \/ month_keys "timestamp" air = [] \/
  forallb (fun c => is_number c.2) (filter (fun c => c.1 <> "timestamp") air) = true.
Proof.
  unfold averageable. intros [[->| H]%orb_prop | H]%orb_prop; auto.
  right. left. by destruct (month_keys "timestamp" air).
Qed.

(** The table [aggregate_monthly] builds from inputs it accepts. *)
Lemma aggregate_monthly_run numeric_only air hosp jp :
  dated "timestamp" air = true -> dated "admission_date" hosp = true ->
  dated "admission_date" jp = true -> averageable numeric_only air = true ->
  let ka := month_keys "timestamp" air in
  let kh := month_keys "admission_date" hosp in
  let kj := month_keys "admission_date" jp in
  let idx := union_index (union_index (month_range ka) (month_range kh)) (month_range kj) in
  exists cols,
    resample_mean numeric_only (Resampler ka (filter (fun c => c.1 <> "timestamp") air))
    = Ok (Table (month_range ka) cols) /\
    aggregate_monthly numeric_only air hosp jp
    = Ok (Table idx
            (map (fun c => (String.append "air_" c.1, filled (month_range ka) c.2 idx)) cols
             ++ [("hospitalizations_total", filled (month_range kh) (size_cells kh) idx);
                 ("hospitalizations_jp", filled (month_range kj) (size_cells kj) idx)])).
Proof.
  intros Ha Hh Hj Hav ka kh kj idx.
  destruct (dated_run _ _ Ha) as (xa & Hxa & Hra).
  destruct (dated_run _ _ Hh) as (xh & Hxh & Hrh).
  destruct (dated_run _ _ Hj) as (xj & Hxj & Hrj).
  destruct (resample_mean_run numeric_only ka (filter (fun c => c.1 <> "timestamp") air)
              (averageable_spec _ _ Hav)) as (cols & Hmean & _).
  exists cols. split; [done|].
  unfold aggregate_monthly. rewrite Hxa, Hxh, Hxj. cbn [rbind].
  rewrite Hra. cbn [rbind]. fold ka. rewrite Hmean. cbn [rbind].
  rewrite Hrh, Hrj. cbn [rbind]. fold kh kj.
  rewrite join_outer_run; cycle 1.
  { cbn [t_columns add_prefix resample_size_to_frame map fst]. rewrite map_map.
    apply no_overlap_names; [apply air_names | repeat constructor; done]. }
  cbn [rbind]. rewrite join_outer_run; cycle 1.
  { unfold reindex.
    cbn [t_columns t_index add_prefix resample_size_to_frame map fst keys].
    rewrite map_app, existsb_app, !map_map. cbn [fst map existsb].
    rewrite no_overlap_names; [by vm_compute | apply air_names | repeat constructor; done]. }
  cbn [rbind]. unfold fillna_zero, reindex, add_prefix, resample_size_to_frame.
  cbn [t_columns t_index keys]. fold idx. do 2 f_equal.
  rewrite !map_app, !map_map, <- app_assoc. cbn [map app fst snd]. f_equal.
  - apply map_ext. intros [n vals]. cbn [fst snd]. f_equal.
    rewrite reindex_twice by (intros k Hk; apply union_index_elem; by left).
    unfold filled. by rewrite map_map.
  - unfold filled. fold (size_cells kh) (size_cells kj). do 2 f_equal.
    + f_equal. rewrite reindex_twice by (intros k Hk; apply union_index_elem; by right).
      by rewrite map_map.
    + f_equal. by rewrite map_map.
Qed.

Lemma at_month_filled idx0 vals idx k :
  k ∈ idx -> at_month idx (filled idx0 vals idx) k = Some (default 0%Q (at_month idx0 vals k)).
Proof. intros Hk. unfold filled. by rewrite at_month_map. Qed.

Lemma elem_of_union3 (a b c : list Z) k :
  k ∈ union_index (union_index a b) c <-> k ∈ a \/ k ∈ b \/ k ∈ c.
Proof. rewrite !union_index_elem. tauto. Qed.

Lemma set_index_body_elem key (f : DataFrame) n s :
  (n, s) ∈ f -> n <> key -> (n, s) ∈ filter (fun c => c.1 <> key) f.
Proof. intros Hin Hne. by apply list_elem_of_filter. Qed.

(** The values [bucket_mean] averages are the readings of the month. *)
Lemma select_in_bucket_readings dates (v : list (option Q)) k :
  omap id (select (in_bucket (map (fmap month_ord) dates) k) v) = month_readings dates v k.
Proof.
  unfold in_bucket, month_readings. revert v.
  induction dates as [|d dates IH]; intros [|x v]; try done.
  specialize (IH v). destruct d as [t|]; simpl.
  - destruct (decide (month_ord t = k)) as [Heq|Hne].
    + rewrite !bool_decide_eq_true_2 by congruence.
      destruct x; simpl; [f_equal|]; exact IH.
    + rewrite !bool_decide_eq_false_2 by congruence. exact IH.
  - exact IH.
Qed.

(** A cell of the mean of a month, after the fill: zero without a
    reading, else the sum of the readings over their number. *)
Lemma bucket_mean_readings dates v k :
  let xs := month_readings dates v k in
  (xs = [] -> default 0%Q (bucket_mean (map (fmap month_ord) dates) v k) = 0%Q) /\
  (xs <> [] ->
   exists m, default 0%Q (bucket_mean (map (fmap month_ord) dates) v k) = m /\
     (m * inject_Z (Z.of_nat (length xs)) == foldr Qplus 0 xs)%Q).
Proof.
  intros xs. unfold bucket_mean. split.
  - intros Hxs. unfold mean_skipna. rewrite select_in_bucket_readings. fold xs. by rewrite Hxs.
  - intros Hxs.
    destruct (mean_skipna_readings
                (select (in_bucket (map (fmap month_ord) dates) k) v)) as (m & -> & Hm).
    + by rewrite select_in_bucket_readings.
    + exists m. split; [done|]. by rewrite select_in_bucket_readings in Hm.
Qed.

(** ** The aggregator *)

Section AggregatorClaims.

Variable numeric_only : bool.
Variables air hosp jp : DataFrame.

Hypothesis air_dated : dated "timestamp" air = true.
Hypothesis hosp_dated : dated "admission_date" hosp = true.
Hypothesis jp_dated : dated "admission_date" jp = true.
Hypothesis air_averageable : averageable numeric_only air = true.

(** C1 (amended).  For cleaned inputs the aggregation accepts (each date
    column is a datetime column without rows or with a date in some row,
    and the air columns can be averaged), [aggregate_monthly] returns a
    table whose index holds every month of the three resampled inputs,
    each once (their union), with one cell per row in every column; and
    a cell of a source that has no row in a month is exactly zero: every
    air column, the total or the filtered total. *)
Theorem aggregate_monthly_join_complete :
  exists idx air_cols total jp_total,
    aggregate_monthly numeric_only air hosp jp
    = Ok (Table idx (air_cols ++ [("hospitalizations_total", total);
                                  ("hospitalizations_jp", jp_total)])) /\
    (forall k, k ∈ idx <->
       k ∈ resampled_months "timestamp" air \/
       k ∈ resampled_months "admission_date" hosp \/
       k ∈ resampled_months "admission_date" jp) /\
    NoDup idx /\
    Forall (fun c => length c.2 = length idx)
      (air_cols ++ [("hospitalizations_total", total); ("hospitalizations_jp", jp_total)]) /\
    (forall k, k ∈ idx ->
       (rows_in_month "timestamp" air k = 0 ->
          forall n vals, (n, vals) ∈ air_cols -> at_month idx vals k = Some 0%Q) /\
       (rows_in_month "admission_date" hosp k = 0 -> at_month idx total k = Some 0%Q) /\
       (rows_in_month "admission_date" jp k = 0 -> at_month idx jp_total k = Some 0%Q)).
Proof.
  destruct (aggregate_monthly_run numeric_only air hosp jp
              air_dated hosp_dated jp_dated air_averageable) as (cols & Hmean & Hrun).
  destruct (resample_mean_run numeric_only (month_keys "timestamp" air)
              (filter (fun c => c.1 <> "timestamp") air)
              (averageable_spec _ _ air_averageable)) as (cols' & Hmean' & _ & Hnan & _).
  rewrite Hmean in Hmean'. injection Hmean' as <-.
  eexists _, _, _, _. split; [exact Hrun|].
  split; [intros k; apply elem_of_union3|].
  split; [repeat apply union_index_NoDup; apply month_range_NoDup|].
  split.
  { apply Forall_app. split.
    - apply Forall_fmap, Forall_true. intros c. simpl. unfold filled. by rewrite length_map.
    - repeat constructor; simpl; unfold filled; by rewrite length_map. }
  intros k Hk. split; [|split].
  - intros Hrows n vals [[n0 vals0] [[= -> ->] Hin]]%list_elem_of_fmap.
    rewrite at_month_filled by done. by rewrite (Hnan _ _ _ Hin Hrows).
  - intros Hrows. rewrite at_month_filled, at_month_size by done.
    unfold rows_in_month in Hrows. by rewrite Hrows.
  - intros Hrows. rewrite at_month_filled, at_month_size by done.
    unfold rows_in_month in Hrows. by rewrite Hrows.
Qed.

(** C9 (amended).  For cleaned inputs the aggregation accepts, every
    month between the earliest and the latest date of a source is a row
    of the table, whether or not any row falls into it; when no source
    has a row in such a month, every cell of that row, counts and air
    means alike, is zero. *)
Theorem aggregate_monthly_span_months :
  exists t, aggregate_monthly numeric_only air hosp jp = Ok t /\
    forall key src lo hi k,
      (key, src) ∈ [("timestamp", air); ("admission_date", hosp); ("admission_date", jp)] ->
      Some lo ∈ month_keys key src -> Some hi ∈ month_keys key src ->
      (lo <= k <= hi)%Z ->
      k ∈ t_index t /\
      (rows_in_month "timestamp" air k = 0 ->
       rows_in_month "admission_date" hosp k = 0 ->
       rows_in_month "admission_date" jp k = 0 ->
       forall n vals, (n, vals) ∈ t_columns t -> at_month (t_index t) vals k = Some 0%Q).
Proof.
  destruct (aggregate_monthly_run numeric_only air hosp jp
              air_dated hosp_dated jp_dated air_averageable) as (cols & Hmean & Hrun).
  destruct (resample_mean_run numeric_only (month_keys "timestamp" air)
              (filter (fun c => c.1 <> "timestamp") air)
              (averageable_spec _ _ air_averageable)) as (cols' & Hmean' & _ & Hnan & _).
  rewrite Hmean in Hmean'. injection Hmean' as <-.
  eexists. split; [exact Hrun|]. cbn [t_index t_columns].
  intros key src lo hi k Hsrc Hlo Hhi Hk.
  assert (k ∈ month_range (month_keys key src)) as Hin
    by (apply month_range_spec; eauto).
  assert (k ∈ union_index
                (union_index (month_range (month_keys "timestamp" air))
                   (month_range (month_keys "admission_date" hosp)))
                (month_range (month_keys "admission_date" jp))) as Hidx.
  { apply elem_of_union3.
    repeat (apply elem_of_cons in Hsrc as [[= -> ->]|Hsrc]; [by auto|]).
    by apply elem_of_nil in Hsrc. }
  split; [done|].
  intros Ha Hh Hj n vals [Hc|Hc]%elem_of_app.
  - apply list_elem_of_fmap in Hc as [[n0 vals0] [[= -> ->] Hc]].
    rewrite at_month_filled by done. by rewrite (Hnan _ _ _ Hc Ha).
  - repeat (apply elem_of_cons in Hc as [[= -> ->]|Hc];
            [rewrite at_month_filled, at_month_size by done;
             unfold rows_in_month in *; by rewrite ?Hh, ?Hj|]).
    by apply elem_of_nil in Hc.
Qed.

End AggregatorClaims.

(** C8.  When the three cleaned inputs have no rows, [aggregate_monthly]
    raises nothing and returns a table without rows that still has its
    headers: one [air_] column for every air column other than the
    timestamp, then the two totals. *)
Theorem aggregate_monthly_empty numeric_only (air hosp jp : DataFrame) :
  get_column "timestamp" air = Some (Datetime []) ->
  get_column "admission_date" hosp = Some (Datetime []) ->
  get_column "admission_date" jp = Some (Datetime []) ->
  aggregate_monthly numeric_only air hosp jp
  = Ok (Table []
          (map (fun n => (String.append "air_" n, []))
               (columns (filter (fun c => c.1 <> "timestamp") air))
           ++ [("hospitalizations_total", []); ("hospitalizations_jp", [])])).
Proof.
  intros Ha Hh Hj.
  assert (month_keys "timestamp" air = []) as Hka by (unfold month_keys; by rewrite Ha).
  assert (month_keys "admission_date" hosp = []) as Hkh by (unfold month_keys; by rewrite Hh).
  assert (month_keys "admission_date" jp = []) as Hkj by (unfold month_keys; by rewrite Hj).
  destruct (aggregate_monthly_run numeric_only air hosp jp) as (cols & Hmean & Hrun).
  - unfold dated. by rewrite Ha.
  - unfold dated. by rewrite Hh.
  - unfold dated. by rewrite Hj.
  - unfold averageable. rewrite Hka. apply orb_true_iff. left. apply orb_true_r.
  - rewrite Hrun, Hka, Hkh, Hkj. clear Hrun.
    rewrite Hka in Hmean. unfold resample_mean in Hmean. cbn in Hmean.
    injection Hmean as <-. do 2 f_equal. unfold columns. rewrite !map_map. done.
Qed.

(** C10 (amended).  For cleaned inputs the aggregation accepts, every
    number column of the air input other than the timestamp, whatever it
    measures, is in the table under the [air_] prefix, and its cell in a
    month is the arithmetic mean of the column's readings of that month:
    their sum divided by their number, and zero after the fill when the
    month has none.  The station number the fetch loop writes into every
    reading is such a column: it comes out as [air_station], averaged like
    a pollutant. *)
Theorem aggregate_monthly_means_number_columns :
  (forall numeric_only (air hosp jp : DataFrame) dates,
     get_column "timestamp" air = Some (Datetime dates) ->
     dated "timestamp" air = true -> dated "admission_date" hosp = true ->
     dated "admission_date" jp = true -> averageable numeric_only air = true ->
     exists t, aggregate_monthly numeric_only air hosp jp = Ok t /\
       forall n v, (n, Float64 v) ∈ air -> n <> "timestamp" ->
         exists vals, (String.append "air_" n, vals) ∈ t_columns t /\
           forall i k, t_index t !! i = Some k ->
             (month_readings dates v k = [] -> vals !! i = Some (Some 0%Q)) /\
             (month_readings dates v k <> [] ->
              exists m, vals !! i = Some (Some m) /\
                (m * inject_Z (Z.of_nat (length (month_readings dates v k)))
                 == foldr Qplus 0 (month_readings dates v k))%Q)) /\
  (forall readings entry, entry ∈ fetch_and_store_air_quality readings ->
     exists station_id, station_id ∈ stations /\
       dict_get "station" entry = Some (Num (inject_Z station_id))) /\
  (forall numeric_only,
     exists t vals, aggregate_monthly numeric_only air_readings admissions admissions_jp = Ok t /\
       ("air_station", vals) ∈ t_columns t /\
       t_index t !! 0 = Some (month_ord (Timestamp 2024 1 31)) /\
       vals !! 0 = Some (Some (203 # 2)%Q)).
Proof.
  split; [|split].
  - intros numeric_only air hosp jp dates Hdates Ha Hh Hj Hav.
    destruct (aggregate_monthly_run numeric_only air hosp jp Ha Hh Hj Hav)
      as (cols & Hmean & Hrun).
    destruct (resample_mean_run numeric_only (month_keys "timestamp" air)
                (filter (fun c => c.1 <> "timestamp") air)
                (averageable_spec _ _ Hav)) as (cols' & Hmean' & _ & _ & Hcols).
    rewrite Hmean in Hmean'. injection Hmean' as <-.
    eexists. split; [exact Hrun|]. cbn [t_index t_columns].
    intros n v Hin Hne.
    destruct (Hcols n v (set_index_body_elem _ _ _ _ Hin Hne)) as (vals & Hvals & Hmeans).
    eexists. split.
    { apply elem_of_app. left. apply list_elem_of_fmap. by exists (n, vals). }
    intros i k Hi. cbn [snd].
    assert (month_keys "timestamp" air = map (fmap month_ord) dates) as Hkeys
      by (unfold month_keys; by rewrite Hdates).
    match goal with
    | |- (_ -> ?cells !! i = _) /\ _ =>
        assert (cells !! i
                = Some (Some (default 0%Q (bucket_mean (map (fmap month_ord) dates) v k))))
          as Hcell
    end.
    { unfold filled. rewrite list_lookup_fmap, Hi. cbn [fmap option_fmap option_map].
      do 2 f_equal. rewrite <- Hkeys.
      destruct (decide (k ∈ month_range (month_keys "timestamp" air))) as [Hr|Hr].
      - by rewrite Hmeans.
      - rewrite at_month_notin by done. rewrite bucket_mean_empty; [done|].
        apply bucket_size_zero. intros Hkey. by apply Hr, month_range_key. }
    rewrite Hcell. clear Hcell.
    destruct (bucket_mean_readings dates v k) as [Hzero Hmean1]. split.
    + intros Hxs. by rewrite (Hzero Hxs).
    + intros Hxs. destruct (Hmean1 Hxs) as (m & -> & Hm). by exists m.
  - intros readings entry Hin. unfold fetch_and_store_air_quality in Hin.
    apply list_elem_of_In, in_flat_map in Hin as (id & Hid & Hin).
    apply list_elem_of_In in Hid.
    apply in_map_iff in Hin as (e & <- & _). exists id. split; [done|].
    induction e as [|[k v] e IH]; simpl; [done|].
    destruct (String.eqb_spec k "station") as [->|Hne]; simpl.
    + done.
    + destruct (String.eqb_spec k "station"); [done | apply IH].
  - intros [|]; eexists _, _; (split; [vm_compute; reflexivity|]);
      (split; [right; left | split; vm_compute; reflexivity]).
Qed.

(** ** The aggregator on concrete inputs *)

(** The label of a bucket is a day of the month it stands for. *)
Lemma bucket_label_ord k : month_ord (bucket_label k) = k.
Proof.
  unfold month_ord, bucket_label. simpl.
  pose proof (Z.div_mod k 12 ltac:(lia)). lia.
Qed.

(** Scenario 3 of the spec: air data for January only, admissions for
    February only. *)
Example aggregate_monthly_scenario3 numeric_only :
  aggregate_monthly numeric_only
    [("timestamp", Datetime [Some (Timestamp 2024 1 5); Some (Timestamp 2024 1 20)]);
     ("pm25", Float64 [Some 10%Q; Some 14%Q])]
    [("admission_date", Datetime [Some (Timestamp 2024 2 3)])]
    [("admission_date", Datetime [Some (Timestamp 2024 2 3)])]
  = Ok (Table [month_ord (Timestamp 2024 1 31); month_ord (Timestamp 2024 2 29)]
          [("air_pm25", [Some 12%Q; Some 0%Q]);
           ("hospitalizations_total", [Some 0%Q; Some 1%Q]);
           ("hospitalizations_jp", [Some 0%Q; Some 1%Q])]).
Proof. by destruct numeric_only. Qed.

(** The example inputs are cleaned inputs: what [clean_data] returns
    for the frames the loaders deliver. *)
Lemma examples_cleaned :
  cleans_to "timestamp" air_readings_raw air_readings /\
  cleans_to "admission_date" admissions_raw admissions /\
  cleans_to "admission_date" admissions_jp_raw admissions_jp.
Proof. repeat split; vm_compute; reflexivity. Qed.

Lemma aggregate_monthly_join_complete_witness :
  (cleans_to "timestamp" air_readings_raw air_readings /\
   cleans_to "admission_date" admissions_raw admissions /\
   cleans_to "admission_date" admissions_jp_raw admissions_jp) /\
  (dated "timestamp" air_readings = true /\ dated "admission_date" admissions = true /\
   dated "admission_date" admissions_jp = true /\ averageable false air_readings = true) /\
  exists idx air_cols total jp_total,
    aggregate_monthly false air_readings admissions admissions_jp
    = Ok (Table idx (air_cols ++ [("hospitalizations_total", total);
                                  ("hospitalizations_jp", jp_total)])) /\
    (forall k, k ∈ idx <->
       k ∈ resampled_months "timestamp" air_readings \/
       k ∈ resampled_months "admission_date" admissions \/
       k ∈ resampled_months "admission_date" admissions_jp) /\
    NoDup idx /\
    Forall (fun c => length c.2 = length idx)
      (air_cols ++ [("hospitalizations_total", total); ("hospitalizations_jp", jp_total)]) /\
    (forall k, k ∈ idx ->
       (rows_in_month "timestamp" air_readings k = 0 ->
          forall n vals, (n, vals) ∈ air_cols -> at_month idx vals k = Some 0%Q) /\
       (rows_in_month "admission_date" admissions k = 0 -> at_month idx total k = Some 0%Q) /\
       (rows_in_month "admission_date" admissions_jp k = 0 ->
          at_month idx jp_total k = Some 0%Q)).
Proof.
  split; [exact examples_cleaned|]. split; [by repeat split|].
  exact (aggregate_monthly_join_complete false air_readings admissions admissions_jp
           eq_refl eq_refl eq_refl eq_refl).
Defined.

(** Cleaned inputs [aggregate_monthly] does not accept: [clean_data]
    keeps an admission without a date, with a missing timestamp, and a
    source whose only row has no date cannot be resampled.  The call
    raises, whatever the pandas version does with text columns, and
    there is no table. *)
Lemma aggregate_monthly_undated_counterexample :
  ~ (exists numeric_only, forall fa fh fj air hosp jp,
       cleans_to "timestamp" fa air -> cleans_to "admission_date" fh hosp ->
       cleans_to "admission_date" fj jp ->
       exists idx air_cols total jp_total,
         aggregate_monthly numeric_only air hosp jp
         = Ok (Table idx (air_cols ++ [("hospitalizations_total", total);
                                       ("hospitalizations_jp", jp_total)])) /\
         (forall k, k ∈ idx <->
            k ∈ resampled_months "timestamp" air \/
            k ∈ resampled_months "admission_date" hosp \/
            k ∈ resampled_months "admission_date" jp) /\
         (forall k, k ∈ idx ->
            (rows_in_month "timestamp" air k = 0 ->
               forall n vals, (n, vals) ∈ air_cols -> at_month idx vals k = Some 0%Q) /\
            (rows_in_month "admission_date" hosp k = 0 -> at_month idx total k = Some 0%Q) /\
            (rows_in_month "admission_date" jp k = 0 -> at_month idx jp_total k = Some 0%Q))).
Proof.
  intros [numeric_only Hclaim].
  destruct (Hclaim scenario1 scenario2 undated
              [("timestamp", Datetime [Some (Timestamp 2024 1 5); Some (Timestamp 2024 1 20)]);
               ("pm25", Float64 [Some 10%Q; Some 10%Q])]
              [("admission_date", Datetime [Some (Timestamp 2024 2 3); None]);
               ("diagnosis", Object [Some "J18"; Some "J45"])]
              [("admission_date", Datetime [None]); ("diagnosis", Object [Some "J45"])])
    as (idx & air_cols & total & jp_total & Hrun & _); try (vm_compute; reflexivity).
  destruct numeric_only; vm_compute in Hrun; discriminate Hrun.
Qed.

Lemma aggregate_monthly_empty_witness :
  (get_column "timestamp" no_air = Some (Datetime []) /\
   get_column "admission_date" no_admissions = Some (Datetime [])) /\
  aggregate_monthly false no_air no_admissions no_admissions
  = Ok (Table [] [("air_pm25", []); ("air_station", []);
                  ("hospitalizations_total", []); ("hospitalizations_jp", [])]).
Proof.
  split; [by split|].
  exact (aggregate_monthly_empty false no_air no_admissions no_admissions
           eq_refl eq_refl eq_refl).
Defined.

Lemma aggregate_monthly_span_months_witness :
  (cleans_to "timestamp" air_readings_raw air_readings /\
   cleans_to "admission_date" admissions_raw admissions /\
   cleans_to "admission_date" admissions_jp_raw admissions_jp) /\
  (dated "timestamp" air_readings = true /\ dated "admission_date" admissions = true /\
   dated "admission_date" admissions_jp = true /\ averageable false air_readings = true) /\
  exists t, aggregate_monthly false air_readings admissions admissions_jp = Ok t /\
    forall key src lo hi k,
      (key, src) ∈ [("timestamp", air_readings); ("admission_date", admissions);
                    ("admission_date", admissions_jp)] ->
      Some lo ∈ month_keys key src -> Some hi ∈ month_keys key src ->
      (lo <= k <= hi)%Z ->
      k ∈ t_index t /\
      (rows_in_month "timestamp" air_readings k = 0 ->
       rows_in_month "admission_date" admissions k = 0 ->
       rows_in_month "admission_date" admissions_jp k = 0 ->
       forall n vals, (n, vals) ∈ t_columns t -> at_month (t_index t) vals k = Some 0%Q).
Proof.
  split; [exact examples_cleaned|]. split; [by repeat split|].
  exact (aggregate_monthly_span_months false air_readings admissions admissions_jp
           eq_refl eq_refl eq_refl eq_refl).
Defined.

(** Admissions in January and March span February, yet February is a
    row of no table when the air input is a single reading without
    timestamp: the cleaned air frame cannot be resampled and the call
    raises. *)
Lemma aggregate_monthly_span_counterexample :
  ~ (exists numeric_only, forall fa fh fj air hosp jp,
       cleans_to "timestamp" fa air -> cleans_to "admission_date" fh hosp ->
       cleans_to "admission_date" fj jp ->
       forall key src lo hi k,
         (key, src) ∈ [("timestamp", air); ("admission_date", hosp); ("admission_date", jp)] ->
         Some lo ∈ month_keys key src -> Some hi ∈ month_keys key src ->
         (lo <= k <= hi)%Z ->
         exists t, aggregate_monthly numeric_only air hosp jp = Ok t /\ k ∈ t_index t).
Proof.
  intros [numeric_only Hclaim].
  destruct (Hclaim undated_air winter_admissions scenario2
              [("timestamp", Datetime [None]); ("pm25", Float64 [Some 10%Q])]
              [("admission_date", Datetime [Some (Timestamp 2024 1 10);
                                            Some (Timestamp 2024 3 5)]);
               ("diagnosis", Object [Some "J18"; Some "J45"])]
              [("admission_date", Datetime [Some (Timestamp 2024 2 3); None]);
               ("diagnosis", Object [Some "J18"; Some "J45"])]
              ltac:(vm_compute; reflexivity) ltac:(vm_compute; reflexivity)
              ltac:(vm_compute; reflexivity)
              "admission_date"
              [("admission_date", Datetime [Some (Timestamp 2024 1 10);
                                            Some (Timestamp 2024 3 5)]);
               ("diagnosis", Object [Some "J18"; Some "J45"])]
              (month_ord (Timestamp 2024 1 10)) (month_ord (Timestamp 2024 3 5))
              (month_ord (Timestamp 2024 2 1)))
    as (t & Hrun & _).
  - right. left.
  - left.
  - right. left.
  - vm_compute. split; discriminate.
  - destruct numeric_only; vm_compute in Hrun; discriminate Hrun.
Qed.

Lemma aggregate_monthly_means_number_columns_witness :
  (cleans_to "timestamp" air_readings_raw air_readings /\
   cleans_to "admission_date" admissions_raw admissions /\
   cleans_to "admission_date" admissions_jp_raw admissions_jp) /\
  (dated "timestamp" air_readings = true /\ dated "admission_date" admissions = true /\
   dated "admission_date" admissions_jp = true /\ averageable false air_readings = true) /\
  exists t, aggregate_monthly false air_readings admissions admissions_jp = Ok t /\
    forall n v, (n, Float64 v) ∈ air_readings -> n <> "timestamp" ->
      exists vals, (String.append "air_" n, vals) ∈ t_columns t /\
        forall i k, t_index t !! i = Some k ->
          let xs := month_readings [Some (Timestamp 2024 1 5); Some (Timestamp 2024 1 20);
                                    Some (Timestamp 2024 3 1)] v k in
          (xs = [] -> vals !! i = Some (Some 0%Q)) /\
          (xs <> [] ->
           exists m, vals !! i = Some (Some m) /\
             (m * inject_Z (Z.of_nat (length xs)) == foldr Qplus 0 xs)%Q).
Proof.
  split; [exact examples_cleaned|]. split; [by repeat split|].
  exact (proj1 aggregate_monthly_means_number_columns false air_readings admissions
           admissions_jp _ eq_refl eq_refl eq_refl eq_refl eq_refl).
Defined.

(** A cleaned air input whose number column is averaged nowhere: from
    pandas 2.0 on the site name beside pm25 makes the mean raise
    [TypeError]; before, text is left out, but a reading that came
    without timestamp still stops the resampling. *)
Lemma aggregate_monthly_text_column_counterexample :
  ~ (exists numeric_only, forall fa fh fj air hosp jp,
       cleans_to "timestamp" fa air -> cleans_to "admission_date" fh hosp ->
       cleans_to "admission_date" fj jp ->
       forall n v, (n, Float64 v) ∈ air -> n <> "timestamp" ->
         exists t vals, aggregate_monthly numeric_only air hosp jp = Ok t /\
           (String.append "air_" n, vals) ∈ t_columns t).
Proof.
  intros [[|] Hclaim].
  - destruct (Hclaim undated_air scenario2 scenario2
                [("timestamp", Datetime [None]); ("pm25", Float64 [Some 10%Q])]
                [("admission_date", Datetime [Some (Timestamp 2024 2 3); None]);
                 ("diagnosis", Object [Some "J18"; Some "J45"])]
                [("admission_date", Datetime [Some (Timestamp 2024 2 3); None]);
                 ("diagnosis", Object [Some "J18"; Some "J45"])]
                ltac:(vm_compute; reflexivity) ltac:(vm_compute; reflexivity)
                ltac:(vm_compute; reflexivity) "pm25" [Some 10%Q])
      as (t & vals & Hrun & _); [right; left | discriminate |].
    vm_compute in Hrun. discriminate Hrun.
  - destruct (Hclaim mixed scenario2 scenario2
                [("timestamp", Datetime [Some (Timestamp 2024 1 5);
                                         Some (Timestamp 2024 2 1)]);
                 ("pm25", Float64 [Some 10%Q; Some 14%Q]);
                 ("site", Object [Some "centro"; Some "bessa"])]
                [("admission_date", Datetime [Some (Timestamp 2024 2 3); None]);
                 ("diagnosis", Object [Some "J18"; Some "J45"])]
                [("admission_date", Datetime [Some (Timestamp 2024 2 3); None]);
                 ("diagnosis", Object [Some "J18"; Some "J45"])]
                ltac:(vm_compute; reflexivity) ltac:(vm_compute; reflexivity)
                ltac:(vm_compute; reflexivity) "pm25" [Some 10%Q; Some 14%Q])
      as (t & vals & Hrun & _); [right; left | discriminate |].
    vm_compute in Hrun. discriminate Hrun.
Qed.

(** * Further properties of the cleaner and the aggregator *)

(** ** Rows that [dropna] keeps *)

Lemma complete_rows_lookup n cols i :
  complete_rows n cols !! i = Some true <->
  i < n /\ forall s, s ∈ cols -> notna s !! i = Some true.
Proof.
  unfold complete_rows. induction cols as [|s0 cols IH]; simpl.
  - rewrite lookup_replicate. split.
    + intros [_ Hi]. split; [done|]. by intros s ?%elem_of_nil.
    + intros [Hi _]. done.
  - rewrite lookup_zip_with_Some. split.
    + intros (x & y & Hxy & Hx & Hy).
      symmetry in Hxy. apply andb_true_iff in Hxy as [-> ->].
      apply IH in Hy as [Hi Hall]. split; [done|].
      intros s [->|Hs]%elem_of_cons; auto.
    + intros [Hi Hall]. exists true, true. split; [done|]. split.
      * apply Hall. left.
      * apply IH. split; [done|]. intros s Hs. apply Hall. by right.
Qed.

Lemma select_length_count {A} (m : list bool) (l : list A) :
  length l = length m -> length (select m l) = length (filter (eq true) m).
Proof.
  revert l. induction m as [|b m IH]; intros [|x l] Hlen; simpl in *; try done.
  rewrite filter_cons. destruct b; simpl.
  - destruct (decide (true = true)); [|done]. simpl. f_equal. apply IH. lia.
  - destruct (decide (true = false)); [done|]. apply IH. lia.
Qed.

Lemma nrows_take_frame_count m f :
  f <> [] -> length m = nrows f -> nrows (take_frame m f) = length (filter (eq true) m).
Proof.
  destruct f as [|[n s] f]; [done|]. intros _ Hlen. simpl in *.
  destruct s; simpl in *; by apply select_length_count.
Qed.

Lemma kept_rows_length d f : wf_frame f -> length (kept_rows d f) = nrows f.
Proof.
  intros Hwf. unfold kept_rows. apply complete_rows_length. apply Forall_forall.
  intros s [[n s'] [-> Hin]]%list_elem_of_fmap. simpl.
  apply text_columns_sub in Hin. by eapply wf_series_len.
Qed.

Section CleanerExtras.

Context `{DateParser}.

(** Without the date column [clean_data] raises [KeyError] on its first
    line, before anything is assigned: no object changes. *)
Theorem clean_data_missing_column (h : heap) r f date_col :
  h !! r = Some f -> date_col ∉ columns f ->
  clean_data r date_col h = (Raise (KeyError date_col), h).
Proof.
  intros Hr Hcol. apply (clean_data_key_error _ _ f); [done|].
  by apply get_column_None.
Qed.

(** Row removal is row-wise: a row of the input is in the returned frame
    exactly when every text column (not a number column, not the date
    column) has a value in it; the kept rows keep their order, and a row
    with several gaps is taken out once. *)
Theorem clean_data_drops_incomplete_rows (h : heap) r f date_col r' h' :
  h !! r = Some f -> wf_frame f -> clean_data r date_col h = (Ok r', h') ->
  exists g out keep,
    h' !! r = Some g /\ h' !! r' = Some out /\ out = take_frame keep g /\
    length keep = nrows f /\
    (forall i, keep !! i = Some true <->
       i < nrows f /\
       forall n s, (n, s) ∈ f -> is_number s = false -> n <> date_col ->
         notna s !! i = Some true) /\
    nrows out = length (filter (eq true) keep).
Proof.
  intros Hr Hwf Hrun.
  destruct (clean_data_ok_inv _ _ _ _ _ _ Hr (proj1 Hwf) Hrun)
    as (s & d & Hs & Hd & -> & ->).
  destruct (to_datetime_ok _ _ Hd) as (w & -> & Hlen & _).
  assert (r < length h) as Hlt by (by eapply lookup_lt_Some).
  set (g := cleaned_in_place (Datetime w) date_col f).
  assert (wf_frame g) as Hwfg by (by eapply wf_cleaned).
  assert (nrows g = nrows f) as Hrows by (by eapply nrows_cleaned).
  exists g, (take_frame (kept_rows date_col g) g), (kept_rows date_col g).
  split.
  { rewrite lookup_app_l by (by rewrite length_insert). by apply list_lookup_insert_eq. }
  split.
  { rewrite lookup_app_r by (by rewrite length_insert).
    by rewrite length_insert, Nat.sub_diag. }
  split; [done|]. split; [by rewrite kept_rows_length|]. split.
  - intros i. unfold kept_rows. rewrite complete_rows_lookup, Hrows.
    unfold g. rewrite text_columns_cleaned. split; intros [Hi Hall]; split; try done.
    + intros n s0 Hin Hnum Hne. apply Hall. apply list_elem_of_fmap.
      exists (n, s0). split; [done|]. by apply text_columns_spec.
    + intros s0 [[n s1] [-> Hin]]%list_elem_of_fmap.
      apply text_columns_spec in Hin as (Hin & Hnum & Hne). eauto.
  - apply nrows_take_frame_count; [|by rewrite kept_rows_length].
    intros Hnil. unfold g, cleaned_in_place in Hnil.
    apply (f_equal columns) in Hnil. rewrite columns_imputed in Hnil.
    rewrite columns_set_column in Hnil.
    + apply get_column_Some in Hs. destruct f; [by apply elem_of_nil in Hs | done].
    + apply list_elem_of_fmap. exists (date_col, s). split; [done|].
      by apply get_column_Some.
Qed.

(** [clean_data] never touches a text value: a text column other than
    the date column is the same in the caller's frame after the call, and
    the returned frame holds its kept rows. *)
Theorem clean_data_keeps_text (h : heap) r f date_col r' h' n s :
  h !! r = Some f -> NoDup (columns f) -> clean_data r date_col h = (Ok r', h') ->
  (n, s) ∈ f -> is_number s = false -> n <> date_col ->
  exists g out,
    h' !! r = Some g /\ get_column n g = Some s /\
    h' !! r' = Some out /\ get_column n out = Some (take_rows (kept_rows date_col g) s).
Proof.
  intros Hr Hnd Hrun Hin Hnum Hne.
  destruct (clean_data_ok_inv _ _ _ _ _ _ Hr Hnd Hrun) as (s0 & d & Hs & Hd & -> & ->).
  assert (r < length h) as Hlt by (by eapply lookup_lt_Some).
  set (g := cleaned_in_place d date_col f).
  assert (get_column n g = Some s) as Hg.
  { unfold g. rewrite get_column_cleaned, (get_column_NoDup _ _ _ Hnd Hin) by done.
    simpl. by rewrite impute_text. }
  exists g, (take_frame (kept_rows date_col g) g).
  split.
  { rewrite lookup_app_l by (by rewrite length_insert). by apply list_lookup_insert_eq. }
  split; [done|]. split.
  { rewrite lookup_app_r by (by rewrite length_insert).
    by rewrite length_insert, Nat.sub_diag. }
  by rewrite get_column_take_frame, Hg.
Qed.

End CleanerExtras.

Lemma clean_data_missing_column_witness :
  [scenario1] !! 0 = Some scenario1 /\ ("admission_date" ∉ columns scenario1) /\
  clean 0 "admission_date" [scenario1] = (Raise (KeyError "admission_date"), [scenario1]).
Proof.
  assert ("admission_date" ∉ columns scenario1) as Hcol.
  { apply (bool_decide_unpack _). vm_compute. exact I. }
  split; [done|]. split; [exact Hcol|].
  exact (@clean_data_missing_column iso_dates [scenario1] 0 scenario1 "admission_date"
           eq_refl Hcol).
Defined.

Lemma clean_data_drops_incomplete_rows_witness :
  wf_frame mixed /\
  exists g out keep,
    (clean 0 "timestamp" [mixed]).2 !! 0 = Some g /\
    (clean 0 "timestamp" [mixed]).2 !! 1 = Some out /\ out = take_frame keep g /\
    length keep = 3 /\
    (forall i, keep !! i = Some true <->
       i < 3 /\
       forall n s, (n, s) ∈ mixed -> is_number s = false -> n <> "timestamp" ->
         notna s !! i = Some true) /\
    nrows out = length (filter (eq true) keep).
Proof.
  assert (wf_frame mixed) as Hwf by wf_concrete.
  split; [exact Hwf|].
  exact (@clean_data_drops_incomplete_rows iso_dates [mixed] 0 mixed "timestamp" 1
           (clean 0 "timestamp" [mixed]).2 eq_refl Hwf eq_refl).
Defined.

Lemma clean_data_keeps_text_witness :
  NoDup (columns mixed) /\
  exists g out,
    (clean 0 "timestamp" [mixed]).2 !! 0 = Some g /\
    get_column "site" g = Some (Object [Some "centro"; None; Some "bessa"]) /\
    (clean 0 "timestamp" [mixed]).2 !! 1 = Some out /\
    get_column "site" out
    = Some (take_rows (kept_rows "timestamp" g) (Object [Some "centro"; None; Some "bessa"])).
Proof.
  assert (NoDup (columns mixed)) as Hnd by nodup_concrete.
  split; [exact Hnd|].
  apply (@clean_data_keeps_text iso_dates [mixed] 0 mixed "timestamp" 1
           (clean 0 "timestamp" [mixed]).2 "site" _ eq_refl Hnd eq_refl).
  - right. right. left.
  - done.
  - discriminate.
Defined.

(** ** Counting admissions *)

Lemma bucket_size_cons o ks k :
  bucket_size (o :: ks) k = (if bool_decide (o = Some k) then 1 else 0) + bucket_size ks k.
Proof.
  unfold bucket_size. rewrite filter_cons.
  destruct (decide (o = Some k)) as [Heq|Hne].
  - by rewrite bool_decide_eq_true_2.
  - by rewrite bool_decide_eq_false_2.
Qed.

Lemma sum_list_pointwise {A} (f g : A -> nat) l :
  sum_list (map (fun x => f x + g x) l) = sum_list (map f l) + sum_list (map g l).
Proof. induction l as [|x l IH]; simpl; lia. Qed.

Lemma sum_list_zero {A} (l : list A) : sum_list (map (fun _ => 0) l) = 0.
Proof. induction l as [|x l IH]; simpl; [done | by rewrite IH]. Qed.

Lemma sum_list_hits (idx : list Z) k0 :
  NoDup idx -> k0 ∈ idx ->
  sum_list (map (fun k => if bool_decide (Some k0 = Some k) then 1 else 0) idx) = 1.
Proof.
  induction 1 as [|k idx Hk Hnd IH]; [by intros ?%elem_of_nil|].
  intros Hin. simpl. destruct (decide (k0 = k)) as [->|Hne].
  - rewrite bool_decide_eq_true_2 by done.
    assert (map (fun k' => if bool_decide (Some k = Some k') then 1 else 0) idx
            = map (fun _ => 0) idx) as ->.
    { apply map_ext_in. intros k' Hk'%list_elem_of_In.
      rewrite bool_decide_eq_false_2; [done|]. intros [= ->]. done. }
    by rewrite sum_list_zero.
  - rewrite bool_decide_eq_false_2 by congruence.
    apply elem_of_cons in Hin as [?|?]; [done | auto].
Qed.

(** Every dated row falls into exactly one bucket of an index that
    covers its month. *)
Lemma sum_bucket_size ks (idx : list Z) :
  NoDup idx -> (forall k, Some k ∈ ks -> k ∈ idx) ->
  sum_list (map (bucket_size ks) idx) = length (omap id ks).
Proof.
  intros Hnd. induction ks as [|o ks IH]; intros Hcover.
  - simpl. apply sum_list_zero.
  - rewrite (map_ext _ _ (bucket_size_cons o ks)), sum_list_pointwise.
    rewrite IH by (intros k Hk; apply Hcover; by right).
    destruct o as [k0|]; simpl.
    + rewrite sum_list_hits; [done | done | apply Hcover; left].
    + by rewrite sum_list_zero.
Qed.

Lemma Qsum_counts (g : Z -> nat) idx :
  (Qsum (map (fun k => inject_Z (Z.of_nat (g k))) idx)
   == inject_Z (Z.of_nat (sum_list (map g idx))))%Q.
Proof.
  induction idx as [|k idx IH]; simpl; [done|].
  rewrite IH, Nat2Z.inj_add, inject_Z_plus. reflexivity.
Qed.

Lemma filled_size_cells ks idx :
  filled (month_range ks) (size_cells ks) idx
  = map (fun k => Some (inject_Z (Z.of_nat (bucket_size ks k)))) idx.
Proof. unfold filled. apply map_ext. intros k. by rewrite at_month_size. Qed.

Lemma omap_id_Some {A B} (g : A -> B) l : omap id (map (fun x => Some (g x)) l) = map g l.
Proof. induction l as [|x l IH]; [done|]. simpl. f_equal. exact IH. Qed.

Lemma StronglySorted_lt (l : list Z) :
  StronglySorted Z.le l -> NoDup l -> StronglySorted Z.lt l.
Proof.
  induction 1 as [|x l Hl IH Hx]; intros Hnd; constructor.
  - apply IH. by apply NoDup_cons in Hnd as [_ ?].
  - apply NoDup_cons in Hnd as [Hx' _]. apply Forall_forall. intros y Hy.
    pose proof (proj1 (Forall_forall _ _) Hx y Hy). simpl in *.
    assert (x <> y) by (intros ->; done). lia.
Qed.

Lemma union_index_sorted (l r : list Z) :
  NoDup l -> NoDup r -> StronglySorted Z.lt (union_index l r).
Proof.
  intros Hl Hr. apply StronglySorted_lt; [|by apply union_index_NoDup].
  unfold union_index. apply StronglySorted_merge_sort; apply _.
Qed.

(** ** Errors and order of the aggregation *)

(** [aggregate_monthly] sets the three indexes before it resamples: a
    missing date column is a [KeyError] naming it, [timestamp] first. *)
Theorem aggregate_monthly_missing_date_column numeric_only (air hosp jp : DataFrame) :
  (get_column "timestamp" air = None ->
   aggregate_monthly numeric_only air hosp jp = Raise (KeyError "timestamp")) /\
  (is_Some (get_column "timestamp" air) ->
   get_column "admission_date" hosp = None \/ get_column "admission_date" jp = None ->
   aggregate_monthly numeric_only air hosp jp = Raise (KeyError "admission_date")).
Proof.
  unfold aggregate_monthly, set_index. split.
  - by intros ->.
  - intros [s ->] [Hh|Hj]; cbn [rbind].
    + by rewrite Hh.
    + destruct (get_column "admission_date" hosp); cbn [rbind]; by rewrite ?Hj.
Qed.

(** An air frame whose timestamp column was not converted (text or
    numbers, as the loader gives it) is refused: resampling needs a
    datetime index and raises [TypeError]. *)
Theorem aggregate_monthly_rejects_unconverted numeric_only (air hosp jp : DataFrame) s :
  get_column "timestamp" air = Some s -> (forall v, s <> Datetime v) ->
  is_Some (get_column "admission_date" hosp) ->
  is_Some (get_column "admission_date" jp) ->
  aggregate_monthly numeric_only air hosp jp
  = Raise (TypeError "Only valid with DatetimeIndex").
Proof.
  intros Ha Hs [sh Hh] [sj Hj].
  unfold aggregate_monthly, set_index. rewrite Ha, Hh, Hj. cbn [rbind].
  unfold resample_M. cbn [ix]. destruct s as [v|v|v]; try done.
  by destruct (Hs v).
Qed.

Section AggregatorExtras.

Variable numeric_only : bool.
Variables air hosp jp : DataFrame.

Hypothesis air_dated : dated "timestamp" air = true.
Hypothesis hosp_dated : dated "admission_date" hosp = true.
Hypothesis jp_dated : dated "admission_date" jp = true.
Hypothesis air_averageable : averageable numeric_only air = true.

(** The months of the table are in strictly ascending order. *)
Theorem aggregate_monthly_ascending :
  exists t, aggregate_monthly numeric_only air hosp jp = Ok t /\
    StronglySorted Z.lt (t_index t).
Proof.
  destruct (aggregate_monthly_run numeric_only air hosp jp
              air_dated hosp_dated jp_dated air_averageable) as (cols & _ & Hrun).
  eexists. split; [exact Hrun|]. cbn [t_index].
  apply union_index_sorted; [|apply month_range_NoDup].
  apply union_index_NoDup; apply month_range_NoDup.
Qed.


(** No admission is lost or counted twice: the counts of a count column
    add up to the number of rows of its source that have a date; rows
    without a date are in no month. *)
Theorem aggregate_monthly_counts_total :
  exists idx air_cols total jp_total,
    aggregate_monthly numeric_only air hosp jp
    = Ok (Table idx (air_cols ++ [("hospitalizations_total", total);
                                  ("hospitalizations_jp", jp_total)])) /\
    (Qsum (omap id total)
     == inject_Z (Z.of_nat (length (omap id (month_keys "admission_date" hosp)))))%Q /\
    (Qsum (omap id jp_total)
     == inject_Z (Z.of_nat (length (omap id (month_keys "admission_date" jp)))))%Q.
Proof.
  destruct (aggregate_monthly_run numeric_only air hosp jp
              air_dated hosp_dated jp_dated air_averageable) as (cols & _ & Hrun).
  eexists _, _, _, _. split; [exact Hrun|].
  assert (NoDup (union_index
                   (union_index (month_range (month_keys "timestamp" air))
                      (month_range (month_keys "admission_date" hosp)))
                   (month_range (month_keys "admission_date" jp)))) as Hnd.
  { repeat apply union_index_NoDup; apply month_range_NoDup. }
  split.
  - rewrite filled_size_cells, (omap_id_Some (fun k => inject_Z _)), Qsum_counts.
    rewrite sum_bucket_size; [reflexivity | done |].
    intros k Hk. apply elem_of_union3. right. left. by apply month_range_key.
  - rewrite filled_size_cells, (omap_id_Some (fun k => inject_Z _)), Qsum_counts.
    rewrite sum_bucket_size; [reflexivity | done |].
    intros k Hk. apply elem_of_union3. right. right. by apply month_range_key.
Qed.

End AggregatorExtras.

Lemma aggregate_monthly_missing_date_column_witness :
  (get_column "timestamp" admissions = None /\
   aggregate_monthly true admissions admissions admissions_jp
   = Raise (KeyError "timestamp")) /\
  (is_Some (get_column "timestamp" air_readings) /\
   get_column "admission_date" air_readings = None /\
   aggregate_monthly true air_readings air_readings admissions_jp
   = Raise (KeyError "admission_date")).
Proof.
  split.
  - split; [done|].
    exact (proj1 (aggregate_monthly_missing_date_column true admissions admissions
                    admissions_jp) eq_refl).
  - split; [by eexists|]. split; [done|].
    exact (proj2 (aggregate_monthly_missing_date_column true air_readings air_readings
                    admissions_jp) (ex_intro _ _ eq_refl) (or_introl eq_refl)).
Defined.

Lemma aggregate_monthly_rejects_unconverted_witness :
  get_column "timestamp" scenario1
  = Some (Object [Some "2024-01-05"; Some "2024-01-20"]) /\
  aggregate_monthly true scenario1 admissions admissions_jp
  = Raise (TypeError "Only valid with DatetimeIndex").
Proof.
  split; [done|].
  apply (aggregate_monthly_rejects_unconverted true scenario1 admissions admissions_jp
           (Object [Some "2024-01-05"; Some "2024-01-20"]) eq_refl).
  - discriminate.
  - by eexists.
  - by eexists.
Defined.

Lemma aggregate_monthly_ascending_witness :
  (dated "timestamp" air_readings = true /\ dated "admission_date" admissions = true /\
   dated "admission_date" admissions_jp = true /\ averageable false air_readings = true) /\
  exists t, aggregate_monthly false air_readings admissions admissions_jp = Ok t /\
    StronglySorted Z.lt (t_index t).
Proof.
  split; [by repeat split|].
  exact (aggregate_monthly_ascending false air_readings admissions admissions_jp
           eq_refl eq_refl eq_refl eq_refl).
Defined.


Lemma aggregate_monthly_counts_total_witness :
  (dated "timestamp" air_readings = true /\ dated "admission_date" admissions = true /\
   dated "admission_date" admissions_jp = true /\ averageable false air_readings = true) /\
  exists idx air_cols total jp_total,
    aggregate_monthly false air_readings admissions admissions_jp
    = Ok (Table idx (air_cols ++ [("hospitalizations_total", total);
                                  ("hospitalizations_jp", jp_total)])) /\
    (Qsum (omap id total) == 3)%Q /\ (Qsum (omap id jp_total) == 1)%Q.
Proof.
  split; [by repeat split|].
  exact (aggregate_monthly_counts_total false air_readings admissions admissions_jp
           eq_refl eq_refl eq_refl eq_refl).
Defined.

(** * Properties of the scripts *)

(** ** Paths *)

Lemma list_ascii_app s1 s2 :
  String.list_ascii_of_string (String.append s1 s2)
  = String.list_ascii_of_string s1 ++ String.list_ascii_of_string s2.
Proof. induction s1 as [|c s1 IH]; simpl; [done | by rewrite IH]. Qed.

Lemma append_inv_head s x y : String.append s x = String.append s y -> x = y.
Proof. induction s as [|c s IH]; simpl; [done|]. intros [= ?]. auto. Qed.

Lemma append_inv_tail x y s : String.append x s = String.append y s -> x = y.
Proof.
  intros Heq. apply (f_equal String.list_ascii_of_string) in Heq.
  rewrite !list_ascii_app in Heq. apply app_inv_tail in Heq.
  rewrite <- (String.string_of_list_ascii_of_string x),
          <- (String.string_of_list_ascii_of_string y). by rewrite Heq.
Qed.

Lemma drop_while_app {A} (p : A -> bool) l1 x l2 :
  forallb p l1 = true -> p x = false -> drop_while p (l1 ++ x :: l2) = x :: l2.
Proof.
  intros Hl1 Hx. induction l1 as [|y l1 IH]; simpl in *.
  - by rewrite Hx.
  - apply andb_true_iff in Hl1 as [-> Hl1]. auto.
Qed.

Lemma forallb_rev {A} (p : A -> bool) l : forallb p (rev l) = forallb p l.
Proof.
  induction l as [|x l IH]; simpl; [done|].
  rewrite forallb_app, IH. simpl. rewrite andb_true_r. apply andb_comm.
Qed.

Lemma plain_not_empty p : plain p -> (String.eqb p "" = false).
Proof.
  intros (l & c & Hp & _). destruct p; [|done].
  simpl in Hp. by destruct l.
Qed.

Lemma plain_ends p : plain p -> ends_with_sep p = false.
Proof.
  intros (l & c & Hp & Hc). unfold ends_with_sep. rewrite Hp, rev_app_distr. done.
Qed.

Lemma plain_not_all_sep p : plain p -> forallb is_sep (String.list_ascii_of_string p) = false.
Proof.
  intros (l & c & -> & Hc). rewrite forallb_app. simpl. rewrite Hc.
  by rewrite andb_false_r.
Qed.

Lemma plain_append x b : plain b -> plain (String.append x b).
Proof.
  intros (l & c & Hb & Hc). exists (String.list_ascii_of_string x ++ l), c.
  split; [|done]. by rewrite list_ascii_app, Hb, app_assoc.
Qed.

Lemma plain_join x b : plain b -> plain (path_join x b).
Proof.
  intros Hb. unfold path_join.
  destruct (starts_with_sep b); [done|].
  destruct (_ || _); [by apply plain_append|].
  by apply plain_append, plain_append.
Qed.

Lemma no_sep_starts name : no_sep name = true -> starts_with_sep name = false.
Proof.
  unfold no_sep. destruct name as [|c name]; simpl; [done|].
  intros [Hc _]%andb_true_iff. by apply negb_true_iff.
Qed.

(** Joining a plain directory and a name puts one separator between
    them. *)
Lemma path_join_plain dir name :
  plain dir -> starts_with_sep name = false ->
  path_join dir name = String.append dir (String.append "/" name).
Proof.
  intros Hdir Hname. unfold path_join.
  by rewrite Hname, (plain_not_empty _ Hdir), (plain_ends _ Hdir).
Qed.

Lemma dirname_join dir name :
  plain dir -> no_sep name = true -> dirname (path_join dir name) = dir.
Proof.
  intros Hdir Hname.
  rewrite path_join_plain by (done || by apply no_sep_starts).
  destruct Hdir as (l & c & Hdir & Hc).
  unfold dirname. rewrite !list_ascii_app, Hdir. simpl.
  rewrite rev_app_distr. simpl. rewrite rev_app_distr. simpl.
  rewrite <- app_assoc. simpl.
  rewrite (drop_while_app _ (rev (String.list_ascii_of_string name)) "/"%char).
  - cbn [forallb drop_while]. change (is_sep "/"%char) with true.
    cbn [andb]. rewrite Hc. cbn [andb].
    change (c :: rev l) with (rev [c] ++ rev l).
    rewrite <- rev_app_distr, rev_involutive, <- Hdir.
    apply String.string_of_list_ascii_of_string.
  - by rewrite forallb_rev.
  - done.
Qed.

Lemma dirname_no_sep name : no_sep name = true -> dirname name = "".
Proof.
  intros Hname. unfold dirname.
  replace (drop_while _ _) with (@nil ascii); [done|].
  symmetry. unfold no_sep in Hname. rewrite <- forallb_rev in Hname.
  induction (rev (String.list_ascii_of_string name)) as [|c l IH]; simpl in *; [done|].
  apply andb_true_iff in Hname as [-> Hname]. auto.
Qed.

Section Paths.

Context `{Environment}.

Lemma plain_raw : plain "raw".
Proof. by exists ["r"%char; "a"%char], "w"%char. Qed.

Lemma RAW_DIR_plain : plain Etl.RAW_DIR.
Proof. apply plain_join, plain_raw. Qed.

Lemma RAW_DIR_same : LoadData.RAW_DIR = Etl.RAW_DIR.
Proof. done. Qed.

Lemma raw_file_path name :
  starts_with_sep name = false ->
  path_join Etl.RAW_DIR name = String.append Etl.RAW_DIR (String.append "/" name).
Proof. apply path_join_plain, RAW_DIR_plain. Qed.

Lemma stat_plain d p : plain p -> stat d p = d !! p.
Proof.
  intros Hp. unfold stat. by rewrite (plain_not_empty _ Hp), (plain_not_all_sep _ Hp).
Qed.

Lemma plain_csv x : plain (String.append x ".csv").
Proof. apply plain_append. by exists [("."%char); "c"%char; "s"%char], "v"%char. Qed.

Lemma air_quality_csv_plain ym : plain (air_quality_csv ym).
Proof. apply plain_join. apply plain_append, plain_csv. Qed.

Lemma hospitalizations_csv_plain ym : plain (hospitalizations_csv ym).
Proof. apply plain_join. apply plain_append, plain_csv. Qed.

Lemma internacoes_jp_csv_plain : plain internacoes_jp_csv.
Proof. apply plain_join. apply (plain_csv "internacoes_jp"). Qed.

(** The months and the three kinds of file never share a path. *)
Lemma air_quality_csv_inj a b : air_quality_csv a = air_quality_csv b -> a = b.
Proof.
  unfold air_quality_csv. rewrite !raw_file_path by done.
  intros Heq. do 3 apply append_inv_head in Heq. by apply append_inv_tail in Heq.
Qed.

Lemma hospitalizations_csv_inj a b :
  hospitalizations_csv a = hospitalizations_csv b -> a = b.
Proof.
  unfold hospitalizations_csv. rewrite !raw_file_path by done.
  intros Heq. do 3 apply append_inv_head in Heq. by apply append_inv_tail in Heq.
Qed.

Lemma air_not_hospitalizations a b : air_quality_csv a <> hospitalizations_csv b.
Proof.
  unfold air_quality_csv, hospitalizations_csv. rewrite !raw_file_path by done.
  intros Heq. do 2 apply append_inv_head in Heq. discriminate Heq.
Qed.

Lemma air_not_jp a : air_quality_csv a <> internacoes_jp_csv.
Proof.
  unfold air_quality_csv, internacoes_jp_csv. rewrite !raw_file_path by done.
  intros Heq. do 2 apply append_inv_head in Heq. discriminate Heq.
Qed.

Lemma hospitalizations_not_jp a : hospitalizations_csv a <> internacoes_jp_csv.
Proof.
  unfold hospitalizations_csv, internacoes_jp_csv. rewrite !raw_file_path by done.
  intros Heq. do 2 apply append_inv_head in Heq. discriminate Heq.
Qed.

End Paths.

(** ** Running in the world *)

Lemma io_bind_returned {A B} (m : io A) (k : A -> io B) w a w' :
  m w = (Returned a, w') -> io_bind m k w = k a w'.
Proof. unfold io_bind. by intros ->. Qed.

Lemma io_bind_raised {A B} (m : io A) (k : A -> io B) w e w' :
  m w = (Raised e, w') -> io_bind m k w = (Raised e, w').
Proof. unfold io_bind. by intros ->. Qed.

Lemma io_bind_inv {A B} (m : io A) (k : A -> io B) w r w' :
  io_bind m k w = (r, w') ->
  (exists e, m w = (Raised e, w') /\ r = Raised e) \/
  (exists a w1, m w = (Returned a, w1) /\ k a w1 = (r, w')).
Proof.
  unfold io_bind. destruct (m w) as [[a|e] w1].
  - intros Hk. right. eauto.
  - intros [= <- <-]. left. eauto.
Qed.

(** ** The file system *)

Lemma same_files_refl d : same_files d d.
Proof. by intros p c. Qed.

Lemma same_files_trans d1 d2 d3 :
  same_files d1 d2 -> same_files d2 d3 -> same_files d1 d3.
Proof. intros H12 H23 p c. specialize (H12 p c). specialize (H23 p c). tauto. Qed.

Lemma same_files_new_dir d name :
  d !! name = None -> same_files d (<[name := Dir]> d).
Proof.
  intros Hname p c. destruct (decide (name = p)) as [->|Hne].
  - rewrite lookup_insert_eq, Hname. split; intros [=].
  - by rewrite lookup_insert_ne.
Qed.

Lemma stat_None d name :
  stat d name = None -> String.eqb name "" = false -> d !! name = None.
Proof.
  unfold stat. intros Hstat Hname. rewrite Hname in Hstat.
  by destruct (forallb is_sep (String.list_ascii_of_string name)).
Qed.

Lemma stat_insert_dir d name :
  String.eqb name "" = false -> is_dir (stat (<[name := Dir]> d) name) = true.
Proof.
  intros Hname. unfold stat. rewrite Hname.
  destruct (forallb is_sep _); [done|]. by rewrite lookup_insert_eq.
Qed.

Lemma mkdir_inv name d r d' :
  mkdir name d = (r, d') ->
  (r = Returned tt /\ d' = <[name := Dir]> d /\ d !! name = None /\
   String.eqb name "" = false) \/
  (exists e, r = Raised e /\ d' = d).
Proof.
  unfold mkdir. destruct (String.eqb name "") eqn:Hname.
  { intros [= <- <-]. right. eauto. }
  destruct (stat d name) as [n|] eqn:Hstat.
  { intros [= <- <-]. right. eauto. }
  destruct (if String.eqb (dirname name) "" then Some Dir else stat d (dirname name))
    as [[c|]|]; intros [= <- <-]; try (right; by eauto).
  left. repeat split; try done. by apply stat_None.
Qed.

Lemma makedirs_last name d1 r d' :
  match mkdir name d1 with
  | (Raised e, _) => if is_dir (stat d1 name) then (Returned tt, d1) else (Raised e, d1)
  | done => done
  end = (r, d') ->
  same_files d1 d' /\ (r = Returned tt -> is_dir (stat d' name) = true).
Proof.
  destruct (mkdir name d1) as [[[]|e] d2] eqn:Hmk.
  - intros [= Hr Hd]. subst r d2.
    apply mkdir_inv in Hmk as [(_ & Hd & Hnone & Hname)|(e & [=] & _)]. subst d'.
    split; [by apply same_files_new_dir | intros _; by apply stat_insert_dir].
  - destruct (is_dir (stat d1 name)) eqn:Hdir; intros [= Hr Hd]; subst r d';
      (split; [apply same_files_refl | done]).
Qed.

(** [os.makedirs] never touches a file, and where it returns the
    directory is there. *)
Lemma makedirs_from_spec fuel : forall name d r d',
  makedirs_from fuel name d = (r, d') ->
  same_files d d' /\ (r = Returned tt -> is_dir (stat d' name) = true).
Proof.
  induction fuel as [|fuel IH]; intros name d r d'; simpl.
  - apply makedirs_last.
  - destruct (negb (String.eqb (dirname name) "")
              && negb (path_exists (stat d (dirname name)))).
    + destruct (makedirs_from fuel (dirname name) d) as [r1 d1] eqn:Hrec.
      apply IH in Hrec as [Hsame _].
      assert (forall e, (Raised e, d1) = (r, d') ->
                same_files d d' /\ (r = Returned tt -> is_dir (stat d' name) = true))
        as Hfail by (intros e [= Hr Hd]; subst r d'; by split).
      assert (match mkdir name d1 with
              | (Raised e, _) =>
                  if is_dir (stat d1 name) then (Returned tt, d1) else (Raised e, d1)
              | done => done
              end = (r, d') ->
              same_files d d' /\ (r = Returned tt -> is_dir (stat d' name) = true))
        as Hok.
      { intros [Hsame' Hdir]%makedirs_last. split; [|done].
        by eapply same_files_trans. }
      destruct r1 as [[]|e1]; [exact Hok|].
      destruct e1; (exact Hok || apply Hfail).
    + apply makedirs_last.
Qed.

Lemma makedirs_inv name w r w' :
  makedirs name w = (r, w') ->
  objects w' = objects w /\ stdout w' = stdout w /\ same_files (disk w) (disk w') /\
  (r = Returned tt -> is_dir (stat (disk w') name) = true).
Proof.
  unfold makedirs.
  destruct (makedirs_from (String.length name) name (disk w)) as [r1 d1] eqn:Hrun.
  intros [= <- <-]. simpl. apply makedirs_from_spec in Hrun as [Hsame Hdir]. done.
Qed.

Lemma makedirs_empty w : makedirs "" w = (Raised (FileNotFoundError ""), w).
Proof. by destruct w. Qed.

Lemma write_file_inv content path w r w' :
  write_file content path w = (r, w') ->
  (r = Returned tt /\
   w' = World (objects w) (<[path := File content]> (disk w)) (stdout w)) \/
  (exists e, r = Raised e /\ w' = w).
Proof.
  unfold write_file. destruct (_ && _).
  { intros [= <- <-]. right. eauto. }
  destruct (stat (disk w) path) as [[c|]|]; destruct (String.eqb path "");
    intros [= <- <-]; (by left) || (right; by eauto).
Qed.

Lemma write_file_run content path w :
  is_dir (stat (disk w) (dirname path)) = true -> plain path ->
  is_dir (disk w !! path) = false ->
  write_file content path w
  = (Returned tt, World (objects w) (<[path := File content]> (disk w)) (stdout w)).
Proof.
  intros Hparent Hpath Hfile. unfold write_file.
  rewrite Hparent, andb_false_r, (stat_plain _ _ Hpath), (plain_not_empty _ Hpath).
  by destruct (disk w !! path) as [[c|]|].
Qed.

Lemma same_files_write (d : gmap string node) (path : string) content (p : string) c :
  p <> path ->
  (<[path := File content]> d !! p = Some (File c) <-> d !! p = Some (File c)).
Proof. intros Hne. by rewrite lookup_insert_ne. Qed.

(** *** The fuel of [makedirs] is enough *)

Lemma string_length_list s : String.length s = length (String.list_ascii_of_string s).
Proof. induction s as [|c s IH]; simpl; [done | by rewrite IH]. Qed.

Lemma drop_while_length {A} (q : A -> bool) l : length (drop_while q l) <= length l.
Proof. induction l as [|x l IH]; simpl; [done|]. destruct (q x); simpl; lia. Qed.

Lemma drop_while_twice {A} (q1 q2 : A -> bool) l :
  (forall x, q1 x = negb (q2 x)) -> l <> [] ->
  length (drop_while q2 (drop_while q1 l)) < length l.
Proof.
  intros Hq. destruct l as [|x l]; [done|]. intros _. simpl. rewrite Hq.
  destruct (q2 x) eqn:Hx; simpl.
  - rewrite Hx. pose proof (drop_while_length q2 l). lia.
  - pose proof (drop_while_length q2 (drop_while q1 l)).
    pose proof (drop_while_length q1 l). lia.
Qed.

(** A directory name that is not the root is shorter than the path. *)
Lemma dirname_shorter p :
  forallb is_sep (String.list_ascii_of_string (dirname p)) = false ->
  String.length (dirname p) < String.length p.
Proof.
  unfold dirname.
  set (head := drop_while (fun c => negb (is_sep c)) (rev (String.list_ascii_of_string p))).
  destruct (forallb is_sep head) eqn:Hall.
  - rewrite String.list_ascii_of_string_of_list_ascii, forallb_rev. congruence.
  - intros _. rewrite !string_length_list, String.list_ascii_of_string_of_list_ascii.
    rewrite length_rev, <- (length_rev (String.list_ascii_of_string p)).
    apply drop_while_twice; [done|].
    intros Hnil. unfold head in Hall. by rewrite Hnil in Hall.
Qed.

Lemma makedirs_from_fuel f1 : forall f2 name d,
  String.length name <= f1 -> String.length name <= f2 ->
  makedirs_from f1 name d = makedirs_from f2 name d.
Proof.
  induction f1 as [|f1 IH]; intros f2 name d H1 H2.
  - destruct name; [|simpl in H1; lia]. by destruct f2.
  - destruct f2 as [|f2].
    { destruct name; [done | simpl in H2; lia]. }
    simpl.
    destruct (String.eqb (dirname name) "") eqn:Hhead; [done|].
    destruct (stat d (dirname name)) as [n|] eqn:Hstat; [done|]. simpl.
    assert (String.length (dirname name) < String.length name) as Hlt.
    { apply dirname_shorter. unfold stat in Hstat. rewrite Hhead in Hstat.
      by destruct (forallb is_sep _). }
    rewrite (IH f2) by lia. done.
Qed.

(** ** Asking the APIs *)

Section EtlFacts.

Context `{Environment}.

(** What one request, checked and decoded, comes to: the data of a
    proper answer, or an error; the world is as it was. *)
Lemma ask_inv {A} url params (k : list (string * list reading) -> io A) w r w' :
  (resp <- requests_get url params ;;
   raise_for_status resp ;;
   data <- resp_json resp ;;
   k data)%io w = (r, w') ->
  (exists data, answers url params data /\ k data w = (r, w')) \/
  ((forall data, ~ answers url params data) /\ exists e, r = Raised e /\ w' = w).
Proof.
  unfold io_bind, requests_get, raise_for_status, resp_json, answers, io_raise, io_ret.
  destruct (request url params) as [resp|] eqn:Hreq.
  - destruct ((400 <=? status_code resp) && (status_code resp <? 600)) eqn:Hstatus.
    + intros [= <- <-]. right. split; [|by eauto].
      intros data (resp' & [= <-] & Hok & _). congruence.
    + destruct (json resp) as [data|] eqn:Hjson.
      * intros Hk. left. exists data. split; [|done]. by exists resp.
      * intros [= <- <-]. right. split; [|by eauto].
        intros data (resp' & [= <-] & _ & Hj). congruence.
  - intros [= <- <-]. right. split; [|by eauto].
    intros data (resp' & Hreq' & _). discriminate Hreq'.
Qed.

Lemma ask_run {A} url params data (k : list (string * list reading) -> io A) w :
  answers url params data ->
  (resp <- requests_get url params ;;
   raise_for_status resp ;;
   data <- resp_json resp ;;
   k data)%io w = k data w.
Proof.
  intros (resp & Hreq & Hstatus & Hjson).
  unfold io_bind, requests_get, raise_for_status, resp_json, io_raise, io_ret.
  rewrite Hreq, Hstatus. by rewrite Hjson.
Qed.

Lemma answers_unique url params data data' :
  answers url params data -> answers url params data' -> data = data'.
Proof.
  intros (resp & Hreq & _ & Hjson) (resp' & Hreq' & _ & Hjson'). congruence.
Qed.

(** The station loop leaves the world alone, whatever comes of it. *)
Lemma fetch_stations_world ym ids : forall records w r w',
  Etl.fetch_stations ym ids records w = (r, w') -> w' = w.
Proof.
  induction ids as [|id ids IH]; intros records w r w'; simpl.
  - by intros [= _ <-].
  - intros [(data & _ & Hk)|(_ & e & _ & ->)]%ask_inv; [|done]. by eapply IH.
Qed.

Lemma fetch_stations_run ym (data : Z -> list (string * list reading)) ids :
  forall records w,
  (forall id, id ∈ ids -> answers Etl.API_QUALIDADE_AR_URL (station_params id ym) (data id)) ->
  Etl.fetch_stations ym ids records w
  = (Returned (records ++ flat_map (fun id =>
                 map (dict_update "station" (Num (inject_Z id)))
                     (data_get "readings" (data id))) ids), w).
Proof.
  induction ids as [|id ids IH]; intros records w Hall; simpl.
  - by rewrite app_nil_r.
  - rewrite (ask_run _ _ (data id)) by (apply Hall; left).
    rewrite IH by (intros id' Hid'; apply Hall; by right).
    by rewrite <- app_assoc.
Qed.

Lemma fetch_stations_fails ym ids : forall records w,
  (exists id, id ∈ ids /\
     forall data, ~ answers Etl.API_QUALIDADE_AR_URL (station_params id ym) data) ->
  exists e, Etl.fetch_stations ym ids records w = (Raised e, w).
Proof.
  induction ids as [|id ids IH]; intros records w (bad & Hin & Hbad).
  - by apply elem_of_nil in Hin.
  - destruct (Etl.fetch_stations ym (id :: ids) records w) as [r w'] eqn:Hrun.
    pose proof (fetch_stations_world _ _ _ _ _ _ Hrun) as ->.
    simpl in Hrun. apply ask_inv in Hrun as [(data & Hdata & Hk)|(_ & e & -> & _)];
      [|by eauto].
    apply elem_of_cons in Hin as [->|Hin]; [by destruct (Hbad data)|].
    destruct (IH (records ++ map (dict_update "station" (Num (inject_Z id)))
                                 (data_get "readings" data)) w) as [e He]; [by eauto|].
    rewrite He in Hk. injection Hk as <-. eauto.
Qed.

End EtlFacts.

(** ** Storing what was fetched *)

Lemma store_inv content path msg w r w' :
  (write_file content path ;; print msg)%io w = (r, w') ->
  (r = Returned tt /\
   w' = World (objects w) (<[path := File content]> (disk w)) (stdout w ++ [msg])) \/
  (exists e, r = Raised e /\ w' = w).
Proof.
  intros [(e & Hw & ->)|([] & w1 & Hw & Hp)]%io_bind_inv.
  - apply write_file_inv in Hw as [[[=] _]|(e' & _ & ->)]. right. eauto.
  - apply write_file_inv in Hw as [[_ ->]|(e' & [=] & _)].
    unfold print in Hp. simpl in Hp. injection Hp as <- <-. by left.
Qed.

Lemma makedirs_world name w r w' :
  makedirs name w = (r, w') ->
  exists d1, w' = World (objects w) d1 (stdout w) /\ same_files (disk w) d1 /\
    (r = Returned tt -> is_dir (stat d1 name) = true).
Proof.
  intros Hm. destruct (makedirs_inv _ _ _ _ Hm) as (Ho & Hs & Hsame & Hdir).
  exists (disk w'). split; [|done]. destruct w'; simpl in *. by subst.
Qed.

Section EtlStores.

Context `{Environment}.

(** Every way [fetch_and_store_air_quality] can end: the directories
    made, and then either the CSV of the gathered records written and
    reported, or an error and nothing more. *)
Lemma fetch_air_inv ym w r w' :
  Etl.fetch_and_store_air_quality ym w = (r, w') ->
  exists d1, same_files (disk w) d1 /\
    ((exists records,
        Etl.fetch_stations ym stations [] (World (objects w) d1 (stdout w))
        = (Returned records, World (objects w) d1 (stdout w)) /\
        r = Returned tt /\
        w' = World (objects w)
               (<[air_quality_csv ym := File (records_to_csv records)]> d1)
               (stdout w ++ [air_saved ym])) \/
     (exists e, r = Raised e /\ w' = World (objects w) d1 (stdout w))).
Proof.
  unfold Etl.fetch_and_store_air_quality.
  intros [(e & Hm & ->)|([] & w1 & Hm & Hk)]%io_bind_inv.
  - apply makedirs_world in Hm as (d1 & -> & Hsame & _).
    exists d1. split; [done|]. right. eauto.
  - apply makedirs_world in Hm as (d1 & -> & Hsame & _).
    exists d1. split; [done|].
    apply io_bind_inv in Hk as [(e & Hf & ->)|(records & w2 & Hf & Hk)].
    + pose proof (fetch_stations_world _ _ _ _ _ _ Hf) as ->. right. eauto.
    + pose proof (fetch_stations_world _ _ _ _ _ _ Hf) as ->.
      apply store_inv in Hk as [[-> ->]|(e & -> & ->)]; [left | right; by eauto].
      exists records. done.
Qed.

Lemma fetch_hospitalizations_inv ym w r w' :
  Etl.fetch_and_store_hospitalizations ym w = (r, w') ->
  exists d1, same_files (disk w) d1 /\
    ((exists data,
        answers Etl.DATASUS_URL (month_params ym) data /\
        r = Returned tt /\
        w' = World (objects w)
               (<[hospitalizations_csv ym
                  := File (records_to_csv (data_get "result" data))]> d1)
               (stdout w ++ [hospitalizations_saved ym])) \/
     (exists e, r = Raised e /\ w' = World (objects w) d1 (stdout w))).
Proof.
  unfold Etl.fetch_and_store_hospitalizations.
  intros [(e & Hm & ->)|([] & w1 & Hm & Hk)]%io_bind_inv.
  - apply makedirs_world in Hm as (d1 & -> & Hsame & _).
    exists d1. split; [done|]. right. eauto.
  - apply makedirs_world in Hm as (d1 & -> & Hsame & _).
    exists d1. split; [done|].
    apply ask_inv in Hk as [(data & Hdata & Hk)|(_ & e & -> & ->)]; [|right; by eauto].
    apply store_inv in Hk as [[-> ->]|(e & -> & ->)]; [left | right; by eauto].
    exists data. done.
Qed.

Lemma download_jp_inv ym w r w' :
  Etl.download_hospitalizations_jp_icd_j00_j99 ym w = (r, w') ->
  exists d1, same_files (disk w) d1 /\
    ((exists data,
        answers Etl.DATASUS_URL (jp_params (default (strftime_Y_m today) ym)) data /\
        r = Returned tt /\
        w' = World (objects w)
               (<[internacoes_jp_csv := File (records_to_csv (data_get "result" data))]> d1)
               (stdout w ++ [jp_saved])) \/
     (exists e, r = Raised e /\ w' = World (objects w) d1 (stdout w))).
Proof.
  unfold Etl.download_hospitalizations_jp_icd_j00_j99.
  intros [(e & Hm & ->)|([] & w1 & Hm & Hk)]%io_bind_inv.
  - apply makedirs_world in Hm as (d1 & -> & Hsame & _).
    exists d1. split; [done|]. right. eauto.
  - apply makedirs_world in Hm as (d1 & -> & Hsame & _).
    exists d1. split; [done|].
    assert (match ym with Some m => m | None => strftime_Y_m today end
            = default (strftime_Y_m today) ym) as Hym by (by destruct ym).
    rewrite Hym in Hk.
    apply ask_inv in Hk as [(data & Hdata & Hk)|(_ & e & -> & ->)]; [|right; by eauto].
    apply store_inv in Hk as [[-> ->]|(e & -> & ->)]; [left | right; by eauto].
    exists data. done.
Qed.

End EtlStores.

Lemma no_sep_append a b : no_sep (String.append a b) = no_sep a && no_sep b.
Proof. unfold no_sep. by rewrite list_ascii_app, forallb_app. Qed.

Lemma same_files_lookup d d' (p : string) c :
  same_files d d' -> d !! p = Some (File c) -> d' !! p = Some (File c).
Proof. intros Hsame Hp. by apply Hsame. Qed.

Section ReadBack.

Context `{Environment}.

(** [pd.read_csv] on a path that holds a file. *)
Lemma pd_read_csv_run path content w :
  plain path -> disk w !! path = Some (File content) ->
  pd_read_csv path w
  = match parse_csv content with
    | Some f => (Returned (length (objects w)), World (objects w ++ [f]) (disk w) (stdout w))
    | None => (Raised (ParserError path), w)
    end.
Proof.
  intros Hpath Hfile. unfold pd_read_csv.
  erewrite io_bind_returned; cycle 1.
  { unfold read_file. rewrite stat_plain by done. by rewrite Hfile. }
  by destruct (parse_csv content).
Qed.

Lemma pd_read_csv_missing path w :
  stat (disk w) path = None ->
  pd_read_csv path w = (Raised (FileNotFoundError path), w).
Proof.
  intros Hstat. unfold pd_read_csv. apply io_bind_raised.
  unfold read_file. by rewrite Hstat.
Qed.

End ReadBack.

(** ** etl.py *)

Section EtlClaims.

Context `{Environment}.

(** When the raw directory can be made and every station answers,
    [fetch_and_store_air_quality] writes one file,
    [RAW_DIR/air_quality_<month>.csv]: the CSV of the readings of the
    stations in the order 101 to 104, each tagged with its station, and it
    reports the path on the console.  Nothing else changes. *)
Theorem fetch_and_store_air_quality_stores ym (data : Z -> list (string * list reading))
    w d1 :
  no_sep ym = true ->
  makedirs Etl.RAW_DIR w = (Returned tt, World (objects w) d1 (stdout w)) ->
  (forall id, id ∈ stations ->
     answers Etl.API_QUALIDADE_AR_URL (station_params id ym) (data id)) ->
  is_dir (d1 !! air_quality_csv ym) = false ->
  Etl.fetch_and_store_air_quality ym w
  = (Returned tt,
     World (objects w)
       (<[air_quality_csv ym
          := File (records_to_csv
                     (fetch_and_store_air_quality
                        (fun id => data_get "readings" (data id))))]> d1)
       (stdout w ++ [air_saved ym])).
Proof.
  intros Hym Hmk Hall Hfile. unfold Etl.fetch_and_store_air_quality.
  rewrite (io_bind_returned _ _ _ _ _ Hmk).
  rewrite (io_bind_returned _ _ _ _ _ (fetch_stations_run ym data stations [] _ Hall)).
  apply makedirs_world in Hmk as (d1' & [= <-] & _ & Hdir).
  erewrite io_bind_returned; cycle 1.
  { apply write_file_run; [|apply air_quality_csv_plain|exact Hfile].
    cbn [disk]. fold (air_quality_csv ym). unfold air_quality_csv.
    rewrite dirname_join; [by apply Hdir | apply RAW_DIR_plain|].
    by rewrite !no_sep_append, Hym. }
  done.
Qed.

(** All or nothing: if a single station does not answer properly (no
    response, an error status or a body that is not JSON) the call raises
    and no file is created or changed, so no partial CSV is ever
    written; nothing is printed. *)
Theorem fetch_and_store_air_quality_all_or_nothing ym w :
  (exists id, id ∈ stations /\
     forall data, ~ answers Etl.API_QUALIDADE_AR_URL (station_params id ym) data) ->
  exists e w', Etl.fetch_and_store_air_quality ym w = (Raised e, w') /\
    same_files (disk w) (disk w') /\ stdout w' = stdout w /\ objects w' = objects w.
Proof.
  intros Hbad.
  destruct (Etl.fetch_and_store_air_quality ym w) as [r w'] eqn:Hrun.
  destruct (fetch_air_inv _ _ _ _ Hrun) as (d1 & Hsame & [Hok|(e & -> & ->)]).
  - destruct Hok as (records & Hf & _).
    destruct (fetch_stations_fails ym stations [] (World (objects w) d1 (stdout w)) Hbad)
      as [e He].
    rewrite He in Hf. discriminate Hf.
  - by exists e, (World (objects w) d1 (stdout w)).
Qed.

(** Each fetcher can create or change one file only, its own: every
    other path holds the same file, or none, before and after the call,
    however the call ends. *)
Theorem fetchers_touch_only_their_file w r w' :
  (forall ym, Etl.fetch_and_store_air_quality ym w = (r, w') ->
     forall p c, p <> air_quality_csv ym ->
       (disk w' !! p = Some (File c) <-> disk w !! p = Some (File c))) /\
  (forall ym, Etl.fetch_and_store_hospitalizations ym w = (r, w') ->
     forall p c, p <> hospitalizations_csv ym ->
       (disk w' !! p = Some (File c) <-> disk w !! p = Some (File c))) /\
  (forall ym, Etl.download_hospitalizations_jp_icd_j00_j99 ym w = (r, w') ->
     forall p c, p <> internacoes_jp_csv ->
       (disk w' !! p = Some (File c) <-> disk w !! p = Some (File c))).
Proof.
  split; [|split]; intros ym Hrun p c Hp.
  - destruct (fetch_air_inv _ _ _ _ Hrun) as (d1 & Hsame & [Hok|(e & -> & ->)]).
    + destruct Hok as (records & _ & _ & ->). cbn [disk].
      rewrite lookup_insert_ne by done. apply Hsame.
    + apply Hsame.
  - destruct (fetch_hospitalizations_inv _ _ _ _ Hrun) as (d1 & Hsame & [Hok|(e & -> & ->)]).
    + destruct Hok as (data & _ & _ & ->). cbn [disk].
      rewrite lookup_insert_ne by done. apply Hsame.
    + apply Hsame.
  - destruct (download_jp_inv _ _ _ _ Hrun) as (d1 & Hsame & [Hok|(e & -> & ->)]).
    + destruct Hok as (data & _ & _ & ->). cbn [disk].
      rewrite lookup_insert_ne by done. apply Hsame.
    + apply Hsame.
Qed.

(** Fetching the air quality of one month never creates or changes the
    stored file of another month, nor a file of admissions. *)
Theorem fetch_and_store_air_quality_keeps_others ym w r w' :
  Etl.fetch_and_store_air_quality ym w = (r, w') ->
  forall c,
    (forall other, other <> ym ->
       (disk w' !! air_quality_csv other = Some (File c)
        <-> disk w !! air_quality_csv other = Some (File c))) /\
    (forall other,
       (disk w' !! hospitalizations_csv other = Some (File c)
        <-> disk w !! hospitalizations_csv other = Some (File c))) /\
    (disk w' !! internacoes_jp_csv = Some (File c)
     <-> disk w !! internacoes_jp_csv = Some (File c)).
Proof.
  intros Hrun c.
  assert (forall p, p <> air_quality_csv ym ->
            (disk w' !! p = Some (File c) <-> disk w !! p = Some (File c))) as Hother.
  { intros p Hp.
    destruct (fetch_air_inv _ _ _ _ Hrun) as (d1 & Hsame & [Hok|(e & -> & ->)]).
    - destruct Hok as (records & _ & _ & ->). cbn [disk].
      rewrite lookup_insert_ne by done. apply Hsame.
    - apply Hsame. }
  split; [|split].
  - intros other Hne. apply Hother. intros Heq%air_quality_csv_inj. done.
  - intros other. apply Hother. intros Heq. symmetry in Heq.
    by apply air_not_hospitalizations in Heq.
  - apply Hother. intros Heq. symmetry in Heq. by apply air_not_jp in Heq.
Qed.

(** The loader finds what the fetcher stored: after a successful
    [fetch_and_store_air_quality] for a month, [load_air_quality] for
    that month reads the CSV of the tagged readings back; it never fails
    for a missing file. *)
Theorem load_air_quality_after_fetch ym (data : Z -> list (string * list reading)) w w' :
  Etl.fetch_and_store_air_quality ym w = (Returned tt, w') ->
  (forall id, id ∈ stations ->
     answers Etl.API_QUALIDADE_AR_URL (station_params id ym) (data id)) ->
  LoadData.load_air_quality ym w'
  = match parse_csv (records_to_csv (fetch_and_store_air_quality
                                       (fun id => data_get "readings" (data id)))) with
    | Some f =>
        (Returned (length (objects w')), World (objects w' ++ [f]) (disk w') (stdout w'))
    | None => (Raised (ParserError (air_quality_csv ym)), w')
    end.
Proof.
  intros Hrun Hall.
  destruct (fetch_air_inv _ _ _ _ Hrun) as (d1 & Hsame & [Hok|(e & [=] & _)]).
  destruct Hok as (records & Hf & _ & ->).
  rewrite (fetch_stations_run ym data stations [] _ Hall) in Hf.
  injection Hf as <-.
  apply (pd_read_csv_run (air_quality_csv ym)); [apply air_quality_csv_plain|].
  cbn [disk]. apply lookup_insert_eq.
Qed.

(** The filtered admissions have one file for all months: a download
    replaces what an earlier download, of whatever month, had stored, and
    [load_hospitalizations_jp] reads the latest one. *)
Theorem download_hospitalizations_jp_overwrites earlier later w0 w1 w2 data :
  Etl.download_hospitalizations_jp_icd_j00_j99 (Some earlier) w0 = (Returned tt, w1) ->
  Etl.download_hospitalizations_jp_icd_j00_j99 (Some later) w1 = (Returned tt, w2) ->
  answers Etl.DATASUS_URL (jp_params later) data ->
  LoadData.load_hospitalizations_jp w2
  = match parse_csv (records_to_csv (data_get "result" data)) with
    | Some f =>
        (Returned (length (objects w2)), World (objects w2 ++ [f]) (disk w2) (stdout w2))
    | None => (Raised (ParserError internacoes_jp_csv), w2)
    end.
Proof.
  intros _ Hrun Hdata.
  destruct (download_jp_inv _ _ _ _ Hrun) as (d1 & Hsame & [Hok|(e & [=] & _)]).
  destruct Hok as (data' & Hdata' & _ & ->). simpl in Hdata'.
  rewrite (answers_unique _ _ _ _ Hdata Hdata').
  apply (pd_read_csv_run internacoes_jp_csv); [apply internacoes_jp_csv_plain|].
  cbn [disk]. apply lookup_insert_eq.
Qed.

(** After the script has run through, the three files that
    load_data.py reads for the same day are on the disk. *)
Theorem etl_main_provides_inputs w w' :
  Etl.main w = (Returned tt, w') ->
  exists air hosp jp,
    disk w' !! air_quality_csv (strftime_Y_m today) = Some (File air) /\
    disk w' !! hospitalizations_csv (strftime_Y_m today) = Some (File hosp) /\
    disk w' !! internacoes_jp_csv = Some (File jp).
Proof.
  unfold Etl.main.
  intros [(e & _ & [=])|([] & w1 & Hair & Hk)]%io_bind_inv.
  apply io_bind_inv in Hk as [(e & _ & [=])|([] & w2 & Hhosp & Hjp)].
  destruct (fetch_air_inv _ _ _ _ Hair) as (d1 & _ & [Hok|(e & [=] & _)]).
  destruct Hok as (records & _ & _ & ->).
  destruct (fetch_hospitalizations_inv _ _ _ _ Hhosp) as (d2 & Hsame2 & [Hok|(e & [=] & _)]).
  destruct Hok as (data2 & _ & _ & ->).
  destruct (download_jp_inv _ _ _ _ Hjp) as (d3 & Hsame3 & [Hok|(e & [=] & _)]).
  destruct Hok as (data3 & _ & _ & ->).
  cbn [disk] in *. eexists _, _, _. split; [|split].
  - rewrite lookup_insert_ne by (intros Heq; symmetry in Heq; by apply air_not_jp in Heq).
    apply Hsame3.
    rewrite lookup_insert_ne
      by (intros Heq; symmetry in Heq; by apply air_not_hospitalizations in Heq).
    apply Hsame2. apply lookup_insert_eq.
  - rewrite lookup_insert_ne
      by (intros Heq; symmetry in Heq; by apply hospitalizations_not_jp in Heq).
    apply Hsame3. apply lookup_insert_eq.
  - apply lookup_insert_eq.
Qed.

End EtlClaims.

(** ** load_data.py *)

Section CleanFrame.

Context `{DateParser}.

(** [clean_data] in the heap and [clean_frame] on the frame agree. *)
Lemma clean_data_frame (h : heap) r f date_col :
  h !! r = Some f -> NoDup (columns f) ->
  clean_data r date_col h
  = match clean_frame date_col f with
    | Ok (g, out) => (Ok (length h), <[r := g]> h ++ [out])
    | Raise e => (Raise e, h)
    end.
Proof.
  intros Hr Hnd. unfold clean_frame.
  destruct (get_column date_col f) as [s|] eqn:Hs;
    [|by apply (clean_data_key_error _ _ f)].
  destruct (to_datetime s) as [d|e] eqn:Hd; simpl.
  - by apply (clean_data_run _ _ _ _ s).
  - by apply (clean_data_date_error _ _ f _ s).
Qed.

(** One of the three cleaning steps of [main]: the frame sits [i] places
    after the objects that were there before the script started. *)
Lemma clean_step (h0 l : heap) i f date_col g out d s :
  l !! i = Some f -> NoDup (columns f) -> clean_frame date_col f = Ok (g, out) ->
  on_objects (clean_data (length h0 + i) date_col) (World (h0 ++ l) d s)
  = (Returned (length h0 + length l), World (h0 ++ (<[i := g]> l ++ [out])) d s).
Proof.
  intros Hi Hnd Hclean. unfold on_objects. cbn [objects disk stdout].
  rewrite (clean_data_frame _ _ f) by (done || by rewrite lookup_app_r, Nat.add_sub' by lia).
  rewrite Hclean, length_app.
  rewrite insert_app_r_alt, Nat.add_sub', <- app_assoc by lia. done.
Qed.

End CleanFrame.

Section LoadDataClaims.

Context `{Environment} `{DateParser}.

Variable numeric_only : bool.

Lemma processed_dir_plain : plain processed_dir.
Proof.
  apply plain_join.
  by exists (String.list_ascii_of_string "processe"), "d"%char.
Qed.

Lemma merged_monthly_csv_plain : plain merged_monthly_csv.
Proof. apply plain_join. apply (plain_csv "merged_monthly"). Qed.

Lemma dirname_merged_monthly_csv : dirname merged_monthly_csv = processed_dir.
Proof. apply (dirname_join processed_dir); [apply processed_dir_plain | done]. Qed.

(** [save_monthly] needs a directory in the path: with a bare file name
    the directory to make is the empty path, [os.makedirs] raises
    [FileNotFoundError], and nothing is written or printed. *)
Theorem save_monthly_bare_file_name merged_df output_path w :
  no_sep output_path = true ->
  LoadData.save_monthly merged_df output_path w = (Raised (FileNotFoundError ""), w).
Proof.
  intros Hname. unfold LoadData.save_monthly.
  rewrite (dirname_no_sep _ Hname). apply io_bind_raised, makedirs_empty.
Qed.

(** With a directory and a file name, [save_monthly] makes the directory
    if need be, writes the table there and reports the path. *)
Theorem save_monthly_stores merged_df dir name w d1 :
  plain dir -> plain name -> no_sep name = true ->
  makedirs dir w = (Returned tt, World (objects w) d1 (stdout w)) ->
  is_dir (d1 !! path_join dir name) = false ->
  LoadData.save_monthly merged_df (path_join dir name) w
  = (Returned tt,
     World (objects w) (<[path_join dir name := File (table_to_csv merged_df)]> d1)
       (stdout w ++ [String.append "Monthly merged data saved to: " (path_join dir name)])).
Proof.
  intros Hdir Hplain Hname Hmk Hfile. unfold LoadData.save_monthly.
  rewrite (dirname_join _ _ Hdir Hname), (io_bind_returned _ _ _ _ _ Hmk).
  apply makedirs_world in Hmk as (d1' & [= <-] & _ & Hisdir).
  erewrite io_bind_returned; cycle 1.
  { apply write_file_run; [|by apply plain_join|exact Hfile].
    cbn [disk]. rewrite (dirname_join _ _ Hdir Hname). by apply Hisdir. }
  done.
Qed.

(** When the air-quality file of the current month is not there,
    [main] stops at the first load with [FileNotFoundError] for that
    path; nothing is loaded, written or printed. *)
Theorem main_missing_air_quality w :
  stat (disk w) (air_quality_csv (strftime_Y_m today)) = None ->
  LoadData.main numeric_only w
  = (Raised (FileNotFoundError (air_quality_csv (strftime_Y_m today))), w).
Proof.
  intros Hstat. unfold LoadData.main.
  apply io_bind_raised. by apply pd_read_csv_missing.
Qed.

(** The whole of [main]: the three files are read into three new
    frames, each is cleaned on its own, in place, and gets its cleaned
    copy; the table written to [processed/merged_monthly.csv] is the
    aggregation of the three cleaned copies, each as [clean_data] alone
    would have made it: cleaning one input never disturbs another.  The
    raw files stay as they are. *)
Theorem main_pipeline w air hosp jp fa fh fj ga oa gh oh gj oj merged d1 :
  let month := strftime_Y_m today in
  disk w !! air_quality_csv month = Some (File air) ->
  disk w !! hospitalizations_csv month = Some (File hosp) ->
  disk w !! internacoes_jp_csv = Some (File jp) ->
  parse_csv air = Some fa -> parse_csv hosp = Some fh -> parse_csv jp = Some fj ->
  NoDup (columns fa) -> NoDup (columns fh) -> NoDup (columns fj) ->
  clean_frame "timestamp" fa = Ok (ga, oa) ->
  clean_frame "admission_date" fh = Ok (gh, oh) ->
  clean_frame "admission_date" fj = Ok (gj, oj) ->
  aggregate_monthly numeric_only oa oh oj = Ok merged ->
  makedirs processed_dir w = (Returned tt, World (objects w) d1 (stdout w)) ->
  is_dir (d1 !! merged_monthly_csv) = false ->
  LoadData.main numeric_only w
  = (Returned tt,
     World (objects w ++ [ga; gh; gj; oa; oh; oj])
       (<[merged_monthly_csv := File (table_to_csv merged)]> d1)
       (stdout w ++ [merged_saved])).
Proof.
  intros month Hair Hhosp Hjp Hfa Hfh Hfj Hna Hnh Hnj Hca Hch Hcj Hagg Hmk Hfile.
  destruct w as [h0 d s]. cbn [objects disk stdout] in *.
  unfold LoadData.main. fold month.
  erewrite io_bind_returned; cycle 1.
  { unfold LoadData.load_air_quality. rewrite RAW_DIR_same.
    fold (air_quality_csv month).
    rewrite (pd_read_csv_run _ air) by (apply air_quality_csv_plain || done).
    rewrite Hfa. reflexivity. }
  cbn [objects disk stdout].
  erewrite io_bind_returned; cycle 1.
  { unfold LoadData.load_hospitalizations. rewrite RAW_DIR_same.
    fold (hospitalizations_csv month).
    rewrite (pd_read_csv_run _ hosp) by (apply hospitalizations_csv_plain || done).
    rewrite Hfh. reflexivity. }
  cbn [objects disk stdout].
  erewrite io_bind_returned; cycle 1.
  { unfold LoadData.load_hospitalizations_jp. rewrite RAW_DIR_same.
    fold internacoes_jp_csv.
    rewrite (pd_read_csv_run _ jp) by (apply internacoes_jp_csv_plain || done).
    rewrite Hfj. reflexivity. }
  cbn [objects disk stdout]. rewrite <- !app_assoc. cbn [app].
  rewrite !length_app. cbn [length].
  erewrite io_bind_returned; cycle 1.
  { rewrite <- (Nat.add_0_r (length h0)) at 1.
    by apply (clean_step h0 [fa; fh; fj] 0 fa). }
  cbn [list_insert insert app length].
  erewrite io_bind_returned; cycle 1.
  { replace (length h0 + 1 + 1) with (length h0 + 2) by lia.
    by apply (clean_step h0 [ga; fh; fj; oa] 1 fh). }
  cbn [list_insert insert app length].
  erewrite io_bind_returned; cycle 1.
  { by apply (clean_step h0 [ga; gh; fj; oa; oh] 2 fj). }
  cbn [list_insert insert app length].
  assert (forall i f, [ga; gh; gj; oa; oh; oj] !! i = Some f ->
            on_objects (deref (length h0 + i)) (World (h0 ++ [ga; gh; gj; oa; oh; oj]) d s)
            = (Returned f, World (h0 ++ [ga; gh; gj; oa; oh; oj]) d s)) as Hderef.
  { intros i f Hi. unfold on_objects, deref. cbn [objects disk stdout].
    by rewrite lookup_app_r, Nat.add_sub', Hi by lia. }
  rewrite (io_bind_returned _ _ _ _ _ (Hderef 3 oa eq_refl)).
  rewrite (io_bind_returned _ _ _ _ _ (Hderef 4 oh eq_refl)).
  rewrite (io_bind_returned _ _ _ _ _ (Hderef 5 oj eq_refl)).
  rewrite Hagg. unfold of_result. rewrite (io_bind_returned _ _ _ (io_ret merged _) _ eq_refl)
    || (unfold io_bind at 1, io_ret at 1).
  fold processed_dir.
  change (path_join processed_dir "merged_monthly.csv") with merged_monthly_csv.
  unfold LoadData.save_monthly. rewrite dirname_merged_monthly_csv.
  assert (makedirs processed_dir (World (h0 ++ [ga; gh; gj; oa; oh; oj]) d s)
          = (Returned tt, World (h0 ++ [ga; gh; gj; oa; oh; oj]) d1 s)) as Hmk'.
  { unfold makedirs in *. cbn [objects disk stdout] in *.
    destruct (makedirs_from _ _ d) as [r0 d0]. by injection Hmk as -> ->. }
  rewrite (io_bind_returned _ _ _ _ _ Hmk').
  apply makedirs_world in Hmk' as (d1' & [= <-] & _ & Hisdir).
  erewrite io_bind_returned; cycle 1.
  { apply write_file_run; [|apply merged_monthly_csv_plain|exact Hfile].
    cbn [disk]. rewrite dirname_merged_monthly_csv. by apply Hisdir. }
  done.
Qed.

End LoadDataClaims.

(** ** The scripts in the example environment *)

Lemma fetch_and_store_air_quality_stores_witness :
  no_sep "2024-01" = true /\
  is_dir ((makedirs (@Etl.RAW_DIR demo) empty_world).2.(disk) !! @air_quality_csv demo "2024-01")
  = false /\
  @Etl.fetch_and_store_air_quality demo "2024-01" empty_world
  = (Returned tt,
     World []
       (<[@air_quality_csv demo "2024-01"
          := File (demo_records_to_csv
                     (fetch_and_store_air_quality
                        (fun id => data_get "readings" (demo_data "2024-01" id))))]>
          (makedirs (@Etl.RAW_DIR demo) empty_world).2.(disk))
       [@air_saved demo "2024-01"]).
Proof.
  split; [done|]. split; [by vm_compute|].
  apply (@fetch_and_store_air_quality_stores demo "2024-01" (demo_data "2024-01")
           empty_world ((makedirs (@Etl.RAW_DIR demo) empty_world).2.(disk))).
  - done.
  - by vm_compute.
  - intros id Hid.
    repeat (apply elem_of_cons in Hid as [->|Hid];
            [eexists; split; [vm_compute; reflexivity|]; by split|]).
    by apply elem_of_nil in Hid.
  - by vm_compute.
Defined.

Lemma fetch_and_store_air_quality_all_or_nothing_witness :
  (103%Z ∈ stations /\
   forall data,
     ~ @answers demo_down (@Etl.API_QUALIDADE_AR_URL) (station_params 103 "2024-01") data) /\
  exists e w', @Etl.fetch_and_store_air_quality demo_down "2024-01" empty_world
               = (Raised e, w') /\
    same_files (disk empty_world) (disk w') /\ stdout w' = [] /\ objects w' = [].
Proof.
  assert (forall data,
            ~ @answers demo_down (@Etl.API_QUALIDADE_AR_URL)
                (station_params 103 "2024-01") data) as Hdown.
  { intros data (resp & Hreq & Hstatus & _).
    vm_compute in Hreq. injection Hreq as <-. discriminate Hstatus. }
  split; [split; [by do 2 right; left | exact Hdown]|].
  apply (@fetch_and_store_air_quality_all_or_nothing demo_down "2024-01" empty_world).
  exists 103%Z. split; [by do 2 right; left | exact Hdown].
Defined.

Lemma fetchers_touch_only_their_file_witness :
  @Etl.fetch_and_store_air_quality demo "2024-01" after_etl
  = (@Etl.fetch_and_store_air_quality demo "2024-01" after_etl) /\
  forall p c, p <> @air_quality_csv demo "2024-01" ->
    (disk (@Etl.fetch_and_store_air_quality demo "2024-01" after_etl).2 !! p = Some (File c)
     <-> disk after_etl !! p = Some (File c)).
Proof.
  split; [done|].
  destruct (@Etl.fetch_and_store_air_quality demo "2024-01" after_etl) as [r w'] eqn:Hrun.
  exact (proj1 (@fetchers_touch_only_their_file demo after_etl r w') "2024-01" Hrun).
Defined.

Lemma fetch_and_store_air_quality_keeps_others_witness :
  @Etl.fetch_and_store_air_quality demo "2024-02" after_etl
  = (@Etl.fetch_and_store_air_quality demo "2024-02" after_etl) /\
  forall c,
    (forall other, other <> "2024-02" ->
       (disk (@Etl.fetch_and_store_air_quality demo "2024-02" after_etl).2
          !! @air_quality_csv demo other = Some (File c)
        <-> disk after_etl !! @air_quality_csv demo other = Some (File c))) /\
    (forall other,
       (disk (@Etl.fetch_and_store_air_quality demo "2024-02" after_etl).2
          !! @hospitalizations_csv demo other = Some (File c)
        <-> disk after_etl !! @hospitalizations_csv demo other = Some (File c))) /\
    (disk (@Etl.fetch_and_store_air_quality demo "2024-02" after_etl).2
       !! @internacoes_jp_csv demo = Some (File c)
     <-> disk after_etl !! @internacoes_jp_csv demo = Some (File c)).
Proof.
  split; [done|].
  destruct (@Etl.fetch_and_store_air_quality demo "2024-02" after_etl) as [r w'] eqn:Hrun.
  exact (@fetch_and_store_air_quality_keeps_others demo "2024-02" after_etl r w' Hrun).
Defined.

Lemma load_air_quality_after_fetch_witness :
  @Etl.fetch_and_store_air_quality demo "2024-01" empty_world
  = (Returned tt, (@Etl.fetch_and_store_air_quality demo "2024-01" empty_world).2) /\
  (@LoadData.load_air_quality demo "2024-01"
     (@Etl.fetch_and_store_air_quality demo "2024-01" empty_world).2).1
  = Returned 0.
Proof.
  assert (@Etl.fetch_and_store_air_quality demo "2024-01" empty_world
          = (Returned tt, (@Etl.fetch_and_store_air_quality demo "2024-01" empty_world).2))
    as Hrun by (by vm_compute).
  split; [exact Hrun|].
  rewrite (@load_air_quality_after_fetch demo "2024-01" (demo_data "2024-01")
             empty_world _ Hrun).
  - by vm_compute.
  - intros id Hid.
    repeat (apply elem_of_cons in Hid as [->|Hid];
            [eexists; split; [vm_compute; reflexivity|]; by split|]).
    by apply elem_of_nil in Hid.
Defined.

Lemma download_hospitalizations_jp_overwrites_witness :
  let w1 := (@Etl.download_hospitalizations_jp_icd_j00_j99 demo (Some "2023-12")
               empty_world).2 in
  let w2 := (@Etl.download_hospitalizations_jp_icd_j00_j99 demo (Some "2024-01") w1).2 in
  @Etl.download_hospitalizations_jp_icd_j00_j99 demo (Some "2023-12") empty_world
  = (Returned tt, w1) /\
  @Etl.download_hospitalizations_jp_icd_j00_j99 demo (Some "2024-01") w1
  = (Returned tt, w2) /\
  (@LoadData.load_hospitalizations_jp demo w2).1 = Returned 0.
Proof.
  intros w1 w2.
  assert (@Etl.download_hospitalizations_jp_icd_j00_j99 demo (Some "2023-12") empty_world
          = (Returned tt, w1)) as H1 by (by vm_compute).
  assert (@Etl.download_hospitalizations_jp_icd_j00_j99 demo (Some "2024-01") w1
          = (Returned tt, w2)) as H2 by (by vm_compute).
  split; [exact H1|]. split; [exact H2|].
  rewrite (@download_hospitalizations_jp_overwrites demo "2023-12" "2024-01"
             empty_world w1 w2
             [("result", [[("admission_date", Text "2024-01-12");
                           ("diagnosis", Text "J45")]])] H1 H2).
  - by vm_compute.
  - eexists. split; [vm_compute; reflexivity|]. by split.
Defined.

Lemma etl_main_provides_inputs_witness :
  @Etl.main demo empty_world = (Returned tt, after_etl) /\
  exists air hosp jp,
    disk after_etl !! @air_quality_csv demo "2024-01" = Some (File air) /\
    disk after_etl !! @hospitalizations_csv demo "2024-01" = Some (File hosp) /\
    disk after_etl !! @internacoes_jp_csv demo = Some (File jp).
Proof.
  assert (@Etl.main demo empty_world = (Returned tt, after_etl)) as Hrun by (by vm_compute).
  split; [exact Hrun|].
  exact (@etl_main_provides_inputs demo empty_world after_etl Hrun).
Defined.

Lemma save_monthly_bare_file_name_witness :
  no_sep "merged_monthly.csv" = true /\
  @LoadData.save_monthly demo (Table [] []) "merged_monthly.csv" empty_world
  = (Raised (FileNotFoundError ""), empty_world).
Proof.
  split; [done|].
  exact (@save_monthly_bare_file_name demo (Table [] []) "merged_monthly.csv"
           empty_world eq_refl).
Defined.

Lemma save_monthly_stores_witness :
  (plain "out" /\ plain "monthly.csv" /\ no_sep "monthly.csv" = true) /\
  @LoadData.save_monthly demo (Table [] []) (path_join "out" "monthly.csv") empty_world
  = (Returned tt,
     World [] (<[path_join "out" "monthly.csv" := File (demo_table_to_csv (Table [] []))]>
                 (makedirs "out" empty_world).2.(disk))
       ["Monthly merged data saved to: out/monthly.csv"]).
Proof.
  assert (plain "out") as Hout by (by exists (String.list_ascii_of_string "ou"), "t"%char).
  assert (plain "monthly.csv") as Hname by apply (plain_csv "monthly").
  split; [by repeat split|].
  apply (@save_monthly_stores demo (Table [] []) "out" "monthly.csv" empty_world
           (makedirs "out" empty_world).2.(disk) Hout Hname eq_refl).
  - by vm_compute.
  - by vm_compute.
Defined.

Lemma main_missing_air_quality_witness :
  stat (disk empty_world) (@air_quality_csv demo "2024-01") = None /\
  @LoadData.main demo iso_dates true empty_world
  = (Raised (FileNotFoundError (@air_quality_csv demo "2024-01")), empty_world).
Proof.
  assert (stat (disk empty_world) (@air_quality_csv demo (@strftime_Y_m (@today demo)))
          = None) as Hstat by (by vm_compute).
  split; [exact Hstat|].
  exact (@main_missing_air_quality demo iso_dates true empty_world Hstat).
Defined.

Lemma main_pipeline_witness :
  @Etl.main demo empty_world = (Returned tt, after_etl) /\
  exists frames merged d1,
    @LoadData.main demo iso_dates true after_etl
    = (Returned tt,
       World (objects after_etl ++ frames)
         (<[@merged_monthly_csv demo := File (demo_table_to_csv merged)]> d1)
         (stdout after_etl ++ [@merged_saved demo])) /\
    length frames = 6 /\
    t_columns merged
    = [("air_pm25", [Some 10%Q; Some 0%Q]); ("air_station", [Some (203 # 2)%Q; Some 0%Q]);
       ("hospitalizations_total", [Some 1%Q; Some 1%Q]);
       ("hospitalizations_jp", [Some 1%Q; Some 0%Q])].
Proof.
  split; [by vm_compute|].
  eexists _, _, _. split; [|split].
  - eapply (@main_pipeline demo iso_dates true after_etl); try (vm_compute; reflexivity).
    + apply (bool_decide_unpack _). vm_compute. exact I.
    + apply (bool_decide_unpack _). vm_compute. exact I.
    + apply (bool_decide_unpack _). vm_compute. exact I.
  - reflexivity.
  - vm_compute. reflexivity.
Defined.
